(** * Log generator and log summarizer of [automation_generic]

    A shallow embedding of [log_mining/firewall_log_generator.py] and
    [log_mining/log_summarizer.py], and the properties of the two programs.

    Conventions of the embedding.
    - A Python [str] is a list of characters ([str := list ascii]); the
      character classes of [re] and of [str.strip]/[str.split] are the ASCII
      ones.
    - A Python [float] is a primitive binary64 [float]; its operations are the
      IEEE-754 ones of [PrimFloat], specified by [FloatAxioms].
    - A Python [int] is a [Z].
    - The module [random] is an interface ([RandomSource]): a state, the
      primitives [random()], [_randbelow(n)] and [expovariate(lambd)], and
      the ranges their documentation promises.  [randint], [choice] and
      [choices] are written over the primitives as CPython's [Lib/random.py]
      writes them.
    - A naive [datetime] of the generator is its number of microseconds since
      0001-01-01T00:00:00; the calendar is only needed to render it.  The
      year-9999 ceiling of [datetime] is not part of the model.
    - Functions that raise return an [outcome]; the rejection loop of
      [random_ipv4] takes fuel. *)

From Stdlib Require Import ZArith NArith List String Ascii Bool Lia Floats Sorted.
From Stdlib Require Import FunctionalExtensionality.
Import ListNotations.

Set Warnings "-inexact-float".

Open Scope string_scope.
Open Scope list_scope.
Open Scope Z_scope.

(* ================================================================= *)
(** * Python strings *)

Definition str := list ascii.

Definition lit (s : string) : str := list_ascii_of_string s.
Coercion lit : string >-> str.

Notation "a +++ b" := (@app ascii (a : str) (b : str))
  (at level 60, right associativity).

Module PyStr.

Definition code (c : ascii) : N := N_of_ascii c.

Definition in_range (lo hi : N) (c : ascii) : bool :=
  ((lo <=? code c) && (code c <=? hi))%N.

Definition is_digit (c : ascii) : bool := in_range 48 57 c.
Definition is_upper (c : ascii) : bool := in_range 65 90 c.
Definition is_lower (c : ascii) : bool := in_range 97 122 c.

(** [\w] of [re]. *)
Definition is_word (c : ascii) : bool :=
  is_digit c || is_upper c || is_lower c || (code c =? 95)%N.

(** [str.isspace] on one character: tab, LF, VT, FF, CR, FS..US, space. *)
Definition is_space (c : ascii) : bool :=
  in_range 9 13 c || in_range 28 32 c.

Definition is_hyphen (c : ascii) : bool := (code c =? 45)%N.

Definition eqb (a b : str) : bool :=
  if list_eq_dec ascii_dec a b then true else false.

Lemma eqb_eq a b : eqb a b = true <-> a = b.
Proof. unfold eqb. destruct (list_eq_dec ascii_dec a b); split; congruence. Qed.

Lemma eqb_refl a : eqb a a = true.
Proof. now apply eqb_eq. Qed.

(** ** [str(int)] and the [%02d], [%x] conversions *)

Definition digit_char (d : Z) : ascii := ascii_of_N (48 + Z.to_N d).

Fixpoint digits_fuel (fuel : nat) (n : Z) (acc : str) : str :=
  match fuel with
  | O => acc
  | S f =>
      let acc' := digit_char (n mod 10) :: acc in
      if n <? 10 then acc' else digits_fuel f (n / 10) acc'
  end.

Definition str_of_nonneg (n : Z) : str :=
  digits_fuel (S (Z.to_nat (Z.log2 n))) n [].

Definition str_of_Z (n : Z) : str :=
  if n <? 0 then "-"%char :: str_of_nonneg (- n) else str_of_nonneg n.

(** [%02d]. *)
Definition pad2 (n : Z) : str :=
  if (0 <=? n) && (n <? 10) then "0"%char :: str_of_Z n else str_of_Z n.

Definition hex_char (d : N) : ascii :=
  if (d <? 10)%N then ascii_of_N (48 + d) else ascii_of_N (87 + d).

(** [width] lowercase hexadecimal digits of [n], most significant first
    (['%0<width>x' % n] for [n < 16^width]). *)
Fixpoint hex_fixed (width : nat) (n : N) : str :=
  match width with
  | O => []
  | S w => hex_fixed w (N.shiftr n 4) ++ [hex_char (N.land n 15)]
  end.

(** ** [strip], [rstrip], [split], [join], [lower], [in] *)

Fixpoint lstrip (s : str) : str :=
  match s with
  | c :: t => if is_space c then lstrip t else s
  | [] => []
  end.

Definition rstrip (s : str) : str := rev (lstrip (rev s)).

Definition strip (s : str) : str := rstrip (lstrip s).

(** [s.split()]: maximal runs of non-space characters. *)
Fixpoint split_aux (cur : str) (s : str) : list str :=
  match s with
  | [] => match cur with [] => [] | _ => [rev cur] end
  | c :: t =>
      if is_space c
      then match cur with [] => split_aux [] t | _ => rev cur :: split_aux [] t end
      else split_aux (c :: cur) t
  end.

Definition split (s : str) : list str := split_aux [] s.

Fixpoint join (sep : str) (l : list str) : str :=
  match l with
  | [] => []
  | [x] => x
  | x :: t => x ++ sep ++ join sep t
  end.

Definition lower_char (c : ascii) : ascii :=
  if is_upper c then ascii_of_N (code c + 32) else c.

Definition lower (s : str) : str := map lower_char s.

Fixpoint starts_with (p s : str) : bool :=
  match p, s with
  | [], _ => true
  | a :: p', b :: s' => Ascii.eqb a b && starts_with p' s'
  | _ :: _, [] => false
  end.

(** [needle in hay]. *)
Fixpoint contains (needle hay : str) : bool :=
  starts_with needle hay ||
  match hay with
  | [] => false
  | _ :: t => contains needle t
  end.

(** ** Slices *)

(** [l[a:b]] for [0 <= a <= b]. *)
Definition slice {A} (a b : nat) (l : list A) : list A :=
  firstn (b - a) (skipn a l).

End PyStr.

Example str_of_Z_samples :
  PyStr.str_of_Z 0 = "0" /\ PyStr.str_of_Z 65535 = "65535" /\
  PyStr.str_of_Z (-12) = "-12" /\ PyStr.pad2 7 = "07" /\ PyStr.pad2 23 = "23" /\
  PyStr.hex_fixed 8 3735928559 = "deadbeef".
Proof. repeat split; reflexivity. Qed.

Example split_samples :
  PyStr.split "  a bc   d " = [lit "a"; lit "bc"; lit "d"] /\
  PyStr.strip "  x y
" = "x y" /\
  PyStr.contains (PyStr.lower "DataBase") (PyStr.lower "the database is down") = true.
Proof. repeat split; reflexivity. Qed.

(* ================================================================= *)
(** * Outcomes: results, exceptions, exhausted fuel *)

Inductive exn := IndexError | ValueError | OverflowError.

Inductive outcome (A : Type) :=
| Ok (a : A)
| Raise (e : exn)
| OutOfFuel.

Arguments Ok {A} a.
Arguments Raise {A} e.
Arguments OutOfFuel {A}.

Definition returns {A} (o : outcome A) : bool :=
  match o with Ok _ => true | _ => false end.

(* ================================================================= *)
(** * Python floats *)

Module PyFloat.

(** The float of a small non-negative [int] (exact below 2^53). *)
Definition of_int (z : Z) : float := PrimFloat.of_uint63 (Uint63.of_Z z).

(** [int(x)]: truncation toward zero; infinities and NaN raise. *)
Definition trunc (x : spec_float) : outcome Z :=
  match x with
  | S754_zero _ => Ok 0
  | S754_finite s m e =>
      let v := if 0 <=? e then Zpos m * 2 ^ e else Zpos m / 2 ^ (- e) in
      Ok (if s then - v else v)
  | S754_infinity _ => Raise OverflowError
  | S754_nan => Raise ValueError
  end.

Definition int_of_float (x : float) : outcome Z := trunc (Prim2SF x).

(** [math.modf(x)]: the fractional and the integral part, both with the sign
    of [x]; the fractional part is exact. *)
Definition modf (x : spec_float) : outcome (spec_float * Z) :=
  match x with
  | S754_zero s => Ok (S754_zero s, 0)
  | S754_finite s m e =>
      if 0 <=? e then Ok (S754_zero s, if s then - (Zpos m * 2 ^ e) else Zpos m * 2 ^ e)
      else
        let q := Zpos m / 2 ^ (- e) in
        let r := Zpos m mod 2 ^ (- e) in
        Ok (binary_normalize prec emax (if s then - r else r) e s,
            if s then - q else q)
  | S754_infinity _ => Raise OverflowError
  | S754_nan => Raise ValueError
  end.

(** [round(x)] to an [int]: to nearest, ties to even. *)
Definition round_half_even (x : spec_float) : outcome Z :=
  match x with
  | S754_zero _ => Ok 0
  | S754_finite s m e =>
      let v :=
        if 0 <=? e then Zpos m * 2 ^ e
        else
          let k := 2 ^ (- e) in
          let q := Zpos m / k in
          let r := Zpos m mod k in
          match 2 * r ?= k with
          | Lt => q
          | Gt => q + 1
          | Eq => if Z.even q then q else q + 1
          end in
      Ok (if s then - v else v)
  | S754_infinity _ => Raise OverflowError
  | S754_nan => Raise ValueError
  end.

End PyFloat.

(** [timedelta(seconds=x)] in microseconds, as [datetime.py] computes it:
    [secondsfrac, seconds = modf(x)], [usdouble = secondsfrac * 1e6],
    [microseconds = round(usdouble)].  The day range of [timedelta] is not
    part of the model. *)
Definition timedelta_seconds (x : float) : outcome Z :=
  match PyFloat.modf (Prim2SF x) with
  | Ok (secondsfrac, seconds) =>
      let usdouble := SF64mul secondsfrac (Prim2SF 1e6%float) in
      match PyFloat.round_half_even usdouble with
      | Ok microseconds => Ok (seconds * 1000000 + microseconds)
      | Raise e => Raise e
      | OutOfFuel => OutOfFuel
      end
  | Raise e => Raise e
  | OutOfFuel => OutOfFuel
  end.

Example timedelta_samples :
  timedelta_seconds 1.5%float = Ok 1500000 /\
  timedelta_seconds 0.25%float = Ok 250000 /\
  timedelta_seconds 2.4e-7%float = Ok 0 /\
  timedelta_seconds 0.0000005%float = Ok 0 /\
  timedelta_seconds 0.0000015%float = Ok 2 /\
  timedelta_seconds (-0.0)%float = Ok 0 /\
  timedelta_seconds 36.7%float = Ok 36700000.
Proof. repeat split; vm_compute; reflexivity. Qed.

(* ================================================================= *)
(** * The module [random] *)

(** The state of the generator and its three primitives.  [random()] returns
    a float of [[0.0, 1.0)]; [_randbelow(n)] an int of [[0, n)];
    [expovariate(lambd)], that is [-log(1.0 - random()) / lambd], a finite
    float that is not negative. *)
Class RandomSource : Type := {
  rng : Type;
  seed_int : Z -> rng;
  seed_os : N -> rng;
  random : rng -> float * rng;
  randbelow : Z -> rng -> Z * rng;
  expovariate : float -> rng -> float * rng;
  random_unit : forall g,
    (0 <=? fst (random g))%float = true /\ (fst (random g) <? 1)%float = true;
  randbelow_range : forall n g, 0 < n -> 0 <= fst (randbelow n g) < n;
  expovariate_range : forall lambd g,
    (0 <? lambd)%float = true ->
    (0 <=? fst (expovariate lambd g))%float = true /\
    (fst (expovariate lambd g) <? infinity)%float = true
}.

(** The world a run lives in: the state of [random], and the entropy pool of
    the operating system ([os.urandom]) read block by block. *)
Record world `{RandomSource} := {
  w_rng : rng;
  w_urandom : nat -> N;
  w_reads : nat
}.

Definition M `{RandomSource} (A : Type) : Type := world -> outcome (A * world).

Definition ret `{RandomSource} {A} (a : A) : M A := fun w => Ok (a, w).

Definition bind `{RandomSource} {A B} (m : M A) (k : A -> M B) : M B :=
  fun w =>
    match m w with
    | Ok (a, w') => k a w'
    | Raise e => Raise e
    | OutOfFuel => OutOfFuel
    end.

Definition raise `{RandomSource} {A} (e : exn) : M A := fun _ => Raise e.

Declare Scope py_scope.
Delimit Scope py_scope with py.
Notation "x <- m ;; k" := (bind m (fun x => k))
  (at level 100, m at next level, right associativity) : py_scope.
Open Scope py_scope.

Section RandomModule.
Context `{RS : RandomSource}.

(** The world after one call of a primitive that left the source in [g]. *)
Definition with_source (w : world) (g : rng) : world :=
  {| w_rng := g; w_urandom := w_urandom w; w_reads := w_reads w |}.

(** Lifts a primitive of the source to the world. *)
Definition with_rng {A} (f : rng -> A * rng) : M A :=
  fun w => let (a, g) := f (w_rng w) in Ok (a, with_source w g).

Definition py_random : M float := with_rng random.

(** [random.randint(a, b)]: [a + _randbelow(b - a + 1)]; an empty range
    raises [ValueError]. *)
Definition randint (a b : Z) : M Z :=
  if 0 <? b - a + 1
  then (k <- with_rng (randbelow (b - a + 1)) ;; ret (a + k))
  else raise ValueError.

(** [random.choice(seq)]: [seq[_randbelow(len(seq))]]. *)
Definition choice {A} (seq : list A) : M A :=
  match seq with
  | [] => raise IndexError
  | _ =>
      i <- with_rng (randbelow (Z.of_nat (List.length seq))) ;;
      match nth_error seq (Z.to_nat i) with
      | Some x => ret x
      | None => raise IndexError
      end
  end.

(** [random.expovariate(lambd)]. *)
Definition py_expovariate (lambd : float) : M float := with_rng (expovariate lambd).

(** [os.urandom]: the next block of the pool. *)
Definition os_urandom : M N :=
  fun w =>
    Ok (w_urandom w (w_reads w),
        {| w_rng := w_rng w; w_urandom := w_urandom w; w_reads := S (w_reads w) |}).

(** [itertools.accumulate(weights)]: the running float sums. *)
Fixpoint accumulate_from (acc : float) (ws : list float) : list float :=
  match ws with
  | [] => []
  | w :: t => (acc + w)%float :: accumulate_from (acc + w)%float t
  end.

Definition accumulate (ws : list float) : list float :=
  match ws with
  | [] => []
  | w :: t => w :: accumulate_from w t
  end.

(** [bisect.bisect_right(a, x, lo, hi)]: the binary search of [bisect.py]. *)
Fixpoint bisect_loop (fuel : nat) (a : list float) (x : float) (lo hi : nat) : nat :=
  match fuel with
  | O => lo
  | S f =>
      if (lo <? hi)%nat then
        let mid := ((lo + hi) / 2)%nat in
        if (x <? nth mid a nan)%float
        then bisect_loop f a x lo mid
        else bisect_loop f a x (S mid) hi
      else lo
  end.

Definition bisect (a : list float) (x : float) (lo hi : nat) : nat :=
  bisect_loop (S hi) a x lo hi.

(** [random.choices(population, weights)[0]] (one draw): the cumulative
    weights, their total, and a bisection at [random() * total]. *)
Definition choices1 {A} (population : list A) (weights : list float) : M A :=
  let cum_weights := accumulate weights in
  if negb (List.length cum_weights =? List.length population)%nat then raise ValueError
  else
    let total := (last cum_weights nan + 0.0)%float in
    if (total <=? 0.0)%float then raise ValueError
    else if negb (total <? infinity)%float then raise ValueError
    else
      r <- py_random ;;
      match nth_error population
              (bisect cum_weights (r * total)%float 0 (List.length population - 1)) with
      | Some x => ret x
      | None => raise IndexError
      end.

End RandomModule.

(* ================================================================= *)
(** * Library functions the generator calls *)

Module PyLib.

(** ** [ipaddress] *)

(** A decimal numeral, or nothing when a character is no digit. *)
Fixpoint parse_decimal (acc : Z) (s : str) : option Z :=
  match s with
  | [] => Some acc
  | c :: t =>
      if PyStr.is_digit c
      then parse_decimal (10 * acc + Z.of_N (PyStr.code c - 48)) t
      else None
  end.

(** [s.split(sep)] for a one-character separator. *)
Fixpoint split_on (sep : ascii) (cur : str) (s : str) : list str :=
  match s with
  | [] => [rev cur]
  | c :: t =>
      if Ascii.eqb c sep then rev cur :: split_on sep [] t
      else split_on sep (c :: cur) t
  end.

Record network := { network_address : Z; prefixlen : Z }.

Definition num_addresses (n : network) : Z := 2 ^ (32 - prefixlen n).

Definition broadcast_address (n : network) : Z :=
  network_address n + num_addresses n - 1.

(** [int(IPv4Address(s))] for a dotted quad. *)
Definition ip_of_quad (s : str) : option Z :=
  match map (fun p => match p with [] => None | _ => parse_decimal 0 p end)
            (split_on "."%char [] s) with
  | [Some a; Some b; Some c; Some d] =>
      if (a <=? 255) && (b <=? 255) && (c <=? 255) && (d <=? 255)
      then Some (((a * 256 + b) * 256 + c) * 256 + d) else None
  | _ => None
  end.

(** [ipaddress.ip_network(s)] for [a.b.c.d/len]. *)
Definition ip_network (s : str) : option network :=
  match split_on "/"%char [] s with
  | [addr; len] =>
      match ip_of_quad addr, parse_decimal 0 len with
      | Some a, Some l =>
          if (l <=? 32) && (a mod 2 ^ (32 - l) =? 0)
          then Some {| network_address := a; prefixlen := l |} else None
      | _, _ => None
      end
  | _ => None
  end.

(** [str(IPv4Address(n))]. *)
Definition str_of_ip (n : Z) : str :=
  PyStr.str_of_Z (n / 16777216 mod 256) +++ "." +++
  PyStr.str_of_Z (n / 65536 mod 256) +++ "." +++
  PyStr.str_of_Z (n / 256 mod 256) +++ "." +++
  PyStr.str_of_Z (n mod 256).

(** ** [datetime]: the calendar of a microsecond count *)

Definition DAYS_IN_MONTH : list Z := [-1; 31; 28; 31; 30; 31; 30; 31; 31; 30; 31; 30; 31].
Definition DAYS_BEFORE_MONTH : list Z :=
  [-1; 0; 31; 59; 90; 120; 151; 181; 212; 243; 273; 304; 334].

Definition b2z (b : bool) : Z := if b then 1 else 0.

(** The end of [_ord2ymd]: month and day of the [n]-th day (from 0) of a
    year. *)
Definition month_day (n : Z) (leapyear : bool) : Z * Z :=
  let month := Z.shiftr (n + 50) 5 in
  let preceding :=
    nth (Z.to_nat month) DAYS_BEFORE_MONTH 0 + b2z ((2 <? month) && leapyear) in
  if n <? preceding then
    let month := month - 1 in
    let preceding :=
      preceding - (nth (Z.to_nat month) DAYS_IN_MONTH 0 + b2z ((month =? 2) && leapyear)) in
    (month, n - preceding + 1)
  else (month, n - preceding + 1).

(** [_ord2ymd(n)] of [datetime.py]: year, month and day of the proleptic
    Gregorian ordinal [n] (1 is 0001-01-01). *)
Definition ord2ymd (n0 : Z) : Z * Z * Z :=
  let n := n0 - 1 in
  let n400 := n / 146097 in
  let n := n mod 146097 in
  let year := n400 * 400 + 1 in
  let n100 := n / 36524 in
  let n := n mod 36524 in
  let n4 := n / 1461 in
  let n := n mod 1461 in
  let n1 := n / 365 in
  let n := n mod 365 in
  let year := year + n100 * 100 + n4 * 4 + n1 in
  if (n1 =? 4) || (n100 =? 4) then (year - 1, 12, 31)
  else
    let leapyear := (n1 =? 3) && (negb (n4 =? 24) || (n100 =? 3)) in
    let '(month, day) := month_day n leapyear in
    (year, month, day).

Record datetime_fields := {
  dt_year : Z; dt_month : Z; dt_day : Z;
  dt_hour : Z; dt_minute : Z; dt_second : Z; dt_microsecond : Z
}.

Definition US_PER_DAY : Z := 86400000000.

(** The fields of the datetime that lies [us] microseconds after
    0001-01-01T00:00:00. *)
Definition fields_of_us (us : Z) : datetime_fields :=
  let days := us / US_PER_DAY in
  let rest := us mod US_PER_DAY in
  let '(y, m, d) := ord2ymd (days + 1) in
  {| dt_year := y; dt_month := m; dt_day := d;
     dt_hour := rest / 3600000000;
     dt_minute := rest / 60000000 mod 60;
     dt_second := rest / 1000000 mod 60;
     dt_microsecond := rest mod 1000000 |}.

Definition MONTH_ABBR : list str :=
  [lit "Jan"; lit "Feb"; lit "Mar"; lit "Apr"; lit "May"; lit "Jun";
   lit "Jul"; lit "Aug"; lit "Sep"; lit "Oct"; lit "Nov"; lit "Dec"].

(** [%b] in the C locale. *)
Definition month_abbr (m : Z) : str := nth (Z.to_nat (m - 1)) MONTH_ABBR (lit "Jan").

(** ** [uuid] *)

(** The 128-bit integer of [uuid.uuid4()] from the sixteen bytes of
    [os.urandom(16)]: the variant and the version bits are overwritten. *)
Definition uuid4_int (bytes16 : N) : N :=
  let i := (bytes16 mod 2 ^ 128)%N in
  let i := N.ldiff i (N.shiftl 49152 48) in
  let i := N.lor i (N.shiftl 32768 48) in
  let i := N.ldiff i (N.shiftl 61440 64) in
  N.lor i (N.shiftl 4 76).

(** [UUID.hex]: ['%032x' % int]. *)
Definition uuid_hex (i : N) : str := PyStr.hex_fixed 32 i.

End PyLib.

Example ip_samples :
  PyLib.ip_network "10.0.0.0/8" = Some {| PyLib.network_address := 167772160; PyLib.prefixlen := 8 |} /\
  PyLib.ip_network "192.168.0.0/16" = Some {| PyLib.network_address := 3232235520; PyLib.prefixlen := 16 |} /\
  PyLib.ip_network "172.16.0.0/12" = Some {| PyLib.network_address := 2886729728; PyLib.prefixlen := 12 |} /\
  PyLib.str_of_ip 3232235777 = "192.168.1.1" /\
  PyLib.ip_of_quad "192.168.1.1" = Some 3232235777.
Proof. repeat split; reflexivity. Qed.

(** 2025-10-20 is ordinal 739544; 2024-02-29 is ordinal 738945. *)
Example calendar_samples :
  PyLib.ord2ymd 1 = (1, 1, 1) /\
  PyLib.ord2ymd 739544 = (2025, 10, 20) /\
  PyLib.ord2ymd 738945 = (2024, 2, 29) /\
  PyLib.ord2ymd 738946 = (2024, 3, 1) /\
  PyLib.ord2ymd 730120 = (2000, 1, 1) /\
  PyLib.ord2ymd 730119 = (1999, 12, 31).
Proof. repeat split; reflexivity. Qed.

Example uuid_samples :
  PyLib.uuid_hex (PyLib.uuid4_int (2 ^ 128 - 1)) = "ffffffffffff4fffbfffffffffffffff" /\
  PyLib.uuid_hex (PyLib.uuid4_int 0) = "00000000000040008000000000000000".
Proof. split; vm_compute; reflexivity. Qed.

(* ================================================================= *)
(** * [firewall_log_generator.py] *)

Definition SEVERITY : list (str * float) :=
  [(lit "INFO", 0.70%float);
   (lit "NOTICE", 0.10%float);
   (lit "WARNING", 0.12%float);
   (lit "ERROR", 0.06%float);
   (lit "CRITICAL", 0.02%float)].

Definition ACTIONS : list str := [lit "ACCEPT"; lit "DROP"; lit "REJECT"].
Definition ACTION_WEIGHTS : list float := [0.6%float; 0.3%float; 0.1%float].
Definition PROTOCOLS : list str := [lit "TCP"; lit "UDP"; lit "ICMP"; lit "GRE"; lit "ESP"].
Definition INTERFACES : list str := [lit "eth0"; lit "eth1"; lit "wan0"; lit "lan0"; lit "dmz0"].

Definition REASONS_INFO : list str :=
  [lit "Connection established"; lit "Connection closed"; lit "NAT translation success";
   lit "Policy matched"; lit "Session aged out"; lit "Health check passed"].
Definition REASONS_WARN : list str :=
  [lit "Suspicious connection rate"; lit "Unexpected packet"; lit "Possible policy mismatch";
   lit "Malformed packet"; lit "IP spoofing suspected"].
Definition REASONS_ERROR : list str :=
  [lit "Policy violation"; lit "Intrusion detected"; lit "Configuration error";
   lit "Resource exhausted"; lit "Authentication failure"; lit "Firewall rule conflict"].

Definition NETS : list str := [lit "10.0.0.0/8"; lit "192.168.0.0/16"; lit "172.16.0.0/12"].
Definition DEST_PORTS : list Z := [22; 80; 443; 53; 8080; 3389; 5000; 514; 3306; 1433].

(** The loop of [weighted_choice]: the first label [k] with
    [upto + w >= r], the mass so far growing by [w] at each step. *)
Fixpoint weighted_walk (choices : list (str * float)) (upto r : float) : option str :=
  match choices with
  | [] => None
  | (k, w) :: t =>
      if (r <=? upto + w)%float then Some k
      else weighted_walk t (upto + w)%float r
  end.

(** [weighted_choice] once [r = random.random()] is drawn; the fall-through
    is [choices[-1][0]], an [IndexError] on an empty table. *)
Definition weighted_choice_at (choices : list (str * float)) (r : float) : outcome str :=
  match weighted_walk choices 0%float r with
  | Some k => Ok k
  | None =>
      match rev choices with
      | (k, _) :: _ => Ok k
      | [] => Raise IndexError
      end
  end.

(** The test of the rejection loop: the quad lies in a reserved block. *)
Definition reserved (a b : Z) : bool :=
  (a =? 10) || ((a =? 192) && (b =? 168)) || ((a =? 172) && ((16 <=? b) && (b <=? 31))).

(** [f"{a}.{b}.{c}.{d}"]. *)
Definition dotted (a b c d : Z) : str :=
  PyStr.str_of_Z a +++ "." +++ PyStr.str_of_Z b +++ "." +++
  PyStr.str_of_Z c +++ "." +++ PyStr.str_of_Z d.

(** The characters the generator strips from a message. *)
Definition is_stripped_control (ch : ascii) : bool :=
  PyStr.contains [ch] [ascii_of_N 13; ascii_of_N 10; ascii_of_N 9; ascii_of_N 11; ascii_of_N 12].

(** [format_syslog_ts]: [ts.strftime("%b %d %H:%M:%S")]. *)
Definition format_syslog_ts (ts : Z) : str :=
  let f := PyLib.fields_of_us ts in
  PyLib.month_abbr (PyLib.dt_month f) +++ " " +++ PyStr.pad2 (PyLib.dt_day f) +++ " " +++
  PyStr.pad2 (PyLib.dt_hour f) +++ ":" +++ PyStr.pad2 (PyLib.dt_minute f) +++ ":" +++
  PyStr.pad2 (PyLib.dt_second f).

Definition HOST : str := "fw01.corp.example.com".

(** The inputs of a run that the caller does not pass: the entropy pool and
    the clock of the operating system. *)
Record os_env := { env_urandom : nat -> N; env_now : Z }.

Section Generator.
Context `{RS : RandomSource}.

Definition weighted_choice (choices : list (str * float)) : M str :=
  r <- py_random ;;
  match weighted_choice_at choices r with
  | Ok k => ret k
  | Raise e => raise e
  | OutOfFuel => fun _ => OutOfFuel
  end.

(** The [while True] loop of [random_ipv4], with fuel. *)
Fixpoint public_ipv4 (fuel : nat) : M str :=
  match fuel with
  | O => fun _ => OutOfFuel
  | S f =>
      a <- randint 1 254 ;;
      b <- randint 0 254 ;;
      c <- randint 0 254 ;;
      d <- randint 1 254 ;;
      if negb (reserved a b) then ret (dotted a b c d) else public_ipv4 f
  end.

Definition private_ipv4 : M str :=
  s <- choice NETS ;;
  match PyLib.ip_network s with
  | None => raise ValueError
  | Some net =>
      k <- randint 1 (PyLib.num_addresses net - 2) ;;
      ret (PyLib.str_of_ip (PyLib.network_address net + k))
  end.

Definition random_ipv4 (fuel : nat) (private_bias : float) : M str :=
  r <- py_random ;;
  if (r <? private_bias)%float then private_ipv4 else public_ipv4 fuel.

(** [uuid.uuid4().hex[:8]]: read from [os.urandom], not from [random]. *)
Definition uuid4_hex8 : M str :=
  e <- os_urandom ;;
  ret (firstn 8 (PyLib.uuid_hex (PyLib.uuid4_int e))).

Definition is_tcp_udp (proto : str) : bool :=
  PyStr.eqb proto "TCP" || PyStr.eqb proto "UDP".

(** [max(1, int(bytes_cnt / d))]. *)
Definition packets_of (bytes_cnt d : Z) : M Z :=
  match PyFloat.int_of_float (PyFloat.of_int bytes_cnt / PyFloat.of_int d)%float with
  | Ok q => ret (Z.max 1 q)
  | Raise e => raise e
  | OutOfFuel => fun _ => OutOfFuel
  end.

Definition message_of (sev : str) (rule : Z) (reason s_ip d_ip proto : str)
    (s_pt d_pt : Z) (action : str) (bytes_cnt pkts : Z) (in_if out_if uid : str) : str :=
  "%FW-" +++ sev +++ "-*." +++ PyStr.str_of_Z rule +++ ": " +++ reason +++
  "; src=" +++ s_ip +++ " dst=" +++ d_ip +++ " proto=" +++ proto +++ " " +++
  "spt=" +++ PyStr.str_of_Z s_pt +++ " dpt=" +++ PyStr.str_of_Z d_pt +++
  " action=" +++ action +++ " bytes=" +++ PyStr.str_of_Z bytes_cnt +++
  " pkts=" +++ PyStr.str_of_Z pkts +++ " " +++
  "rule=" +++ PyStr.str_of_Z rule +++ " in=" +++ in_if +++ " out=" +++ out_if +++
  " uid=" +++ uid.

Definition sanitize (message : str) : str :=
  filter (fun ch => negb (is_stripped_control ch)) message.

(** The body of [make_log_line], the statement that draws the action left
    open. *)
Definition make_log_line_with (draw_action : M str)
    (fuel : nat) (ts : Z) (host : str) (pid : Z) : M str :=
  sev <- weighted_choice SEVERITY ;;
  proto <- choice PROTOCOLS ;;
  s_ip <- random_ipv4 fuel 0.6%float ;;
  d_ip <- random_ipv4 fuel 0.3%float ;;
  s_pt <- (if is_tcp_udp proto then randint 1 65535 else ret 0) ;;
  d_pt <- (if is_tcp_udp proto then choice DEST_PORTS else ret 0) ;;
  in_if <- choice INTERFACES ;;
  out_if <- choice INTERFACES ;;
  action <- draw_action ;;
  bytes_cnt <- randint 0 15000 ;;
  pkts <- (if 0 <? bytes_cnt
           then (d <- randint 60 120 ;; packets_of bytes_cnt d)
           else randint 0 4) ;;
  rule <- randint 100 3999 ;;
  uid <- uuid4_hex8 ;;
  reason <- (if PyStr.eqb sev "INFO" || PyStr.eqb sev "NOTICE" then choice REASONS_INFO
             else if PyStr.eqb sev "WARNING" then choice REASONS_WARN
             else choice REASONS_ERROR) ;;
  let message :=
    message_of sev rule reason s_ip d_ip proto s_pt d_pt action bytes_cnt pkts in_if out_if uid in
  let safe_message := sanitize message in
  ret (format_syslog_ts ts +++ " " +++ host +++ " firewall[" +++ PyStr.str_of_Z pid +++
       "]: " +++ safe_message).

(** [make_log_line]: the action is drawn by
    [random.choices(ACTIONS, weights=[0.6, 0.3, 0.1])[0]]. *)
Definition make_log_line (fuel : nat) (ts : Z) (host : str) (pid : Z) : M str :=
  make_log_line_with (choices1 ACTIONS ACTION_WEIGHTS) fuel ts host pid.

(** The [for _ in range(count)] loop: each record is the timestamp it was
    made at and the text written for it, [line.rstrip() + "\n"]. *)
Fixpoint emit_records (fuel : nat) (n : nat) (ts : Z) (host : str) (pid : Z)
    : M (list (Z * str)) :=
  match n with
  | O => ret []
  | S n' =>
      x <- py_expovariate (1 / 1.2)%float ;;
      match timedelta_seconds x with
      | Ok delta =>
          let ts := ts + delta in
          line <- make_log_line fuel ts host pid ;;
          rest <- emit_records fuel n' ts host pid ;;
          ret ((ts, PyStr.rstrip line ++ [ascii_of_N 10]) :: rest)
      | Raise e => raise e
      | OutOfFuel => fun _ => OutOfFuel
      end
  end.

(** [random.seed(seed)]: from the integer, or from the entropy pool when
    [seed] is [None]. *)
Definition seeded_world (seed : option Z) (env : os_env) : world :=
  match seed with
  | Some s => {| w_rng := seed_int s; w_urandom := env_urandom env; w_reads := 0 |}
  | None => {| w_rng := seed_os (env_urandom env 0); w_urandom := env_urandom env; w_reads := 1 |}
  end.

(** The records of one run of [generate_logs]. *)
Definition generate_records (fuel : nat) (count : Z) (start_time : option Z)
    (seed : option Z) (env : os_env) : outcome (list (Z * str)) :=
  let w := seeded_world seed env in
  let ts := match start_time with Some t => t | None => env_now env end in
  match (pid <- randint 1000 9999 ;; emit_records fuel (Z.to_nat count) ts HOST pid) w with
  | Ok (records, _) => Ok records
  | Raise e => Raise e
  | OutOfFuel => OutOfFuel
  end.

(** [generate_logs]: the content of the file at [out_path] when the run
    ends. *)
Definition generate_logs (fuel : nat) (count : Z) (start_time : option Z)
    (seed : option Z) (env : os_env) : outcome str :=
  match generate_records fuel count start_time seed env with
  | Ok records => Ok (List.concat (map snd records))
  | Raise e => Raise e
  | OutOfFuel => OutOfFuel
  end.

End Generator.

(* ================================================================= *)
(** * A source to run the generator on

    A counter: every primitive reads the counter and advances it by one.
    It stands in for the Mersenne Twister wherever a run is evaluated. *)

Module CounterSource.

Definition unit_floats : list float :=
  [0.0%float; 0.75%float; 0.3%float; 0.95%float; 0.6%float; 0.85%float; 0.5%float; 0.99%float].

Definition gaps : list float :=
  [0x1p-22%float; 0.25%float; 1.5%float; 3.0%float].

Definition c_random (c : Z) : float * Z :=
  (nth (Z.to_nat (c mod 8)) unit_floats 0%float, c + 1).

Definition c_randbelow (n c : Z) : Z * Z := (c mod n, c + 1).

Definition c_expovariate (lambd : float) (c : Z) : float * Z :=
  (nth (Z.to_nat (c mod 4)) gaps 0%float, c + 1).

Lemma c_random_unit (c : Z) :
  (0 <=? fst (c_random c))%float = true /\ (fst (c_random c) <? 1)%float = true.
Proof.
  unfold c_random; cbn [fst].
  assert (H : 0 <= c mod 8 < 8) by (apply Z.mod_pos_bound; lia).
  assert (E : c mod 8 = 0 \/ c mod 8 = 1 \/ c mod 8 = 2 \/ c mod 8 = 3 \/
              c mod 8 = 4 \/ c mod 8 = 5 \/ c mod 8 = 6 \/ c mod 8 = 7) by lia.
  destruct E as [E|[E|[E|[E|[E|[E|[E|E]]]]]]]; rewrite E; split; vm_compute; reflexivity.
Qed.

Lemma c_randbelow_range (n c : Z) : 0 < n -> 0 <= fst (c_randbelow n c) < n.
Proof. intros H. cbn [c_randbelow fst]. apply Z.mod_pos_bound. exact H. Qed.

Lemma c_expovariate_range (lambd : float) (c : Z) :
  (0 <? lambd)%float = true ->
  (0 <=? fst (c_expovariate lambd c))%float = true /\
  (fst (c_expovariate lambd c) <? infinity)%float = true.
Proof.
  intros _. unfold c_expovariate; cbn [fst].
  assert (H : 0 <= c mod 4 < 4) by (apply Z.mod_pos_bound; lia).
  assert (E : c mod 4 = 0 \/ c mod 4 = 1 \/ c mod 4 = 2 \/ c mod 4 = 3) by lia.
  destruct E as [E|[E|[E|E]]]; rewrite E; split; vm_compute; reflexivity.
Qed.

#[export] Instance source : RandomSource := {|
  rng := Z;
  seed_int := fun s => s;
  seed_os := fun e => Z.of_N e;
  random := c_random;
  randbelow := c_randbelow;
  expovariate := c_expovariate;
  random_unit := c_random_unit;
  randbelow_range := c_randbelow_range;
  expovariate_range := c_expovariate_range
|}.

(** The world whose counter is [c]. *)
Definition world_at (c : Z) (u : nat -> N) (n : nat) : @world source :=
  @Build_world source c u n.

(** An entropy pool whose [n]-th block is [base + n * step]. *)
Definition pool (base step : N) : nat -> N := fun n => (base + N.of_nat n * step)%N.

Definition env (base step : N) (now : Z) : os_env :=
  {| env_urandom := pool base step; env_now := now |}.

End CounterSource.

(** 2025-10-20T00:00:00 in microseconds since 0001-01-01. *)
Definition T_2025_10_20 : Z := 739543 * 86400000000.

(* ================================================================= *)
(** * [log_summarizer.py] *)

Module Re.

(** [\b] before a word character: the previous character, if any, is no
    word character. *)
Definition boundary_before (prev : option ascii) : bool :=
  match prev with
  | None => true
  | Some c => negb (PyStr.is_word c)
  end.

(** [\b] after a word character: the next character, if any, is no word
    character. *)
Definition boundary_after (rest : str) : bool :=
  match rest with
  | [] => true
  | c :: _ => negb (PyStr.is_word c)
  end.

(** A sequence of character classes, one character each: the matched text
    and what follows it. *)
Fixpoint match_classes (classes : list (ascii -> bool)) (s : str) : option (str * str) :=
  match classes, s with
  | [], _ => Some ([], s)
  | p :: ps, c :: t =>
      if p c then
        match match_classes ps t with
        | Some (m, rest) => Some (c :: m, rest)
        | None => None
        end
      else None
  | _ :: _, [] => None
  end.

Definition is_char (x : ascii) (c : ascii) : bool := Ascii.eqb c x.
Definition d := PyStr.is_digit.
Definition hy := is_char "-".
Definition co := is_char ":".
Definition sp_or_T (c : ascii) : bool := is_char " " c || is_char "T" c.

(** [\d{4}-\d{2}-\d{2}[ T]\d{2}:\d{2}:\d{2}]. *)
Definition timestamp_classes : list (ascii -> bool) :=
  [d; d; d; d; hy; d; d; hy; d; d; sp_or_T; d; d; co; d; d; co; d; d].

Definition timestamp_here (prev : option ascii) (s : str) : option str :=
  if boundary_before prev then
    match match_classes timestamp_classes s with
    | Some (m, rest) => if boundary_after rest then Some m else None
    | None => None
    end
  else None.

(** [pattern.search]: the leftmost position where [here] matches. *)
Fixpoint search (here : option ascii -> str -> option str) (prev : option ascii) (s : str)
    : option str :=
  match here prev s with
  | Some m => Some m
  | None =>
      match s with
      | [] => None
      | c :: t => search here (Some c) t
      end
  end.

Definition LEVELS : list str :=
  [lit "INFO"; lit "WARN"; lit "WARNING"; lit "ERROR"; lit "DEBUG"; lit "CRITICAL"].

(** The alternatives in order; one matches when the word boundary follows it. *)
Fixpoint first_alternative (alts : list str) (s : str) : option str :=
  match alts with
  | [] => None
  | a :: rest =>
      if PyStr.starts_with a s && boundary_after (skipn (List.length a) s) then Some a
      else first_alternative rest s
  end.

Definition level_here (prev : option ascii) (s : str) : option str :=
  if boundary_before prev then first_alternative LEVELS s else None.

End Re.

(** [TIMESTAMP_PATTERN.search(line)], group 1. *)
Definition TIMESTAMP_PATTERN (line : str) : option str := Re.search Re.timestamp_here None line.

(** [LEVEL_PATTERN.search(line)], group 1. *)
Definition LEVEL_PATTERN (line : str) : option str := Re.search Re.level_here None line.

Definition parse_log_line (line : str) : option str * str * str :=
  let timestamp := TIMESTAMP_PATTERN line in
  let level := match LEVEL_PATTERN line with Some l => l | None => lit "UNKNOWN" end in
  (timestamp, level, PyStr.strip line).

Module Datetime.

Import PyLib.

Definition is_leap (y : Z) : bool :=
  (y mod 4 =? 0) && (negb (y mod 100 =? 0) || (y mod 400 =? 0)).

Definition days_in_month (y m : Z) : Z :=
  if (m =? 2) && is_leap y then 29 else nth (Z.to_nat m) DAYS_IN_MONTH 0.

Definition num (s : str) : Z :=
  match parse_decimal 0 s with Some n => n | None => -1 end.

Definition replace_char (x y : ascii) (s : str) : str :=
  map (fun c => if Ascii.eqb c x then y else c) s.

(** [datetime.fromisoformat] on [YYYY-MM-DD HH:MM:SS]; [None] is the
    [ValueError] of a field out of range or of another shape. *)
Definition fromisoformat (s : str) : option datetime_fields :=
  match Re.match_classes
          [Re.d; Re.d; Re.d; Re.d; Re.hy; Re.d; Re.d; Re.hy; Re.d; Re.d; Re.is_char " ";
           Re.d; Re.d; Re.co; Re.d; Re.d; Re.co; Re.d; Re.d] s with
  | Some (_, []) =>
      let y := num (PyStr.slice 0 4 s) in
      let m := num (PyStr.slice 5 7 s) in
      let dd := num (PyStr.slice 8 10 s) in
      let h := num (PyStr.slice 11 13 s) in
      let mi := num (PyStr.slice 14 16 s) in
      let sec := num (PyStr.slice 17 19 s) in
      if (1 <=? y) && (y <=? 9999) && (1 <=? m) && (m <=? 12) &&
         (1 <=? dd) && (dd <=? days_in_month y m) &&
         (h <=? 23) && (mi <=? 59) && (sec <=? 59)
      then Some {| dt_year := y; dt_month := m; dt_day := dd; dt_hour := h;
                   dt_minute := mi; dt_second := sec; dt_microsecond := 0 |}
      else None
  | _ => None
  end.

Definition key (t : datetime_fields) : list Z :=
  [dt_year t; dt_month t; dt_day t; dt_hour t; dt_minute t; dt_second t; dt_microsecond t].

Fixpoint lex_ltb (a b : list Z) : bool :=
  match a, b with
  | x :: a', y :: b' => (x <? y) || ((x =? y) && lex_ltb a' b')
  | _, _ => false
  end.

(** [a < b] on naive datetimes. *)
Definition ltb (a b : datetime_fields) : bool := lex_ltb (key a) (key b).

Fixpoint zfill (width : nat) (s : str) : str :=
  match width with
  | O => s
  | S w => if (List.length s <=? w)%nat then "0"%char :: zfill w s else s
  end.

(** [str(t)] for a datetime whose microsecond is zero. *)
Definition to_str (t : datetime_fields) : str :=
  zfill 4 (PyStr.str_of_Z (dt_year t)) +++ "-" +++ PyStr.pad2 (dt_month t) +++ "-" +++
  PyStr.pad2 (dt_day t) +++ " " +++ PyStr.pad2 (dt_hour t) +++ ":" +++
  PyStr.pad2 (dt_minute t) +++ ":" +++ PyStr.pad2 (dt_second t).

End Datetime.

(** A [Counter] (or [defaultdict(int)]): keys in the order they were first
    seen. *)
Module Counter.

Definition t := list (str * Z).

Fixpoint get (k : str) (c : t) : Z :=
  match c with
  | [] => 0
  | (k', v) :: rest => if PyStr.eqb k k' then v else get k rest
  end.

(** [c[k] += 1]. *)
Fixpoint incr (k : str) (c : t) : t :=
  match c with
  | [] => [(k, 1)]
  | (k', v) :: rest => if PyStr.eqb k k' then (k', v + 1) :: rest else (k', v) :: incr k rest
  end.

(** Insertion by decreasing count, after the entries of the same count. *)
Fixpoint insert_desc (x : str * Z) (l : t) : t :=
  match l with
  | [] => [x]
  | y :: rest => if snd y <? snd x then x :: l else y :: insert_desc x rest
  end.

(** [c.most_common(n)]: by decreasing count, ties in first-seen order. *)
Definition most_common (n : nat) (c : t) : t :=
  firstn n (fold_left (fun acc x => insert_desc x acc) c []).

End Counter.

Record aggregate := {
  level_counts : Counter.t;
  error_messages : Counter.t;
  total_lines : Z;
  first_ts : option PyLib.datetime_fields;
  last_ts : option PyLib.datetime_fields
}.

Definition empty_aggregate : aggregate :=
  {| level_counts := []; error_messages := []; total_lines := 0;
     first_ts := None; last_ts := None |}.

(** The key phrase of an error line: [" ".join(msg.split()[1:8])]. *)
Definition short_msg (msg : str) : str :=
  PyStr.join " " (PyStr.slice 1 8 (PyStr.split msg)).

Definition keyword_rejects (keyword : option str) (msg : str) : bool :=
  match keyword with
  | None | Some [] => false
  | Some k => negb (PyStr.contains (PyStr.lower k) (PyStr.lower msg))
  end.

Definition is_error_level (level : str) : bool :=
  PyStr.eqb level "ERROR" || PyStr.eqb level "CRITICAL".

(** The part of the loop body after the time window: the keyword filter and
    the signature count. *)
Definition count_signature (keyword : option str) (level msg : str) (a : aggregate)
    : aggregate :=
  if keyword_rejects keyword msg then a
  else if is_error_level level then
    {| level_counts := level_counts a;
       error_messages := Counter.incr (short_msg msg) (error_messages a);
       total_lines := total_lines a;
       first_ts := first_ts a;
       last_ts := last_ts a |}
  else a.

(** One turn of [for line in f]. *)
Definition summarize_line (keyword : option str)
    (start_date end_date : option PyLib.datetime_fields)
    (a : aggregate) (line : str) : outcome aggregate :=
  let '(ts, level, msg) := parse_log_line line in
  let a :=
    {| level_counts := Counter.incr level (level_counts a);
       error_messages := error_messages a;
       total_lines := total_lines a + 1;
       first_ts := first_ts a;
       last_ts := last_ts a |} in
  match ts with
  | Some ts =>
      match Datetime.fromisoformat (Datetime.replace_char "T" " " ts) with
      | None => Raise ValueError
      | Some ts_obj =>
          let a :=
            {| level_counts := level_counts a;
               error_messages := error_messages a;
               total_lines := total_lines a;
               first_ts := match first_ts a with None => Some ts_obj | Some f => Some f end;
               last_ts := Some ts_obj |} in
          if match start_date with Some s => Datetime.ltb ts_obj s | None => false end
          then Ok a
          else if match end_date with Some e => Datetime.ltb e ts_obj | None => false end
          then Ok a
          else Ok (count_signature keyword level msg a)
      end
  | None => Ok (count_signature keyword level msg a)
  end.

Fixpoint summarize_lines (keyword : option str)
    (start_date end_date : option PyLib.datetime_fields)
    (a : aggregate) (lines : list str) : outcome aggregate :=
  match lines with
  | [] => Ok a
  | line :: rest =>
      match summarize_line keyword start_date end_date a line with
      | Ok a' => summarize_lines keyword start_date end_date a' rest
      | Raise e => Raise e
      | OutOfFuel => OutOfFuel
      end
  end.

Definition LF : ascii := ascii_of_N 10.
Definition CR : ascii := ascii_of_N 13.

(** The lines a text file yields when iterated in universal-newlines mode:
    each ends where [\n], [\r] or [\r\n] stood, and carries [\n] there. *)
Fixpoint readlines_aux (cur : str) (s : str) : list str :=
  match s with
  | [] => match cur with [] => [] | _ => [rev cur] end
  | c :: t =>
      if Ascii.eqb c LF then rev (LF :: cur) :: readlines_aux [] t
      else if Ascii.eqb c CR then
        match t with
        | c' :: t' =>
            if Ascii.eqb c' LF then rev (LF :: cur) :: readlines_aux [] t'
            else rev (LF :: cur) :: readlines_aux [] t
        | [] => [rev (LF :: cur)]
        end
      else readlines_aux (c :: cur) t
  end.

Definition readlines (content : str) : list str := readlines_aux [] content.

(** The third line of the report. *)
Definition time_span_line (a : aggregate) : str :=
  match first_ts a, last_ts a with
  | Some f, Some l =>
      "Time span: " +++ Datetime.to_str f +++ [" "%char; ascii_of_N 226; ascii_of_N 134; ascii_of_N 146; " "%char]
        +++ Datetime.to_str l
  | Some f, None => "Time span: " +++ Datetime.to_str f +++ [" "%char; ascii_of_N 226; ascii_of_N 134; ascii_of_N 146; " "%char] +++ "None"
  | None, _ => "Time span: N/A"
  end.

Definition summary_lines (file_path : str) (a : aggregate) : list str :=
  [lit "===== LOG SUMMARY =====";
   "File: " +++ file_path;
   time_span_line a;
   "Total lines processed: " +++ PyStr.str_of_Z (total_lines a);
   lit "";
   lit "Log Level Counts:"] ++
  map (fun '(level, count) => "  " +++ level +++ ": " +++ PyStr.str_of_Z count) (level_counts a) ++
  [LF :: lit "Top 5 Repeated Error Messages:"] ++
  map (fun '(msg, count) => "  (" +++ PyStr.str_of_Z count +++ "x) " +++ msg)
      (Counter.most_common 5 (error_messages a)).

(** What one call of [summarize_log] leaves: the aggregates when the loop
    ends, and the text it prints or writes. *)
Record summary := {
  sum_aggregate : aggregate;
  sum_text : str
}.

(** [summarize_log], on the content of the file at [file_path]. *)
Definition summarize_log (file_path : str) (content : str) (keyword : option str)
    (start_date end_date : option PyLib.datetime_fields) : outcome summary :=
  match summarize_lines keyword start_date end_date empty_aggregate (readlines content) with
  | Ok a =>
      Ok {| sum_aggregate := a;
            sum_text := PyStr.join [LF] (summary_lines file_path a) |}
  | Raise e => Raise e
  | OutOfFuel => OutOfFuel
  end.

Definition fixture : str :=
  "2025-10-20 10:00:00 INFO service started
2025-10-20 10:00:05 ERROR db connection to primary failed after three retries now
2025-10-20T10:00:07 WARNING slow query
2025-10-20 10:00:09 ERROR db connection to primary failed after three retries again
no timestamp and no level here
".

(* ================================================================= *)
(** * Weighted sampling (C5) *)

(** The cumulative masses of a table, as the loop accumulates them: the
    running float sums of the weights from [0.0]. *)
Definition cumulative_masses (choices : list (str * float)) : list float :=
  accumulate_from 0%float (map snd choices).

(** The first label whose cumulative mass is at least [r]. *)
Definition first_reaching (choices : list (str * float)) (r : float) : option str :=
  option_map fst
    (find (fun p : str * float => (r <=? snd p)%float)
          (combine (map fst choices) (cumulative_masses choices))).

(** The sampling rule in the words of the specification: the first label
    whose cumulative mass reaches [r], the last label of the table when none
    does. *)
Definition weighted_choice_rule (choices : list (str * float)) (r : float) : outcome str :=
  match first_reaching choices r with
  | Some k => Ok k
  | None =>
      match choices with
      | [] => Raise IndexError
      | c :: t => Ok (fst (last t c))
      end
  end.

Lemma weighted_walk_find (choices : list (str * float)) (upto r : float) :
  weighted_walk choices upto r =
  option_map fst
    (find (fun p : str * float => (r <=? snd p)%float)
          (combine (map fst choices) (accumulate_from upto (map snd choices)))).
Proof.
  revert upto. induction choices as [|[k w] t IH]; intros upto; cbn.
  - reflexivity.
  - destruct (r <=? upto + w)%float; [reflexivity | apply IH].
Qed.

Lemma last_default {A} (x c e : A) (t : list A) : last (x :: t) c = last (x :: t) e.
Proof.
  revert x. induction t as [|y t IH]; intros x; [reflexivity|].
  change (last (y :: t) c = last (y :: t) e). apply IH.
Qed.

Lemma rev_head_last {A} (c : A) (t : list A) :
  exists l, rev (c :: t) = last t c :: l.
Proof.
  revert c. induction t as [|x t IH]; intros c.
  - exists []. reflexivity.
  - destruct (IH x) as [l E]. exists (l ++ [c]).
    change (rev (c :: x :: t)) with (rev (x :: t) ++ [c]). rewrite E.
    rewrite (last_default x c x). destruct t; reflexivity.
Qed.

Lemma weighted_choice_at_rule (choices : list (str * float)) (r : float) :
  weighted_choice_at choices r = weighted_choice_rule choices r.
Proof.
  unfold weighted_choice_at, weighted_choice_rule, first_reaching, cumulative_masses.
  rewrite weighted_walk_find.
  destruct (option_map _ _); [reflexivity|].
  destruct choices as [|c t]; [reflexivity|].
  destruct (rev_head_last c t) as [l E]. rewrite E.
  destruct (last t c); reflexivity.
Qed.

Section WeightedChoice.
Context `{RS : RandomSource}.

(** C5.  [weighted_choice] draws one [r = random()] and returns the first
    label of the table whose cumulative mass is [>= r]; when no cumulative
    mass reaches [r] it returns the last label of the table (and raises
    [IndexError] on an empty table).  This holds for every table and every
    draw, so in particular for non-negative weights that sum to 1.0 and [r]
    in [[0, 1)]. *)
Theorem weighted_choice_first_reaching (choices : list (str * float)) (w : world) :
  weighted_choice choices w =
  match weighted_choice_rule choices (fst (random (w_rng w))) with
  | Ok k => Ok (k, with_source w (snd (random (w_rng w))))
  | Raise e => Raise e
  | OutOfFuel => OutOfFuel
  end.
Proof.
  unfold weighted_choice, bind, py_random, with_rng, with_source.
  destruct (random (w_rng w)) as [r g]; cbn [fst snd].
  rewrite weighted_choice_at_rule.
  destruct (weighted_choice_rule choices r); reflexivity.
Qed.

End WeightedChoice.

Example weighted_choice_severity_samples :
  weighted_choice_at SEVERITY 0.0%float = Ok (lit "INFO") /\
  weighted_choice_at SEVERITY 0.7%float = Ok (lit "INFO") /\
  weighted_choice_at SEVERITY 0.75%float = Ok (lit "NOTICE") /\
  weighted_choice_at SEVERITY 0.85%float = Ok (lit "WARNING") /\
  weighted_choice_at SEVERITY 0.95%float = Ok (lit "ERROR") /\
  weighted_choice_at SEVERITY 0.99%float = Ok (lit "CRITICAL") /\
  weighted_choice_at [(lit "a", 0.25%float); (lit "b", 0.25%float)] 0.9%float = Ok (lit "b") /\
  weighted_choice_at [] 0.5%float = Raise IndexError.
Proof. repeat split; vm_compute; reflexivity. Qed.

(* ================================================================= *)
(** * The summarizer: what the filters touch (C2, C7, C9) *)

(** The aggregates the filters must leave alone. *)
Definition frame (a : aggregate)
    : Z * Counter.t * option PyLib.datetime_fields * option PyLib.datetime_fields :=
  (total_lines a, level_counts a, first_ts a, last_ts a).

Definition frame_of (o : outcome summary)
    : outcome (Z * Counter.t * option PyLib.datetime_fields * option PyLib.datetime_fields) :=
  match o with
  | Ok s => Ok (frame (sum_aggregate s))
  | Raise e => Raise e
  | OutOfFuel => OutOfFuel
  end.


Lemma count_signature_frame keyword level msg a :
  frame (count_signature keyword level msg a) = frame a.
Proof.
  unfold count_signature.
  destruct (keyword_rejects keyword msg); [reflexivity|].
  destruct (is_error_level level); reflexivity.
Qed.




Lemma counter_get_incr_same (k : str) (c : Counter.t) :
  Counter.get k (Counter.incr k c) = Counter.get k c + 1.
Proof.
  induction c as [|[k' v] rest IH]; cbn.
  - rewrite PyStr.eqb_refl. reflexivity.
  - destruct (PyStr.eqb k k') eqn:E; cbn; rewrite E; [reflexivity | exact IH].
Qed.

Lemma counter_get_incr_other (k k' : str) (c : Counter.t) :
  k' <> k -> Counter.get k' (Counter.incr k c) = Counter.get k' c.
Proof.
  intros N. induction c as [|[k0 v] rest IH]; cbn.
  - destruct (PyStr.eqb k' k) eqn:E; [apply PyStr.eqb_eq in E; contradiction | reflexivity].
  - destruct (PyStr.eqb k k0) eqn:E; cbn.
    + apply PyStr.eqb_eq in E. subst k0.
      destruct (PyStr.eqb k' k) eqn:E'; [apply PyStr.eqb_eq in E'; contradiction | reflexivity].
    + rewrite IH. reflexivity.
Qed.

(** A line passes the date window: it has no timestamp, or its timestamp is
    a date-time that is neither before [start_date] nor after [end_date]. *)
Definition in_window (start_date end_date : option PyLib.datetime_fields)
    (ts : option str) : Prop :=
  match ts with
  | None => True
  | Some t =>
      exists ts_obj,
        Datetime.fromisoformat (Datetime.replace_char "T" " " t) = Some ts_obj /\
        match start_date with Some s => Datetime.ltb ts_obj s | None => false end = false /\
        match end_date with Some e => Datetime.ltb e ts_obj | None => false end = false
  end.

(** The signature in the words of the specification: the message split on
    whitespace, without its first token, at most seven tokens, joined by
    single spaces. *)
Definition signature_of (msg : str) : str :=
  PyStr.join " " (firstn 7 (skipn 1 (PyStr.split msg))).

(** C7.  A line whose level is ERROR or CRITICAL and which passes the window
    and the keyword filter adds exactly one to the count of its signature
    (the tokens 2 to 8 of the trimmed message, joined by single spaces), and
    leaves every other signature's count as it was. *)
Theorem error_line_counts_signature
    (keyword : option str) (start_date end_date : option PyLib.datetime_fields)
    (a : aggregate) (line : str) :
  is_error_level (snd (fst (parse_log_line line))) = true ->
  in_window start_date end_date (fst (fst (parse_log_line line))) ->
  keyword_rejects keyword (PyStr.strip line) = false ->
  exists a',
    summarize_line keyword start_date end_date a line = Ok a' /\
    error_messages a' = Counter.incr (signature_of (PyStr.strip line)) (error_messages a) /\
    Counter.get (signature_of (PyStr.strip line)) (error_messages a') =
      Counter.get (signature_of (PyStr.strip line)) (error_messages a) + 1 /\
    forall k, k <> signature_of (PyStr.strip line) ->
      Counter.get k (error_messages a') = Counter.get k (error_messages a).
Proof.
  intros HL HW HK. unfold summarize_line.
  assert (Emsg : snd (parse_log_line line) = PyStr.strip line) by reflexivity.
  destruct (parse_log_line line) as [[ts level] msg]. cbn [fst snd] in *. subst msg.
  assert (S : short_msg (PyStr.strip line) = signature_of (PyStr.strip line)) by reflexivity.
  destruct ts as [t|]; cbn [in_window] in HW.
  - destruct HW as (ts_obj & E & Hs & He). rewrite E, Hs, He.
    eexists. split; [reflexivity|].
    unfold count_signature. rewrite HK, HL. cbn [error_messages]. rewrite S.
    split; [reflexivity|]. split.
    + apply counter_get_incr_same.
    + intros k N. apply counter_get_incr_other. exact N.
  - eexists. split; [reflexivity|].
    unfold count_signature. rewrite HK, HL. cbn [error_messages]. rewrite S.
    split; [reflexivity|]. split.
    + apply counter_get_incr_same.
    + intros k N. apply counter_get_incr_other. exact N.
Qed.

Definition error_line_1 : str :=
  "2025-10-20 10:00:05 ERROR db connection to primary failed after three retries
".

Lemma error_line_counts_signature_witness :
  exists a',
    summarize_line (Some (lit "PRIMARY")) None None empty_aggregate error_line_1 = Ok a' /\
    error_messages a' = [(lit "10:00:05 ERROR db connection to primary failed", 1)].
Proof.
  destruct (error_line_counts_signature (Some (lit "PRIMARY")) None None
              empty_aggregate error_line_1) as (a' & E & M & _).
  - vm_compute. reflexivity.
  - vm_compute. eexists. split; [reflexivity|]. split; reflexivity.
  - vm_compute. reflexivity.
  - exists a'. split; [exact E|]. rewrite M. vm_compute. reflexivity.
Defined.

(** Scenario 3: five lines, two ERROR lines with the same seven tokens after
    the first: the signature is counted twice. *)
Definition scenario3 : str :=
  "10:00:01 INFO service started
10:00:05 ERROR db connection to primary failed after three retries
10:00:07 WARNING slow query
10:00:09 ERROR db connection to primary failed after five retries
no level here
".

Example scenario3_count :
  match summarize_log "app.log" scenario3 None None None with
  | Ok s => Counter.most_common 5 (error_messages (sum_aggregate s)) =
            [(lit "ERROR db connection to primary failed after", 2)]
  | _ => False
  end.
Proof. vm_compute. reflexivity. Qed.

(** C9.  A line whose leftmost match of the timestamp pattern is no calendar
    date-time makes [fromisoformat] raise [ValueError], whatever the filters
    and the aggregates so far; the exception ends the pass over the file, the
    lines after it unread. *)
Theorem invalid_timestamp_aborts
    (keyword : option str) (start_date end_date : option PyLib.datetime_fields)
    (a a' : aggregate) (before after : list str) (line t : str) :
  TIMESTAMP_PATTERN line = Some t ->
  Datetime.fromisoformat (Datetime.replace_char "T" " " t) = None ->
  summarize_lines keyword start_date end_date a before = Ok a' ->
  summarize_lines keyword start_date end_date a (before ++ line :: after) = Raise ValueError.
Proof.
  intros HT HF. revert a. induction before as [|l rest IH]; intros a HB.
  - cbn [summarize_lines] in HB. injection HB as <-.
    cbn [app summarize_lines]. unfold summarize_line, parse_log_line.
    rewrite HT, HF. reflexivity.
  - cbn [app summarize_lines] in *.
    destruct (summarize_line keyword start_date end_date a l); try discriminate.
    apply IH. exact HB.
Qed.

Lemma invalid_timestamp_aborts_witness :
  summarize_lines None None None empty_aggregate
    ([lit "2025-10-20 10:00:00 INFO up"] ++ lit "2025-13-01 00:00:00 ERROR down" :: [lit "never read"])
  = Raise ValueError.
Proof.
  apply (invalid_timestamp_aborts None None None empty_aggregate
           {| level_counts := [(lit "INFO", 1)]; error_messages := []; total_lines := 1;
              first_ts := Datetime.fromisoformat "2025-10-20 10:00:00";
              last_ts := Datetime.fromisoformat "2025-10-20 10:00:00" |}
           _ _ _ (lit "2025-13-01 00:00:00")).
  - vm_compute. reflexivity.
  - vm_compute. reflexivity.
  - vm_compute. reflexivity.
Defined.

Example invalid_timestamp_samples :
  (forall path kw sd ed,
     summarize_log path "ok line
2025-13-01 00:00:00 month thirteen
" kw sd ed = Raise ValueError) /\
  (forall path kw sd ed,
     summarize_log path "2025-10-20T25:00:00 hour twenty-five" kw sd ed = Raise ValueError) /\
  (forall path kw sd ed,
     summarize_log path "2025-02-30 10:00:00 no such day" kw sd ed = Raise ValueError) /\
  frame_of (summarize_log "f" "2025-10-20 10:00:00 fine 2025-13-01 00:00:00" None None None)
    = Ok (1, [(lit "UNKNOWN", 1)],
          Datetime.fromisoformat "2025-10-20 10:00:00",
          Datetime.fromisoformat "2025-10-20 10:00:00").
Proof. repeat split; intros; vm_compute; reflexivity. Qed.

(* ================================================================= *)
(** * Running the monad: the primitives return, and in range *)

Lemma float_nonneg_not_negative (r : float) :
  (0 <=? r)%float = true -> (r <? 0)%float = false.
Proof.
  rewrite leb_spec, ltb_spec. change (Prim2SF 0%float) with (S754_zero false).
  destruct (Prim2SF r) as [[]|[]| |[] m e]; cbn; congruence.
Qed.

Section Running.
Context `{RS : RandomSource}.

Lemma bind_ok {A B} (m : M A) (k : A -> M B) (w w' : world) (b : B) :
  bind m k w = Ok (b, w') ->
  exists a w1, m w = Ok (a, w1) /\ k a w1 = Ok (b, w').
Proof.
  unfold bind. destruct (m w) as [[a w1]| |]; try discriminate.
  intros H. exists a, w1. split; [reflexivity | exact H].
Qed.

Lemma bind_of_ok {A B} (m : M A) (k : A -> M B) (w w1 : world) (a : A) :
  m w = Ok (a, w1) -> bind m k w = k a w1.
Proof. unfold bind. intros ->. reflexivity. Qed.

Lemma py_random_run (w : world) :
  py_random w = Ok (fst (random (w_rng w)), with_source w (snd (random (w_rng w)))).
Proof. unfold py_random, with_rng. destruct (random (w_rng w)); reflexivity. Qed.

Lemma randint_run (a b : Z) (w : world) :
  a <= b ->
  exists k g, randint a b w = Ok (k, with_source w g) /\ a <= k <= b.
Proof.
  intros H. unfold randint.
  assert (P : 0 < b - a + 1) by lia.
  destruct (Z.ltb_spec 0 (b - a + 1)) as [_|]; [|lia].
  pose proof (randbelow_range (b - a + 1) (w_rng w) P) as R.
  unfold bind, with_rng, ret.
  destruct (randbelow (b - a + 1) (w_rng w)) as [k g]; cbn [fst] in R.
  exists (a + k), g. split; [reflexivity | lia].
Qed.

Lemma randint_ok (a b : Z) (w w' : world) (k : Z) :
  randint a b w = Ok (k, w') -> a <= k <= b.
Proof.
  unfold randint. destruct (Z.ltb_spec 0 (b - a + 1)) as [P|]; [|discriminate].
  pose proof (randbelow_range (b - a + 1) (w_rng w) P) as R.
  unfold bind, with_rng, ret.
  destruct (randbelow (b - a + 1) (w_rng w)) as [k0 g]; cbn [fst] in R.
  intros [= <- _]. lia.
Qed.

Lemma choice_run {A} (seq : list A) (w : world) :
  seq <> [] ->
  exists x g, choice seq w = Ok (x, with_source w g) /\ In x seq.
Proof.
  intros N. unfold choice. destruct seq as [|x0 t]; [contradiction|].
  set (seq := x0 :: t).
  assert (P : 0 < Z.of_nat (List.length seq)) by (cbn [seq List.length]; lia).
  pose proof (randbelow_range _ (w_rng w) P) as R.
  unfold bind, with_rng, ret.
  destruct (randbelow (Z.of_nat (List.length seq)) (w_rng w)) as [i g]; cbn [fst] in R.
  destruct (nth_error seq (Z.to_nat i)) as [x|] eqn:E.
  - exists x, g. split; [reflexivity | eapply nth_error_In; exact E].
  - apply nth_error_None in E. lia.
Qed.

Lemma choice_ok {A} (seq : list A) (w w' : world) (x : A) :
  choice seq w = Ok (x, w') -> In x seq.
Proof.
  destruct seq as [|x0 t]; [discriminate|].
  intros H. destruct (choice_run (x0 :: t) w) as (y & g & E & I); [discriminate|].
  rewrite E in H. injection H as <- _. exact I.
Qed.

End Running.

(* ================================================================= *)
(** * Address synthesis (C3) *)

(** The three reserved blocks, as [ipaddress.ip_network] reads [NETS]. *)
Definition RESERVED_BLOCKS : list PyLib.network :=
  [{| PyLib.network_address := 167772160; PyLib.prefixlen := 8 |};
   {| PyLib.network_address := 3232235520; PyLib.prefixlen := 16 |};
   {| PyLib.network_address := 2886729728; PyLib.prefixlen := 12 |}].

Lemma NETS_parse : map PyLib.ip_network NETS = map Some RESERVED_BLOCKS.
Proof. reflexivity. Qed.

Definition in_block (n : Z) (net : PyLib.network) : Prop :=
  PyLib.network_address net <= n <= PyLib.broadcast_address net.

(** A syntactically valid dotted quad that lies in no reserved block. *)
Definition public_address (s : str) : Prop :=
  exists n, PyLib.ip_of_quad s = Some n /\
            forall net, In net RESERVED_BLOCKS -> ~ in_block n net.

(** A dotted quad strictly between the network and the broadcast address of
    a reserved block. *)
Definition private_address (s : str) : Prop :=
  exists n net, PyLib.ip_of_quad s = Some n /\ In net RESERVED_BLOCKS /\
                PyLib.network_address net < n < PyLib.broadcast_address net.

Definition octet_checks (a : Z) : bool :=
  match PyLib.parse_decimal 0 (PyStr.str_of_Z a) with
  | Some n => n =? a
  | None => false
  end &&
  forallb (fun c => negb (Ascii.eqb c ".")) (PyStr.str_of_Z a) &&
  match PyStr.str_of_Z a with [] => false | _ => true end.

Lemma octets_check : forallb octet_checks (map Z.of_nat (seq 0 256)) = true.
Proof. vm_compute. reflexivity. Qed.

Lemma octet_check (a : Z) : 0 <= a <= 255 -> octet_checks a = true.
Proof.
  intros H. pose proof octets_check as F. rewrite forallb_forall in F. apply F.
  replace a with (Z.of_nat (Z.to_nat a)) by lia.
  apply in_map, in_seq. lia.
Qed.

Lemma split_on_last (sep : ascii) (s cur : str) :
  forallb (fun c => negb (Ascii.eqb c sep)) s = true ->
  PyLib.split_on sep cur s = [rev cur ++ s].
Proof.
  revert cur. induction s as [|c t IH]; intros cur H; cbn in *.
  - rewrite app_nil_r. reflexivity.
  - apply andb_prop in H. destruct H as [Hc Ht].
    destruct (Ascii.eqb c sep); [discriminate|].
    rewrite IH by exact Ht. cbn. rewrite <- app_assoc. reflexivity.
Qed.

Lemma split_on_sep (sep : ascii) (s cur rest : str) :
  forallb (fun c => negb (Ascii.eqb c sep)) s = true ->
  PyLib.split_on sep cur (s ++ sep :: rest) = (rev cur ++ s) :: PyLib.split_on sep [] rest.
Proof.
  revert cur. induction s as [|c t IH]; intros cur H; cbn in *.
  - rewrite Ascii.eqb_refl, app_nil_r. reflexivity.
  - apply andb_prop in H. destruct H as [Hc Ht].
    destruct (Ascii.eqb c sep); [discriminate|].
    rewrite IH by exact Ht. cbn. rewrite <- app_assoc. reflexivity.
Qed.

Lemma ip_of_quad_dotted (a b c e : Z) :
  0 <= a <= 255 -> 0 <= b <= 255 -> 0 <= c <= 255 -> 0 <= e <= 255 ->
  PyLib.ip_of_quad (dotted a b c e) = Some (((a * 256 + b) * 256 + c) * 256 + e).
Proof.
  intros Ha Hb Hc He.
  pose proof (octet_check a Ha) as Ca. pose proof (octet_check b Hb) as Cb.
  pose proof (octet_check c Hc) as Cc. pose proof (octet_check e He) as Ce.
  unfold octet_checks in *.
  repeat match goal with
         | H : _ && _ = true |- _ => apply andb_prop in H; destruct H
         end.
  unfold PyLib.ip_of_quad, dotted.
  change (lit ".") with ["."%char]. cbn [app].
  rewrite !split_on_sep by assumption.
  rewrite split_on_last by assumption. cbn [rev app map].
  destruct (PyStr.str_of_Z a) as [|a0 ta]; [discriminate|].
  destruct (PyStr.str_of_Z b) as [|b0 tb]; [discriminate|].
  destruct (PyStr.str_of_Z c) as [|c0 tc]; [discriminate|].
  destruct (PyStr.str_of_Z e) as [|e0 te]; [discriminate|].
  destruct (PyLib.parse_decimal 0 (a0 :: ta)) as [na|]; [|discriminate].
  destruct (PyLib.parse_decimal 0 (b0 :: tb)) as [nb|]; [|discriminate].
  destruct (PyLib.parse_decimal 0 (c0 :: tc)) as [nc|]; [|discriminate].
  destruct (PyLib.parse_decimal 0 (e0 :: te)) as [ne|]; [|discriminate].
  repeat match goal with
         | H : (_ =? _) = true |- _ => apply Z.eqb_eq in H; subst
         end.
  destruct (Z.leb_spec a 255), (Z.leb_spec b 255), (Z.leb_spec c 255), (Z.leb_spec e 255);
    try lia.
  reflexivity.
Qed.

Lemma ip_of_quad_str_of_ip (n : Z) :
  0 <= n < 4294967296 -> PyLib.ip_of_quad (PyLib.str_of_ip n) = Some n.
Proof.
  intros H. change (PyLib.str_of_ip n)
    with (dotted (n / 16777216 mod 256) (n / 65536 mod 256) (n / 256 mod 256) (n mod 256)).
  rewrite ip_of_quad_dotted.
  - f_equal. Z.div_mod_to_equations. lia.
  - Z.div_mod_to_equations. lia.
  - Z.div_mod_to_equations. lia.
  - Z.div_mod_to_equations. lia.
  - Z.div_mod_to_equations. lia.
Qed.

Section Addresses.
Context `{RS : RandomSource}.

(** From no state of the source does the rejection loop reject [n] quads in
    a row. *)
Definition bounded_rejection (n : nat) : Prop :=
  forall w : world, returns (public_ipv4 n w) = true.

(** The source is fair to the rejection loop: the number of quads it makes
    the loop reject in a row is bounded.  (For a source with finitely many
    states this is: the loop ends from every state.) *)
Definition fair_source : Prop := exists n, bounded_rejection n.

Lemma public_ipv4_public (fuel : nat) : forall (w w' : world) (s : str),
  public_ipv4 fuel w = Ok (s, w') -> public_address s.
Proof.
  induction fuel as [|f IH]; intros w w' s H; [discriminate|].
  cbn [public_ipv4] in H.
  apply bind_ok in H. destruct H as (a & w1 & Ea & H).
  apply bind_ok in H. destruct H as (b & w2 & Eb & H).
  apply bind_ok in H. destruct H as (c & w3 & Ec & H).
  apply bind_ok in H. destruct H as (e & w4 & Ee & H).
  apply randint_ok in Ea, Eb, Ec, Ee.
  destruct (reserved a b) eqn:R; cbn [negb] in H.
  - eapply IH. exact H.
  - unfold ret in H. injection H as <- _.
    exists (((a * 256 + b) * 256 + c) * 256 + e). split.
    + apply ip_of_quad_dotted; lia.
    + unfold reserved in R.
      intros net [<-|[<-|[<-|[]]]]; unfold in_block, PyLib.broadcast_address,
        PyLib.num_addresses; cbn [PyLib.network_address PyLib.prefixlen];
        intros [L U].
        all: match type of U with context [2 ^ ?k] =>
               let v := eval vm_compute in (2 ^ k) in change (2 ^ k) with v in U end.
        all: destruct (Z.eqb_spec a 10), (Z.eqb_spec a 192), (Z.eqb_spec b 168),
                 (Z.eqb_spec a 172), (Z.leb_spec 16 b), (Z.leb_spec b 31);
        cbn in R; try discriminate; lia.
Qed.

Lemma private_ipv4_run (w : world) :
  exists s w', private_ipv4 w = Ok (s, w') /\ private_address s.
Proof.
  unfold private_ipv4.
  destruct (choice_run NETS w) as (s & g & E & I); [discriminate|].
  rewrite (bind_of_ok _ _ _ _ _ E).
  assert (exists net, PyLib.ip_network s = Some net /\ In net RESERVED_BLOCKS /\
                      3 <= PyLib.num_addresses net /\
                      0 <= PyLib.network_address net /\
                      PyLib.network_address net + PyLib.num_addresses net <= 4294967296)
    as (net & En & In' & Hn & H0 & Hmax).
  { destruct I as [<-|[<-|[<-|[]]]]; eexists; (split; [reflexivity|]);
      (split; [cbn; tauto|]); vm_compute; repeat split; discriminate. }
  rewrite En.
  destruct (randint_run 1 (PyLib.num_addresses net - 2) (with_source w g)) as (k & g' & Ek & Rk);
    [lia|].
  rewrite (bind_of_ok _ _ _ _ _ Ek). unfold ret.
  eexists _, _. split; [reflexivity|].
  exists (PyLib.network_address net + k), net. split; [|split].
  - apply ip_of_quad_str_of_ip. lia.
  - exact In'.
  - unfold PyLib.broadcast_address. lia.
Qed.

Lemma private_ipv4_private (w w' : world) (s : str) :
  private_ipv4 w = Ok (s, w') -> private_address s.
Proof.
  intros H. destruct (private_ipv4_run w) as (s0 & w0 & E & P).
  rewrite E in H. injection H as <- _. exact P.
Qed.

(** C3.  Whatever [random_ipv4] returns on the branch that is not the
    private one is a valid dotted quad outside 10/8, 172.16/12 and
    192.168/16, and whatever it returns on the private branch lies strictly
    between the network and the broadcast address of one of the three
    blocks.  With [private_bias = 0.0] the public branch is the only one,
    with [private_bias = 1.0] the private one.  The private branch always
    returns; the public branch returns, for some fuel, from a fair source. *)
Theorem random_ipv4_containment (fuel : nat) (private_bias : float) (w : world) :
  (forall s w', random_ipv4 fuel private_bias w = Ok (s, w') ->
     (if (fst (random (w_rng w)) <? private_bias)%float
      then private_address s else public_address s) /\
     (private_bias = 0%float -> public_address s) /\
     (private_bias = 1%float -> private_address s)) /\
  ((fst (random (w_rng w)) <? private_bias)%float = true ->
     returns (random_ipv4 fuel private_bias w) = true) /\
  (fair_source -> exists fuel', returns (random_ipv4 fuel' private_bias w) = true).
Proof.
  pose proof (random_unit (w_rng w)) as [U0 U1].
  unfold random_ipv4. rewrite !(bind_of_ok _ _ _ _ _ (py_random_run w)).
  cbv beta. split; [|split].
  - intros s w' H.
    assert (B : if (fst (random (w_rng w)) <? private_bias)%float
                then private_address s else public_address s).
    { destruct (fst (random (w_rng w)) <? private_bias)%float.
      - eapply private_ipv4_private. exact H.
      - eapply public_ipv4_public. exact H. }
    split; [exact B|]. split; intros ->.
    + rewrite (float_nonneg_not_negative _ U0) in B. exact B.
    + rewrite U1 in B. exact B.
  - intros ->. cbv iota.
    destruct (private_ipv4_run (with_source w (snd (random (w_rng w)))))
      as (s & w' & E & _). rewrite E. reflexivity.
  - intros F. destruct (fst (random (w_rng w)) <? private_bias)%float eqn:C.
    + exists fuel. rewrite (bind_of_ok _ _ _ _ _ (py_random_run w)). cbv beta. rewrite C.
      destruct (private_ipv4_run (with_source w (snd (random (w_rng w)))))
        as (s & w' & E & _). rewrite E. reflexivity.
    + destruct F as [fuel' F].
      pose proof (F (with_source w (snd (random (w_rng w))))) as H.
      exists fuel'. rewrite (bind_of_ok _ _ _ _ _ (py_random_run w)). cbv beta. rewrite C.
      exact H.
Qed.

End Addresses.

Lemma counter_public_step (f : nat) (c : Z) (u : nat -> N) (n : nat) :
  public_ipv4 (S f) (CounterSource.world_at c u n) =
  if negb (reserved (1 + c mod 254) (0 + (c + 1) mod 255))
  then Ok (dotted (1 + c mod 254) (0 + (c + 1) mod 255) (0 + (c + 1 + 1) mod 255)
                  (1 + (c + 1 + 1 + 1) mod 254),
           CounterSource.world_at (c + 1 + 1 + 1 + 1) u n)
  else public_ipv4 f (CounterSource.world_at (c + 1 + 1 + 1 + 1) u n).
Proof.
  change (public_ipv4 (S f) (CounterSource.world_at c u n))
    with ((if negb (reserved (1 + c mod 254) (0 + (c + 1) mod 255))
           then ret (dotted (1 + c mod 254) (0 + (c + 1) mod 255) (0 + (c + 1 + 1) mod 255)
                            (1 + (c + 1 + 1 + 1) mod 254))
           else public_ipv4 f) (CounterSource.world_at (c + 1 + 1 + 1 + 1) u n)).
  destruct (negb _); reflexivity.
Qed.

Lemma reserved_first_octet (a b : Z) :
  reserved a b = true -> a = 10 \/ a = 192 \/ a = 172.
Proof.
  unfold reserved.
  destruct (Z.eqb_spec a 10), (Z.eqb_spec a 192), (Z.eqb_spec a 172); cbn;
    try lia; discriminate.
Qed.

(** The counter is fair: the first octet of two successive draws of the loop
    differs by four, so one of them is outside the reserved blocks. *)
Lemma counter_source_fair : fair_source (RS := CounterSource.source).
Proof.
  exists 2%nat. intros [c u n].
  change (returns (public_ipv4 2 (CounterSource.world_at c u n)) = true).
  rewrite counter_public_step.
  destruct (reserved (1 + c mod 254) (0 + (c + 1) mod 255)) eqn:R1; cbn [negb];
    [|reflexivity].
  rewrite counter_public_step.
  destruct (reserved (1 + (c + 1 + 1 + 1 + 1) mod 254) (0 + (c + 1 + 1 + 1 + 1 + 1) mod 255))
    eqn:R2; cbn [negb]; [|reflexivity].
  exfalso. apply reserved_first_octet in R1, R2.
  Z.div_mod_to_equations. lia.
Qed.

Lemma random_ipv4_containment_witness :
  public_address "3.3.4.6" /\
  exists fuel', returns (random_ipv4 fuel' 0.6%float
                          (CounterSource.world_at 1 (CounterSource.pool 0 1) 0)) = true.
Proof.
  destruct (random_ipv4_containment 2 0.6%float
              (CounterSource.world_at 1 (CounterSource.pool 0 1) 0)) as (P & _ & F).
  split.
  - destruct (P (lit "3.3.4.6") (CounterSource.world_at 6 (CounterSource.pool 0 1) 0))
      as (B & _).
    + vm_compute. reflexivity.
    + exact B.
  - apply F. exact counter_source_fair.
Defined.

(* ================================================================= *)
(** * The timing model (C6) *)




Section Timing.
Context `{RS : RandomSource}.



End Timing.

(** The timestamps of a run. *)
Definition run_timestamps `{RS : RandomSource} (fuel : nat) (count : Z) (start_time : option Z)
    (seed : option Z) (env : os_env) : outcome (list Z) :=
  match generate_records fuel count start_time seed env with
  | Ok records => Ok (map fst records)
  | Raise e => Raise e
  | OutOfFuel => OutOfFuel
  end.

Definition some_env : os_env := CounterSource.env (2 ^ 100) (2 ^ 97) 0.




(** Records a quarter of a second apart carry distinct [datetime]s and the
    same rendered timestamp: the text has a resolution of one second. *)
Example rendered_timestamps_repeat :
  run_timestamps (RS := CounterSource.source) 2 2 (Some T_2025_10_20) (Some 0) some_env
    = Ok [T_2025_10_20 + 250000; T_2025_10_20 + 500000] /\
  format_syslog_ts (T_2025_10_20 + 250000) = "Oct 20 00:00:00" /\
  format_syslog_ts (T_2025_10_20 + 500000) = "Oct 20 00:00:00".
Proof. repeat split; vm_compute; reflexivity. Qed.

(* ================================================================= *)
(** * Reproducibility (C1) *)

(** Two entropy pools that differ in their first block. *)
Definition pool_a : os_env := CounterSource.env (2 ^ 100) (2 ^ 97) 0.
Definition pool_b : os_env := CounterSource.env (2 ^ 101) (2 ^ 97) 0.

(** C1, at the failing input.  Two runs with the same count (1), the same
    seed (42) and the same start time (2025-10-20T00:00:00) write different
    files: the correlation id is read from [os.urandom] through
    [uuid.uuid4()], which [random.seed] does not reach. *)
Theorem same_seed_different_files :
  generate_logs (RS := CounterSource.source) 2 1 (Some T_2025_10_20) (Some 42) pool_a =
    Ok (lit "Oct 20 00:00:03 fw01.corp.example.com firewall[1042]: %FW-INFO-*.161: NAT translation success; src=172.16.0.49 dst=51.51.52.54 proto=TCP spt=55 dpt=3389 action=ACCEPT bytes=59 pkts=1 rule=161 in=eth1 out=wan0 uid=00000010
") /\
  generate_logs (RS := CounterSource.source) 2 1 (Some T_2025_10_20) (Some 42) pool_b =
    Ok (lit "Oct 20 00:00:03 fw01.corp.example.com firewall[1042]: %FW-INFO-*.161: NAT translation success; src=172.16.0.49 dst=51.51.52.54 proto=TCP spt=55 dpt=3389 action=ACCEPT bytes=59 pkts=1 rule=161 in=eth1 out=wan0 uid=00000020
") /\
  generate_logs (RS := CounterSource.source) 2 1 (Some T_2025_10_20) (Some 42) pool_a <>
  generate_logs (RS := CounterSource.source) 2 1 (Some T_2025_10_20) (Some 42) pool_b.
Proof.
  assert (A : generate_logs (RS := CounterSource.source) 2 1 (Some T_2025_10_20) (Some 42) pool_a =
    Ok (lit "Oct 20 00:00:03 fw01.corp.example.com firewall[1042]: %FW-INFO-*.161: NAT translation success; src=172.16.0.49 dst=51.51.52.54 proto=TCP spt=55 dpt=3389 action=ACCEPT bytes=59 pkts=1 rule=161 in=eth1 out=wan0 uid=00000010
")) by (vm_compute; reflexivity).
  assert (B : generate_logs (RS := CounterSource.source) 2 1 (Some T_2025_10_20) (Some 42) pool_b =
    Ok (lit "Oct 20 00:00:03 fw01.corp.example.com firewall[1042]: %FW-INFO-*.161: NAT translation success; src=172.16.0.49 dst=51.51.52.54 proto=TCP spt=55 dpt=3389 action=ACCEPT bytes=59 pkts=1 rule=161 in=eth1 out=wan0 uid=00000020
")) by (vm_compute; reflexivity).
  split; [exact A|]. split; [exact B|].
  rewrite A, B. intros E. apply (f_equal (fun o => match o with Ok s => PyStr.eqb s
    (lit "Oct 20 00:00:03 fw01.corp.example.com firewall[1042]: %FW-INFO-*.161: NAT translation success; src=172.16.0.49 dst=51.51.52.54 proto=TCP spt=55 dpt=3389 action=ACCEPT bytes=59 pkts=1 rule=161 in=eth1 out=wan0 uid=00000020
") | _ => false end)) in E.
  vm_compute in E. discriminate E.
Qed.

(* ================================================================= *)
(** * The characters of a line *)

(** No hyphen anywhere. *)
Definition hyphen_free (s : str) : bool :=
  forallb (fun c => negb (PyStr.is_hyphen c)) s.

(** None of the five stripped control characters anywhere. *)
Definition control_free (s : str) : bool :=
  forallb (fun c => negb (is_stripped_control c)) s.

(** Only characters that are neither a hyphen nor a stripped control
    character. *)
Definition plain_char (c : ascii) : bool :=
  negb (PyStr.is_hyphen c) && negb (is_stripped_control c).

Definition plain (s : str) : bool := forallb plain_char s.

(** A digit followed at once by a hyphen, somewhere in [s]. *)
Fixpoint digit_hyphen (s : str) : bool :=
  match s with
  | a :: t =>
      match t with
      | b :: _ => (PyStr.is_digit a && PyStr.is_hyphen b) || digit_hyphen t
      | [] => false
      end
  | [] => false
  end.

Ltac each_ascii c :=
  destruct c as [[] [] [] [] [] [] [] []]; try reflexivity; try discriminate.

Lemma digit_plain (c : ascii) : PyStr.is_digit c = true -> plain_char c = true.
Proof. each_ascii c. Qed.

Lemma hy_is_hyphen (c : ascii) : Re.hy c = PyStr.is_hyphen c.
Proof. each_ascii c. Qed.

Lemma forallb_impl {A} (P Q : A -> bool) (l : list A) :
  (forall x, P x = true -> Q x = true) -> forallb P l = true -> forallb Q l = true.
Proof.
  intros I. induction l as [|x l IH]; cbn; [reflexivity|].
  intros H. apply andb_prop in H. destruct H as [Hx Hl].
  rewrite (I x Hx), (IH Hl). reflexivity.
Qed.

Lemma plain_hyphen_free (s : str) : plain s = true -> hyphen_free s = true.
Proof.
  apply forallb_impl. intros c H. unfold plain_char in H.
  apply andb_prop in H. tauto.
Qed.

Lemma plain_control_free (s : str) : plain s = true -> control_free s = true.
Proof.
  apply forallb_impl. intros c H. unfold plain_char in H.
  apply andb_prop in H. tauto.
Qed.

Lemma plain_app (a b : str) : plain (a ++ b) = plain a && plain b.
Proof. apply forallb_app. Qed.

Lemma control_free_app (a b : str) : control_free (a ++ b) = control_free a && control_free b.
Proof. apply forallb_app. Qed.

Lemma digit_char_is_digit (n : Z) : PyStr.is_digit (PyStr.digit_char (n mod 10)) = true.
Proof.
  assert (H : 0 <= n mod 10 < 10) by (apply Z.mod_pos_bound; lia).
  assert (E : n mod 10 = 0 \/ n mod 10 = 1 \/ n mod 10 = 2 \/ n mod 10 = 3 \/ n mod 10 = 4 \/
              n mod 10 = 5 \/ n mod 10 = 6 \/ n mod 10 = 7 \/ n mod 10 = 8 \/ n mod 10 = 9)
    by lia.
  destruct E as [E|[E|[E|[E|[E|[E|[E|[E|[E|E]]]]]]]]]; rewrite E; reflexivity.
Qed.

Lemma digits_fuel_digits (fuel : nat) : forall (n : Z) (acc : str),
  forallb PyStr.is_digit acc = true ->
  forallb PyStr.is_digit (PyStr.digits_fuel fuel n acc) = true.
Proof.
  induction fuel as [|f IH]; intros n acc H; cbn [PyStr.digits_fuel]; [exact H|].
  assert (H' : forallb PyStr.is_digit (PyStr.digit_char (n mod 10) :: acc) = true).
  { cbn [forallb]. rewrite digit_char_is_digit, H. reflexivity. }
  destruct (n <? 10); [exact H' | apply IH; exact H'].
Qed.

Lemma str_of_nonneg_digits (n : Z) : forallb PyStr.is_digit (PyStr.str_of_nonneg n) = true.
Proof. apply digits_fuel_digits. reflexivity. Qed.

(** The decimal text of an [int] that is not negative is plain. *)
Lemma str_of_Z_plain (n : Z) : 0 <= n -> plain (PyStr.str_of_Z n) = true.
Proof.
  intros H. unfold PyStr.str_of_Z. destruct (Z.ltb_spec n 0); [lia|].
  eapply forallb_impl; [exact digit_plain | apply str_of_nonneg_digits].
Qed.

(** The decimal text of any [int] has no control character. *)
Lemma str_of_Z_control_free (n : Z) : control_free (PyStr.str_of_Z n) = true.
Proof.
  unfold PyStr.str_of_Z.
  assert (D : forall m, control_free (PyStr.str_of_nonneg m) = true).
  { intros m. apply plain_control_free.
    eapply forallb_impl; [exact digit_plain | apply str_of_nonneg_digits]. }
  destruct (n <? 0); [cbn; apply D | apply D].
Qed.

Lemma pad2_plain (n : Z) : 0 <= n -> plain (PyStr.pad2 n) = true.
Proof.
  intros H. unfold PyStr.pad2. destruct ((0 <=? n) && (n <? 10)).
  - change (plain_char "0" && plain (PyStr.str_of_Z n) = true).
    rewrite str_of_Z_plain by exact H. reflexivity.
  - apply str_of_Z_plain. exact H.
Qed.

Lemma pad2_control_free (n : Z) : control_free (PyStr.pad2 n) = true.
Proof.
  unfold PyStr.pad2. destruct ((0 <=? n) && (n <? 10)).
  - change (negb (is_stripped_control "0") && control_free (PyStr.str_of_Z n) = true).
    rewrite str_of_Z_control_free. reflexivity.
  - apply str_of_Z_control_free.
Qed.

Lemma In_plain (table : list str) (s : str) :
  forallb plain table = true -> In s table -> plain s = true.
Proof. intros F I. rewrite forallb_forall in F. apply F. exact I. Qed.

Lemma month_abbr_plain (m : Z) : plain (PyLib.month_abbr m) = true.
Proof.
  unfold PyLib.month_abbr.
  destruct (nth_in_or_default (Z.to_nat (m - 1)) PyLib.MONTH_ABBR (lit "Jan")) as [I|E].
  - eapply In_plain; [|exact I]. reflexivity.
  - rewrite E. reflexivity.
Qed.

Definition month_day_checks (n : Z) : bool :=
  forallb (fun leap => let '(m, d) := PyLib.month_day n leap in
                       (1 <=? m) && (m <=? 12) && (1 <=? d) && (d <=? 31))
          [true; false].

Lemma month_days_check : forallb month_day_checks (map Z.of_nat (seq 0 365)) = true.
Proof. vm_compute. reflexivity. Qed.

Lemma month_day_range (n : Z) (leap : bool) :
  0 <= n < 365 ->
  1 <= fst (PyLib.month_day n leap) <= 12 /\ 1 <= snd (PyLib.month_day n leap) <= 31.
Proof.
  intros H. pose proof month_days_check as F. rewrite forallb_forall in F.
  assert (I : In n (map Z.of_nat (seq 0 365))).
  { replace n with (Z.of_nat (Z.to_nat n)) by lia. apply in_map, in_seq. lia. }
  specialize (F n I). unfold month_day_checks in F. rewrite forallb_forall in F.
  assert (L : In leap [true; false]) by (destruct leap; cbn; tauto).
  specialize (F leap L). destruct (PyLib.month_day n leap) as [m d]. cbn [fst snd].
  repeat match goal with
         | H : _ && _ = true |- _ => apply andb_prop in H; destruct H
         end.
  lia.
Qed.

(** Every ordinal has a month from 1 to 12 and a day from 1 to 31. *)
Lemma ord2ymd_range (n0 : Z) :
  let '(_, m, d) := PyLib.ord2ymd n0 in 1 <= m <= 12 /\ 1 <= d <= 31.
Proof.
  unfold PyLib.ord2ymd. cbv zeta.
  destruct (_ || _); [lia|].
  match goal with
  | |- context [PyLib.month_day ?n ?l] =>
      pose proof (month_day_range n l ltac:(apply Z.mod_pos_bound; lia)) as R;
      destruct (PyLib.month_day n l) as [m d]
  end.
  exact R.
Qed.

Lemma format_syslog_ts_plain (ts : Z) : plain (format_syslog_ts ts) = true.
Proof.
  unfold format_syslog_ts, PyLib.fields_of_us.
  pose proof (ord2ymd_range (ts / PyLib.US_PER_DAY + 1)) as R.
  destruct (PyLib.ord2ymd (ts / PyLib.US_PER_DAY + 1)) as [[y m] d].
  cbn [PyLib.dt_month PyLib.dt_day PyLib.dt_hour PyLib.dt_minute PyLib.dt_second].
  assert (0 <= ts mod PyLib.US_PER_DAY < PyLib.US_PER_DAY)
    by (apply Z.mod_pos_bound; reflexivity).
  rewrite !plain_app, month_abbr_plain.
  rewrite !pad2_plain; try reflexivity.
  - apply Z.mod_pos_bound; lia.
  - apply Z.mod_pos_bound; lia.
  - apply Z.div_pos; lia.
  - lia.
Qed.

(* ================================================================= *)
(** * Binary64 rounding: sizes *)

Module FloatFacts.

Lemma digits2_size (p : positive) : digits2_pos p = Pos.size p.
Proof. induction p as [p IH|p IH|]; cbn; rewrite ?IH; reflexivity. Qed.

Lemma digits_upper (p : positive) : Z.pos p < 2 ^ Z.pos (digits2_pos p).
Proof.
  rewrite digits2_size. pose proof (Pos.size_gt p) as H.
  change 2 with (Z.pos 2). rewrite <- Pos2Z.inj_pow. exact H.
Qed.

Lemma digits_lower (p : positive) : 2 ^ Z.pos (digits2_pos p) <= 2 * Z.pos p.
Proof.
  rewrite digits2_size. pose proof (Pos.size_le p) as H.
  change 2 with (Z.pos 2) at 1. rewrite <- Pos2Z.inj_pow. exact H.
Qed.

Lemma Zdigits2_le (m K : Z) : 0 <= K -> 0 <= m < 2 ^ K -> Zdigits2 m <= K.
Proof.
  intros HK [H0 H]. destruct m as [|p|p]; cbn [Zdigits2]; [exact HK| |lia].
  pose proof (digits_lower p) as L.
  destruct (Z_le_gt_dec (Z.pos (digits2_pos p)) K) as [|G]; [assumption|exfalso].
  assert (2 ^ (K + 1) <= 2 ^ Z.pos (digits2_pos p)) by (apply Z.pow_le_mono_r; lia).
  rewrite Z.pow_add_r in * by lia. lia.
Qed.

Lemma shr_1_bounds (mrs : shr_record) :
  0 <= shr_m mrs -> 0 <= shr_m (shr_1 mrs) <= shr_m mrs.
Proof.
  destruct mrs as [m r s]. cbn [shr_m shr_1].
  destruct m as [|[p|p|]|p]; cbn [shr_m]; lia.
Qed.

Lemma iter_shr_1_bounds (p : positive) : forall mrs : shr_record,
  0 <= shr_m mrs -> 0 <= shr_m (iter_pos shr_1 p mrs) <= shr_m mrs.
Proof.
  induction p as [p IH|p IH|]; intros mrs H; cbn [iter_pos].
  - pose proof (shr_1_bounds mrs H) as B1.
    pose proof (IH (shr_1 mrs) (proj1 B1)) as B2.
    pose proof (IH _ (proj1 B2)) as B3. lia.
  - pose proof (IH mrs H) as B2.
    pose proof (IH _ (proj1 B2)) as B3. lia.
  - apply shr_1_bounds. exact H.
Qed.

(** What [shr_fexp] leaves of a mantissa of at most [K] bits at an exponent
    of at most [X]. *)
Lemma shr_fexp_bounds (K X m e : Z) :
  0 <= K -> 0 <= m < 2 ^ K -> e <= X ->
  0 <= shr_m (fst (shr_fexp prec emax m e loc_Exact)) <= m /\
  snd (shr_fexp prec emax m e loc_Exact) <= Z.max X (Z.max (K + X - 53) (-1074)).
Proof.
  intros HK Hm He. unfold shr_fexp, shr. cbn [shr_record_of_loc].
  pose proof (Zdigits2_le m K HK Hm) as D.
  assert (F : fexp prec emax (Zdigits2 m + e) <= Z.max (K + X - 53) (-1074)).
  { unfold fexp, SpecFloat.emin, prec, emax. lia. }
  destruct (fexp prec emax (Zdigits2 m + e) - e) as [|n|n] eqn:S; cbn [fst snd shr_m].
  - lia.
  - pose proof (iter_shr_1_bounds n {| shr_m := m; shr_r := false; shr_s := false |}) as B.
    cbn [shr_m] in B. split; [apply B; lia | lia].
  - lia.
Qed.

Lemma round_nearest_even_bounds (m : Z) (l : location) :
  m <= round_nearest_even m l <= m + 1.
Proof.
  unfold round_nearest_even. destruct l as [|[| |]]; try lia.
  destruct (Z.even m); lia.
Qed.

Definition bound1 (K X : Z) : Z := Z.max X (Z.max (K + X - 53) (-1074)).
Definition bound2 (K X : Z) : Z := bound1 (K + 1) (bound1 K X).

(** A mantissa of at most [K] bits at an exponent of at most [X] rounds to
    zero or to a finite float, when the exponent cannot reach the
    overflow threshold. *)
Lemma binary_round_aux_bounds (K X mx ex : Z) :
  0 <= K -> 0 <= mx < 2 ^ K -> ex <= X -> bound2 K X <= 971 ->
  match binary_round_aux prec emax false mx ex loc_Exact with
  | S754_zero s => s = false
  | S754_finite s m e => s = false /\ Z.pos m <= mx + 1 /\ e <= bound2 K X
  | _ => False
  end.
Proof.
  intros HK Hm He HB. unfold binary_round_aux.
  pose proof (shr_fexp_bounds K X mx ex HK Hm He) as [B1 E1].
  destruct (shr_fexp prec emax mx ex loc_Exact) as [mrs' e']. cbn [fst snd] in B1, E1.
  pose proof (round_nearest_even_bounds (shr_m mrs') (loc_of_shr_record mrs')) as R.
  set (mr := round_nearest_even (shr_m mrs') (loc_of_shr_record mrs')) in *.
  assert (Hr : 0 <= mr < 2 ^ (K + 1)).
  { rewrite Z.pow_add_r by lia. lia. }
  pose proof (shr_fexp_bounds (K + 1) (bound1 K X) mr e' ltac:(lia) Hr E1) as [B2 E2].
  destruct (shr_fexp prec emax mr e' loc_Exact) as [mrs'' e'']. cbn [fst snd] in B2, E2.
  fold (bound1 (K + 1) (bound1 K X)) in E2. fold (bound2 K X) in E2.
  destruct (shr_m mrs'') as [|m|m]; [reflexivity| |lia].
  unfold emax, prec. change (1024 - 53) with 971.
  destruct (Z.leb_spec e'' 971); [|lia].
  repeat split; lia.
Qed.

Lemma iter_xO (d p : positive) : Z.pos (Pos.iter xO p d) = Z.pos p * 2 ^ Z.pos d.
Proof.
  induction d as [|d IH] using Pos.peano_ind.
  - cbn. lia.
  - rewrite Pos.iter_succ, Pos2Z.inj_xO, IH, Pos2Z.inj_succ, Z.pow_succ_r by lia. lia.
Qed.

(** A valid finite float has a mantissa of at most 53 bits. *)
Lemma valid_mantissa (s : bool) (m : positive) (e : Z) :
  valid_binary (S754_finite s m e) = true -> Z.pos m < 2 ^ 53 /\ -1074 <= e <= 971.
Proof.
  cbn [SpecFloat.valid_binary]. unfold bounded, canonical_mantissa, fexp, SpecFloat.emin, prec, emax.
  intros H. apply andb_prop in H. destruct H as [C B].
  apply Z.eqb_eq in C. apply Z.leb_le in B.
  pose proof (digits_upper m) as U.
  assert (Z.pos (digits2_pos m) <= 53) by lia.
  assert (2 ^ Z.pos (digits2_pos m) <= 2 ^ 53) by (apply Z.pow_le_mono_r; lia).
  lia.
Qed.

(** The exact float of a fraction [r * 2^e < 1]: zero, or finite with a
    mantissa of at most 2^53 and an exponent of at most 0. *)
Lemma binary_normalize_fraction (r e : Z) :
  0 <= r < 2 ^ (- e) -> -1074 <= e < 0 -> r < 2 ^ 53 ->
  match binary_normalize prec emax r e false with
  | S754_zero s => s = false
  | S754_finite s m e' => s = false /\ Z.pos m <= 2 ^ 53 /\ e' <= 0
  | _ => False
  end.
Proof.
  intros Hr He H53. unfold binary_normalize.
  destruct r as [|p|p]; [reflexivity| |lia].
  unfold binary_round, shl_align.
  set (e' := fexp prec emax (Z.pos (digits2_pos p) + e)).
  assert (Fe : Z.pos (digits2_pos p) + e - 53 <= e')
    by (unfold e', fexp, SpecFloat.emin, prec, emax; lia).
  pose proof (digits_upper p) as U.
  destruct (e' - e) as [|d|d] eqn:S.
  - pose proof (binary_round_aux_bounds 53 (-1) (Z.pos p) e ltac:(lia) ltac:(lia) ltac:(lia)
                  ltac:(vm_compute; discriminate)) as B.
    destruct (binary_round_aux prec emax false (Z.pos p) e loc_Exact); try exact B.
    change (bound2 53 (-1)) with 0 in B. intuition lia.
  - pose proof (binary_round_aux_bounds 53 (-1) (Z.pos p) e ltac:(lia) ltac:(lia) ltac:(lia)
                  ltac:(vm_compute; discriminate)) as B.
    destruct (binary_round_aux prec emax false (Z.pos p) e loc_Exact); try exact B.
    change (bound2 53 (-1)) with 0 in B. intuition lia.
  - assert (M : Z.pos (Pos.iter xO p d) < 2 ^ 53).
    { rewrite iter_xO.
      assert (Z.pos d <= 53 - Z.pos (digits2_pos p)) by lia.
      assert (2 ^ Z.pos d <= 2 ^ (53 - Z.pos (digits2_pos p))) by (apply Z.pow_le_mono_r; lia).
      assert (2 ^ Z.pos (digits2_pos p) * 2 ^ (53 - Z.pos (digits2_pos p)) = 2 ^ 53)
        by (rewrite <- Z.pow_add_r by lia; f_equal; lia).
      assert (0 < 2 ^ Z.pos d) by (apply Z.pow_pos_nonneg; lia).
      nia. }
    pose proof (binary_round_aux_bounds 53 (-1) (Z.pos (Pos.iter xO p d)) e' ltac:(lia)
                  ltac:(lia) ltac:(lia) ltac:(vm_compute; discriminate)) as B.
    destruct (binary_round_aux prec emax false _ e' loc_Exact); try exact B.
    change (bound2 53 (-1)) with 0 in B. intuition lia.
Qed.

End FloatFacts.

(** [timedelta(seconds=x)] returns for every finite [x] that is not
    negative: the product [secondsfrac * 1e6] is finite. *)
Lemma timedelta_seconds_returns (x : float) :
  (0 <=? x)%float = true -> (x <? infinity)%float = true ->
  exists delta, timedelta_seconds x = Ok delta.
Proof.
  rewrite leb_spec, ltb_spec.
  change (Prim2SF 0%float) with (S754_zero false).
  change (Prim2SF infinity) with (S754_infinity false).
  pose proof (Prim2SF_valid x) as V.
  unfold timedelta_seconds.
  change (Prim2SF 1e6%float) with (S754_finite false 8589934592000000 (-33)).
  destruct (Prim2SF x) as [s|s| |s m e]; unfold PyFloat.modf, SFleb, SFltb, SFcompare; cbv zeta;
    try discriminate.
  - intros _ _. destruct s; eexists; reflexivity.
  - destruct s; discriminate.
  - destruct s; [discriminate|]. intros _ _.
    apply FloatFacts.valid_mantissa in V. destruct V as [Vm Ve].
    destruct (0 <=? e) eqn:E; [eexists; reflexivity|].
    apply Z.leb_gt in E.
    assert (P : 0 < 2 ^ (- e)) by (apply Z.pow_pos_nonneg; lia).
    pose proof (Z.mod_pos_bound (Z.pos m) (2 ^ (- e)) P) as Rb.
    assert (Rm : Z.pos m mod 2 ^ (- e) <= Z.pos m) by (apply Z.mod_le; lia).
    pose proof (FloatFacts.binary_normalize_fraction (Z.pos m mod 2 ^ (- e)) e Rb
                  ltac:(lia) ltac:(lia)) as F.
    destruct (binary_normalize prec emax (Z.pos m mod 2 ^ (- e)) e false)
      as [s0|s0| |s0 mf ef]; try contradiction.
    + subst s0. eexists; reflexivity.
    + destruct F as (-> & Fm & Fe).
      unfold SF64mul, SFmul. cbn [xorb].
      assert (Mx : 0 <= Z.pos (mf * 8589934592000000) < 2 ^ 106).
      { rewrite Pos2Z.inj_mul. change (2 ^ 106) with (2 ^ 53 * 2 ^ 53).
        change (2 ^ 53) with 9007199254740992 in *. nia. }
      pose proof (FloatFacts.binary_round_aux_bounds 106 (-33)
                    (Z.pos (mf * 8589934592000000)) (ef + -33) ltac:(lia) Mx ltac:(lia)
                    ltac:(vm_compute; discriminate)) as B.
      destruct (binary_round_aux prec emax false _ _ loc_Exact) as [s1|s1| |s1 m1 e1];
        try contradiction; eexists; reflexivity.
Qed.

(** [int(x)] returns when [abs(x) < inf]. *)
Lemma int_of_float_returns (x : float) :
  (abs x <? infinity)%float = true -> exists q, PyFloat.int_of_float x = Ok q.
Proof.
  rewrite ltb_spec, abs_spec. change (Prim2SF infinity) with (S754_infinity false).
  unfold PyFloat.int_of_float.
  destruct (Prim2SF x) as [s|s| |s m e]; cbn; try discriminate; intros _; eexists; reflexivity.
Qed.

(** The integers [lo], [lo + 1], ..., [n] of them. *)
Fixpoint ints_from (n : nat) (lo : Z) : list Z :=
  match n with
  | O => []
  | S k => lo :: ints_from k (lo + 1)
  end.

Lemma in_ints_from (n : nat) : forall lo x,
  lo <= x < lo + Z.of_nat n -> In x (ints_from n lo).
Proof.
  induction n as [|k IH]; intros lo x H; [lia|].
  cbn [ints_from]. destruct (Z.eq_dec lo x) as [->|N]; [left; reflexivity|].
  right. apply IH. lia.
Qed.

Definition DIVISORS : list Z := ints_from 61 60.
Definition BYTE_COUNTS : list Z := ints_from (Z.to_nat 15000) 1.

(** The quotients [bytes_cnt / d] of one byte count are finite. *)
Definition finite_quotients (divisors : list float) (bytes_cnt : Z) : bool :=
  let fb := PyFloat.of_int bytes_cnt in
  forallb (fun fd => (abs (fb / fd) <? infinity)%float) divisors.

Lemma all_quotients_finite :
  forallb (finite_quotients (map PyFloat.of_int DIVISORS)) BYTE_COUNTS = true.
Proof. vm_compute. reflexivity. Qed.

(** [int(bytes_cnt / d)] returns for every byte count and divisor the
    generator draws. *)
Lemma packets_quotient_returns (bytes_cnt d : Z) :
  0 < bytes_cnt <= 15000 -> 60 <= d <= 120 ->
  exists q, PyFloat.int_of_float (PyFloat.of_int bytes_cnt / PyFloat.of_int d)%float = Ok q.
Proof.
  intros Hb Hd. apply int_of_float_returns.
  pose proof all_quotients_finite as F. rewrite forallb_forall in F.
  assert (Ib : In bytes_cnt BYTE_COUNTS) by (apply in_ints_from; lia).
  specialize (F _ Ib). unfold finite_quotients in F. rewrite forallb_forall in F.
  apply F. apply in_map. apply in_ints_from. lia.
Qed.

(* ================================================================= *)
(** * Postconditions over the monad *)

Section Post.
Context `{RS : RandomSource}.

(** [post D P o]: the outcome [o] is a result that satisfies [P], or it is
    no result and [D] holds.  With [D := True] this is partial correctness;
    with [D := False] it says that [o] is a result. *)
Definition post {A} (D : Prop) (P : A -> Prop) (o : outcome (A * world)) : Prop :=
  match o with
  | Ok (a, _) => P a
  | _ => D
  end.

Lemma post_ret {A} (D : Prop) (P : A -> Prop) (a : A) (w : world) :
  P a -> post D P (ret a w).
Proof. intros H. exact H. Qed.

Lemma post_bind {A B} (D : Prop) (P : A -> Prop) (Q : B -> Prop)
    (m : M A) (k : A -> M B) (w : world) :
  post D P (m w) ->
  (forall a w1, P a -> post D Q (k a w1)) ->
  post D Q (bind m k w).
Proof.
  unfold bind, post. destruct (m w) as [[a w1]| |]; intros H K; [apply K; exact H | exact H ..].
Qed.

Lemma post_weaken {A} (D : Prop) (P Q : A -> Prop) (o : outcome (A * world)) :
  (forall a, P a -> Q a) -> post D P o -> post D Q o.
Proof. unfold post. destruct o as [[a w]| |]; auto. Qed.

Lemma post_false {A} (P : A -> Prop) (o : outcome (A * world)) :
  post False P o -> exists a w, o = Ok (a, w) /\ P a.
Proof. unfold post. destruct o as [[a w]| |]; try contradiction. eauto. Qed.

Lemma post_true {A} (P : A -> Prop) (o : outcome (A * world)) (a : A) (w : world) :
  post True P o -> o = Ok (a, w) -> P a.
Proof. intros H ->. exact H. Qed.

Lemma post_py_random (D : Prop) (w : world) :
  post D (fun r => (0 <=? r)%float = true /\ (r <? 1)%float = true) (py_random w).
Proof. rewrite py_random_run. apply random_unit. Qed.

Lemma post_randint (D : Prop) (a b : Z) (w : world) :
  a <= b -> post D (fun k => a <= k <= b) (randint a b w).
Proof.
  intros H. destruct (randint_run a b w H) as (k & g & E & R). rewrite E. exact R.
Qed.

Lemma post_choice {A} (D : Prop) (seq : list A) (w : world) :
  seq <> [] -> post D (fun x => In x seq) (choice seq w).
Proof.
  intros H. destruct (choice_run seq w H) as (x & g & E & I). rewrite E. exact I.
Qed.

Lemma weighted_walk_in (choices : list (str * float)) (r : float) : forall upto k,
  weighted_walk choices upto r = Some k -> In k (map fst choices).
Proof.
  induction choices as [|[k0 w0] t IH]; intros upto k; cbn; [discriminate|].
  destruct (r <=? upto + w0)%float.
  - intros [= <-]. left. reflexivity.
  - intros H. right. eapply IH. exact H.
Qed.

Lemma last_in {A} (t : list A) : forall c : A, In (last t c) (c :: t).
Proof.
  induction t as [|y t IH]; intros c; [left; reflexivity|].
  right. rewrite (last_default y c y).
  destruct t as [|z t]; [left; reflexivity|]. apply (IH y).
Qed.

Lemma post_weighted_choice (D : Prop) (choices : list (str * float)) (w : world) :
  choices <> [] ->
  post D (fun k => In k (map fst choices)) (weighted_choice choices w).
Proof.
  intros N. unfold weighted_choice.
  rewrite (bind_of_ok _ _ _ _ _ (py_random_run w)).
  unfold weighted_choice_at.
  destruct (weighted_walk choices 0%float _) as [k|] eqn:E.
  - apply post_ret. eapply weighted_walk_in. exact E.
  - destruct choices as [|c t]; [contradiction|].
    destruct (rev_head_last c t) as [l R]. rewrite R.
    destruct (last t c) as [k x] eqn:L. apply post_ret.
    pose proof (last_in t c) as I.
    rewrite L in I. apply (in_map fst) in I. exact I.
Qed.

Lemma bisect_actions (x : float) :
  bisect (accumulate ACTION_WEIGHTS) x 0 2 =
  if (x <? 0.6 + 0.3)%float then (if (x <? 0.6)%float then 0%nat else 1%nat) else 2%nat.
Proof. reflexivity. Qed.

Lemma post_choices1_actions (D : Prop) (w : world) :
  post D (fun a => In a ACTIONS) (choices1 ACTIONS ACTION_WEIGHTS w).
Proof.
  unfold choices1.
  change (negb (List.length (accumulate ACTION_WEIGHTS) =? List.length ACTIONS)%nat) with false.
  cbv iota.
  change ((last (accumulate ACTION_WEIGHTS) nan + 0.0 <=? 0.0)%float) with false.
  change (negb (last (accumulate ACTION_WEIGHTS) nan + 0.0 <? infinity)%float) with false.
  cbv iota.
  rewrite (bind_of_ok _ _ _ _ _ (py_random_run w)).
  change (List.length ACTIONS - 1)%nat with 2%nat. rewrite bisect_actions.
  destruct (_ <? 0.6 + 0.3)%float; [destruct (_ <? 0.6)%float|]; apply post_ret; cbn; tauto.
Qed.

Lemma hex_char_plain (n : N) : plain_char (PyStr.hex_char (N.land n 15)) = true.
Proof.
  assert (H : (N.land n 15 < 16)%N).
  { change 15%N with (N.ones 4). rewrite N.land_ones. apply N.mod_lt. discriminate. }
  destruct (N.land n 15) as [|p]; [reflexivity|].
  do 4 (destruct p as [p|p|]; try reflexivity); exfalso; destruct p; discriminate H || lia.
Qed.

Lemma hex_fixed_plain (width : nat) : forall n, plain (PyStr.hex_fixed width n) = true.
Proof.
  induction width as [|k IH]; intros n; cbn [PyStr.hex_fixed]; [reflexivity|].
  rewrite plain_app, IH. cbn [plain forallb]. rewrite hex_char_plain. reflexivity.
Qed.

Lemma forallb_firstn {A} (P : A -> bool) (n : nat) (l : list A) :
  forallb P l = true -> forallb P (firstn n l) = true.
Proof.
  revert l. induction n as [|k IH]; intros [|x l] H; cbn in *; try reflexivity.
  apply andb_prop in H. destruct H as [Hx Hl]. rewrite Hx, (IH l Hl). reflexivity.
Qed.

Lemma post_uuid4_hex8 (D : Prop) (w : world) :
  post D (fun uid => plain uid = true) (uuid4_hex8 w).
Proof.
  unfold uuid4_hex8, bind, os_urandom, ret, post.
  apply forallb_firstn. apply hex_fixed_plain.
Qed.

Lemma post_packets_of (D : Prop) (bytes_cnt d : Z) (w : world) :
  0 < bytes_cnt <= 15000 -> 60 <= d <= 120 ->
  post D (fun pkts => 0 <= pkts) (packets_of bytes_cnt d w).
Proof.
  intros Hb Hd. unfold packets_of.
  destruct (packets_quotient_returns bytes_cnt d Hb Hd) as [q E]. rewrite E.
  apply post_ret. lia.
Qed.

End Post.

(* ================================================================= *)
(** * The shape of a generated line *)

Definition SEVERITY_LABELS : list str := map fst SEVERITY.

(** What a line starts with: the rendered timestamp, the host and the
    daemon tag. *)
Definition line_prefix (ts : Z) (host : str) (pid : Z) : str :=
  format_syslog_ts ts ++ lit " " ++ host ++ lit " firewall[" ++ PyStr.str_of_Z pid ++ lit "]: ".

(** A line of the generator: its prefix, the tag [%FW-<severity>-*.] and a
    plain rest. *)
Definition line_shape (pre line : str) : Prop :=
  exists sev rest,
    line = pre ++ lit "%FW-" ++ sev ++ lit "-*." ++ rest /\
    In sev SEVERITY_LABELS /\ plain rest = true.

Lemma line_prefix_plain (ts : Z) (host : str) (pid : Z) :
  plain host = true -> 0 <= pid -> plain (line_prefix ts host pid) = true.
Proof.
  intros Hh Hp. unfold line_prefix.
  rewrite !plain_app, format_syslog_ts_plain, Hh, str_of_Z_plain by exact Hp. reflexivity.
Qed.

Lemma dotted_plain (a b c d : Z) :
  0 <= a -> 0 <= b -> 0 <= c -> 0 <= d -> plain (dotted a b c d) = true.
Proof.
  intros. unfold dotted. rewrite !plain_app, !str_of_Z_plain by assumption. reflexivity.
Qed.

Lemma str_of_ip_plain (n : Z) : plain (PyLib.str_of_ip n) = true.
Proof.
  unfold PyLib.str_of_ip. rewrite !plain_app.
  rewrite !str_of_Z_plain; try reflexivity; apply Z.mod_pos_bound; lia.
Qed.

Lemma filter_all {A} (f : A -> bool) (l : list A) : forallb f l = true -> filter f l = l.
Proof.
  induction l as [|x l IH]; cbn; [reflexivity|].
  intros H. apply andb_prop in H. destruct H as [Hx Hl]. rewrite Hx, (IH Hl). reflexivity.
Qed.

Lemma sanitize_control_free (s : str) : control_free s = true -> sanitize s = s.
Proof. apply filter_all. Qed.

Lemma sanitize_is_control_free (s : str) : control_free (sanitize s) = true.
Proof.
  unfold control_free, sanitize. apply forallb_forall. intros c I.
  apply filter_In in I. tauto.
Qed.

Section LineShape.
Context `{RS : RandomSource}.

Lemma post_cases {A} (D : Prop) (P : A -> Prop) (o : outcome (A * world)) :
  post True P o -> D \/ returns o = true -> post D P o.
Proof.
  unfold post. destruct o as [[a w]| |]; cbn; intros H [d|R]; try assumption; discriminate.
Qed.

Lemma public_ipv4_plain (fuel : nat) : forall w : world,
  post True (fun s => plain s = true) (public_ipv4 fuel w).
Proof.
  induction fuel as [|f IH]; intros w; cbn [public_ipv4]; [exact I|].
  eapply post_bind; [apply post_randint; lia|]. intros a w1 Ha.
  eapply post_bind; [apply post_randint; lia|]. intros b w2 Hb.
  eapply post_bind; [apply post_randint; lia|]. intros c w3 Hc.
  eapply post_bind; [apply post_randint; lia|]. intros d w4 Hd.
  cbv beta in *.
  destruct (negb (reserved a b)); [|apply IH].
  apply post_ret. apply dotted_plain; lia.
Qed.

Lemma private_ipv4_plain (D : Prop) (w : world) :
  post D (fun s => plain s = true) (private_ipv4 w).
Proof.
  unfold private_ipv4.
  eapply post_bind; [apply post_choice; discriminate|]. intros s w1 I. cbv beta in I.
  assert (exists net, PyLib.ip_network s = Some net /\ 3 <= PyLib.num_addresses net)
    as (net & En & Hn).
  { destruct I as [<-|[<-|[<-|[]]]]; eexists; (split; [reflexivity|]); vm_compute;
      discriminate. }
  rewrite En.
  eapply post_bind; [apply post_randint; lia|]. intros k w2 _.
  apply post_ret. apply str_of_ip_plain.
Qed.

(** The addresses are plain: partially for any fuel, totally for a fuel the
    source never exhausts. *)
Lemma random_ipv4_plain (D : Prop) (fuel : nat) (private_bias : float) (w : world) :
  D \/ bounded_rejection fuel ->
  post D (fun s => plain s = true) (random_ipv4 fuel private_bias w).
Proof.
  intros H. unfold random_ipv4.
  rewrite (bind_of_ok _ _ _ _ _ (py_random_run w)). cbv beta.
  destruct (_ <? private_bias)%float; [apply private_ipv4_plain|].
  apply post_cases; [apply public_ipv4_plain|].
  destruct H as [d|B]; [left; exact d | right; apply B].
Qed.

Lemma message_shape (sev : str) (rule : Z) (reason s_ip d_ip proto : str)
    (s_pt d_pt : Z) (action : str) (bytes_cnt pkts : Z) (in_if out_if uid : str) :
  0 <= rule -> 0 <= s_pt -> 0 <= d_pt -> 0 <= bytes_cnt -> 0 <= pkts ->
  plain reason = true -> plain s_ip = true -> plain d_ip = true -> plain proto = true ->
  plain action = true -> plain in_if = true -> plain out_if = true -> plain uid = true ->
  exists rest,
    message_of sev rule reason s_ip d_ip proto s_pt d_pt action bytes_cnt pkts in_if out_if uid
      = lit "%FW-" ++ sev ++ lit "-*." ++ rest /\
    plain rest = true.
Proof.
  intros. unfold message_of. eexists. split; [reflexivity|].
  rewrite !plain_app.
  repeat match goal with
         | H : plain _ = true |- _ => rewrite H; clear H
         end.
  rewrite !str_of_Z_plain by assumption. reflexivity.
Qed.

Lemma severity_label_control_free (sev : str) :
  In sev SEVERITY_LABELS -> control_free sev = true.
Proof.
  intros I. apply plain_control_free. eapply In_plain; [|exact I]. reflexivity.
Qed.

(** Every line [make_log_line] returns has the shape; it returns one
    whenever the fuel is enough for the source. *)
Lemma make_log_line_shape (D : Prop) (fuel : nat) (ts : Z) (host : str) (pid : Z) (w : world) :
  D \/ bounded_rejection fuel ->
  post D (line_shape (line_prefix ts host pid)) (make_log_line fuel ts host pid w).
Proof.
  intros HF. unfold make_log_line, make_log_line_with.
  eapply post_bind; [apply post_weighted_choice; discriminate|]. intros sev w1 Hsev.
  eapply post_bind; [apply post_choice; discriminate|]. intros proto w2 Hproto.
  eapply post_bind; [apply random_ipv4_plain; exact HF|]. intros s_ip w3 Hs.
  eapply post_bind; [apply random_ipv4_plain; exact HF|]. intros d_ip w4 Hd.
  eapply post_bind with (P := fun s_pt => 0 <= s_pt).
  { destruct (is_tcp_udp proto).
    - eapply post_weaken; [|apply post_randint; lia]. cbv beta. intros; lia.
    - apply post_ret. lia. }
  intros s_pt w5 Hspt.
  eapply post_bind with (P := fun d_pt => 0 <= d_pt).
  { destruct (is_tcp_udp proto).
    - eapply post_weaken; [|apply post_choice; discriminate].
      cbv beta. intros a Ia. cbn in Ia. intuition lia.
    - apply post_ret. lia. }
  intros d_pt w6 Hdpt.
  eapply post_bind; [apply post_choice; discriminate|]. intros in_if w7 Hin.
  eapply post_bind; [apply post_choice; discriminate|]. intros out_if w8 Hout.
  eapply post_bind; [apply post_choices1_actions|]. intros action w9 Hact.
  eapply post_bind; [apply post_randint; lia|]. intros bytes_cnt w10 Hb.
  eapply post_bind with (P := fun pkts => 0 <= pkts).
  { destruct (Z.ltb_spec 0 bytes_cnt).
    - eapply post_bind; [apply post_randint; lia|]. intros dv w' Hdv.
      apply post_packets_of; cbv beta in *; lia.
    - eapply post_weaken; [|apply post_randint; lia]. cbv beta. intros; lia. }
  intros pkts w11 Hpk.
  eapply post_bind; [apply post_randint; lia|]. intros rule w12 Hrule.
  eapply post_bind; [apply post_uuid4_hex8|]. intros uid w13 Huid.
  eapply post_bind with (P := fun reason => plain reason = true).
  { destruct (_ || _); [|destruct (PyStr.eqb sev "WARNING")];
      (eapply post_weaken; [|apply post_choice; discriminate]);
      cbv beta; intros r Ir; (eapply In_plain; [|exact Ir]); reflexivity. }
  intros reason w14 Hreason.
  apply post_ret. cbv beta in *.
  destruct (message_shape sev rule reason s_ip d_ip proto s_pt d_pt action bytes_cnt pkts
              in_if out_if uid) as (rest & Em & Pr); try lia; try assumption;
    try (eapply In_plain; [|eassumption]; reflexivity).
  rewrite Em.
  rewrite sanitize_control_free.
  - exists sev, rest. split; [|split].
    + unfold line_prefix. rewrite <- !app_assoc. reflexivity.
    + exact Hsev.
    + exact Pr.
  - rewrite !control_free_app, (severity_label_control_free sev Hsev),
      (plain_control_free rest Pr). reflexivity.
Qed.

End LineShape.

(* ================================================================= *)
(** * Lines and files *)

Lemma lstrip_suffix (s : str) : exists d, s = d ++ PyStr.lstrip s.
Proof.
  induction s as [|c t [d E]]; [exists []; reflexivity|].
  cbn [PyStr.lstrip]. destruct (PyStr.is_space c).
  - exists (c :: d). cbn. rewrite <- E. reflexivity.
  - exists []. reflexivity.
Qed.

(** [rstrip] keeps a prefix. *)
Lemma rstrip_prefix (s : str) : exists t, s = PyStr.rstrip s ++ t.
Proof.
  unfold PyStr.rstrip. destruct (lstrip_suffix (rev s)) as [d E].
  exists (rev d). rewrite <- rev_app_distr, <- E, rev_involutive. reflexivity.
Qed.

Lemma lstrip_keeps (x y : str) (c : ascii) :
  PyStr.is_space c = false -> exists x', PyStr.lstrip (x ++ c :: y) = x' ++ c :: y.
Proof.
  intros H. induction x as [|a x [x' E]]; cbn [app PyStr.lstrip].
  - rewrite H. exists []. reflexivity.
  - destruct (PyStr.is_space a); [exists x'; exact E|].
    exists (a :: x). reflexivity.
Qed.

(** [rstrip] keeps everything up to a character that is no space. *)
Lemma rstrip_keeps (a b : str) (c : ascii) :
  PyStr.is_space c = false -> exists b', PyStr.rstrip (a ++ c :: b) = a ++ c :: b'.
Proof.
  intros H. unfold PyStr.rstrip. rewrite rev_app_distr. cbn [rev]. rewrite <- app_assoc.
  cbn [app]. destruct (lstrip_keeps (rev b) (rev a) c H) as [x' E]. rewrite E.
  exists (rev x'). rewrite rev_app_distr. cbn [rev]. rewrite rev_involutive, <- app_assoc.
  reflexivity.
Qed.

Lemma control_free_no_newline (c : ascii) :
  negb (is_stripped_control c) = true ->
  Ascii.eqb c LF = false /\ Ascii.eqb c CR = false.
Proof. each_ascii c; split; reflexivity. Qed.

Lemma readlines_aux_line (l : str) : forall (cur rest : str),
  control_free l = true ->
  readlines_aux cur (l ++ LF :: rest) = (rev cur ++ l ++ [LF]) :: readlines_aux [] rest.
Proof.
  induction l as [|c l IH]; intros cur rest H.
  - reflexivity.
  - cbn [control_free forallb] in H. apply andb_prop in H. destruct H as [Hc Hl].
    destruct (control_free_no_newline c Hc) as [N1 N2].
    cbn [app readlines_aux]. rewrite N1, N2.
    rewrite (IH (c :: cur) rest Hl). cbn [rev]. rewrite <- !app_assoc. reflexivity.
Qed.

(** Reading back a file of newline-terminated lines without control
    characters yields the lines. *)
Lemma readlines_concat (lines : list str) :
  Forall (fun l => control_free l = true) lines ->
  readlines (List.concat (map (fun l => l ++ [LF]) lines)) = map (fun l => l ++ [LF]) lines.
Proof.
  unfold readlines. induction 1 as [|l lines Hl _ IH]; [reflexivity|].
  cbn [map List.concat]. rewrite <- app_assoc. cbn [app].
  rewrite (readlines_aux_line l [] _ Hl), IH. reflexivity.
Qed.

Lemma line_shape_control_free (pre line : str) :
  plain pre = true -> line_shape pre line -> control_free line = true.
Proof.
  intros Hp (sev & rest & -> & Hs & Hr).
  rewrite !control_free_app, (plain_control_free pre Hp),
    (severity_label_control_free sev Hs), (plain_control_free rest Hr). reflexivity.
Qed.

Lemma control_free_rstrip (s : str) : control_free s = true -> control_free (PyStr.rstrip s) = true.
Proof.
  intros H. destruct (rstrip_prefix s) as [t E]. rewrite E, control_free_app in H.
  apply andb_prop in H. tauto.
Qed.

(** A record of a run: what was written for it is the line made at its
    timestamp, right-stripped, and a newline. *)
Definition record_ok (host : str) (pid : Z) (r : Z * str) : Prop :=
  exists line,
    line_shape (line_prefix (fst r) host pid) line /\
    snd r = PyStr.rstrip line ++ [LF].

Section Records.
Context `{RS : RandomSource}.

Lemma post_py_expovariate (D : Prop) (lambd : float) (w : world) :
  (0 <? lambd)%float = true ->
  post D (fun x => (0 <=? x)%float = true /\ (x <? infinity)%float = true)
       (py_expovariate lambd w).
Proof.
  intros H. unfold py_expovariate, with_rng.
  pose proof (expovariate_range lambd (w_rng w) H) as R.
  destruct (expovariate lambd (w_rng w)) as [x g]. exact R.
Qed.

Lemma emit_records_shape (D : Prop) (fuel : nat) (host : str) (pid : Z) (n : nat) :
  D \/ bounded_rejection fuel ->
  forall (ts : Z) (w : world),
  post D (fun records => List.length records = n /\ Forall (record_ok host pid) records)
       (emit_records fuel n ts host pid w).
Proof.
  intros HF. induction n as [|n IH]; intros ts w; cbn [emit_records].
  - apply post_ret. split; [reflexivity | constructor].
  - eapply post_bind; [apply post_py_expovariate; reflexivity|].
    intros x w1 [X0 X1].
    destruct (timedelta_seconds_returns x X0 X1) as [delta E]. rewrite E.
    eapply post_bind; [apply make_log_line_shape; exact HF|]. intros line w2 Hl.
    eapply post_bind; [apply IH|]. intros rest w3 [Hn Hr].
    apply post_ret. split; [cbn; rewrite Hn; reflexivity|].
    constructor; [|exact Hr]. exists line. split; [exact Hl | reflexivity].
Qed.

Lemma HOST_plain : plain HOST = true.
Proof. reflexivity. Qed.

(** The records of a run: as many as asked for, each of the shape, with a
    process id that is not negative. *)
Lemma generate_records_shape (D : Prop) (fuel : nat) (count : Z) (start_time : option Z)
    (seed : option Z) (env : os_env) :
  D \/ bounded_rejection fuel ->
  match generate_records fuel count start_time seed env with
  | Ok records =>
      List.length records = Z.to_nat count /\
      exists pid, 0 <= pid /\ Forall (record_ok HOST pid) records
  | _ => D
  end.
Proof.
  intros HF. unfold generate_records.
  set (w := seeded_world seed env).
  set (ts := match start_time with Some t => t | None => env_now env end).
  assert (P : post D (fun records => List.length records = Z.to_nat count /\
                        exists pid, 0 <= pid /\ Forall (record_ok HOST pid) records)
                   ((pid <- randint 1000 9999;; emit_records fuel (Z.to_nat count) ts HOST pid) w)).
  { eapply post_bind; [apply post_randint; lia|]. intros pid w1 Hp. cbv beta in Hp.
    eapply post_weaken; [|apply emit_records_shape; exact HF].
    cbv beta. intros records [Hn Hr]. split; [exact Hn|]. exists pid. split; [lia | exact Hr]. }
  unfold post in P.
  destruct ((pid <- randint 1000 9999;; emit_records fuel (Z.to_nat count) ts HOST pid) w)
    as [[records w']| |]; exact P.
Qed.

End Records.

(* ================================================================= *)
(** * Line integrity (C4) *)

Lemma records_lines (host : str) (pid : Z) (records : list (Z * str)) :
  0 <= pid -> plain host = true ->
  Forall (record_ok host pid) records ->
  exists lines,
    List.length lines = List.length records /\
    map snd records = map (fun l => l ++ [LF]) lines /\
    Forall (fun l => control_free l = true) lines.
Proof.
  intros Hp Hh. induction 1 as [|r records (line & Hs & Hr) _ (lines & Hn & Hm & Hc)].
  - exists []. repeat split; constructor.
  - exists (PyStr.rstrip line :: lines). cbn [List.length map]. rewrite Hn, Hm, Hr.
    repeat split. constructor; [|exact Hc].
    apply control_free_rstrip. eapply line_shape_control_free; [|exact Hs].
    apply line_prefix_plain; assumption.
Qed.

Section LineIntegrity.
Context `{RS : RandomSource}.


End LineIntegrity.


(* ================================================================= *)
(** * The generator's lines under the summarizer's timestamp pattern (C10) *)

Lemma digit_hyphen_cons (a : ascii) (t : str) :
  digit_hyphen (a :: t) =
  match t with
  | b :: _ => (PyStr.is_digit a && PyStr.is_hyphen b) || digit_hyphen t
  | [] => false
  end.
Proof. reflexivity. Qed.

Lemma hyphen_free_no_digit_hyphen (s : str) : hyphen_free s = true -> digit_hyphen s = false.
Proof.
  induction s as [|a t IH]; [reflexivity|].
  intros H. cbn [hyphen_free forallb] in H. apply andb_prop in H. destruct H as [_ Ht].
  rewrite digit_hyphen_cons. destruct t as [|b t']; [reflexivity|].
  rewrite (IH Ht). cbn [hyphen_free forallb] in Ht. apply andb_prop in Ht.
  destruct Ht as [Hb _]. apply negb_true_iff in Hb. rewrite Hb, andb_false_r. reflexivity.
Qed.

(** A hyphen-free text before a text that does not start with a hyphen adds
    no digit-hyphen pair. *)
Lemma digit_hyphen_after_plain (a : str) (c : ascii) (b : str) :
  hyphen_free a = true -> PyStr.is_hyphen c = false ->
  digit_hyphen (a ++ c :: b) = digit_hyphen (c :: b).
Proof.
  intros Ha Hc. induction a as [|x a IH]; [reflexivity|].
  cbn [hyphen_free forallb] in Ha. apply andb_prop in Ha. destruct Ha as [_ Ha].
  cbn [app]. rewrite digit_hyphen_cons.
  destruct a as [|y a'].
  - cbn [app]. rewrite Hc, andb_false_r. reflexivity.
  - cbn [app] in *. rewrite (IH Ha).
    cbn [hyphen_free forallb] in Ha. apply andb_prop in Ha. destruct Ha as [Hy _].
    apply negb_true_iff in Hy. rewrite Hy, andb_false_r. reflexivity.
Qed.

(** A hyphen-free text after any text adds no digit-hyphen pair. *)
Lemma digit_hyphen_before_plain (a b : str) :
  hyphen_free b = true -> digit_hyphen (a ++ b) = digit_hyphen a.
Proof.
  intros Hb. induction a as [|x a IH].
  - cbn [app]. rewrite (hyphen_free_no_digit_hyphen b Hb). reflexivity.
  - cbn [app]. rewrite !digit_hyphen_cons, IH.
    destruct a as [|y a']; [|reflexivity].
    cbn [app]. destruct b as [|z b']; [reflexivity|].
    cbn [hyphen_free forallb] in Hb. apply andb_prop in Hb. destruct Hb as [Hz _].
    apply negb_true_iff in Hz. rewrite Hz, andb_false_r. reflexivity.
Qed.

Lemma digit_hyphen_prefix (a b : str) :
  digit_hyphen (a ++ b) = false -> digit_hyphen a = false.
Proof.
  induction a as [|x a IH]; [reflexivity|].
  cbn [app]. rewrite !digit_hyphen_cons.
  destruct a as [|y a']; [reflexivity|].
  cbn [app] in *. intros H. apply orb_false_iff in H. destruct H as [H1 H2].
  rewrite H1, (IH H2). reflexivity.
Qed.

Lemma line_shape_no_digit_hyphen (pre line : str) :
  plain pre = true -> line_shape pre line -> digit_hyphen line = false.
Proof.
  intros Hp (sev & rest & -> & Hs & Hr).
  apply plain_hyphen_free in Hp, Hr.
  change (lit "%FW-" ++ sev ++ lit "-*." ++ rest)
    with ("%"%char :: lit "FW-" ++ sev ++ lit "-*." ++ rest).
  rewrite digit_hyphen_after_plain by (exact Hp || reflexivity).
  destruct Hs as [<-|[<-|[<-|[<-|[<-|[]]]]]];
    match goal with
    | |- digit_hyphen (_ :: lit "FW-" ++ ?sev ++ lit "-*." ++ rest) = false =>
        change (digit_hyphen ((lit "%FW-" ++ sev ++ lit "-*.") ++ rest) = false)
    end;
    rewrite digit_hyphen_before_plain by exact Hr; reflexivity.
Qed.

Lemma match_classes_cons (p : ascii -> bool) (ps : list (ascii -> bool)) (s m rest : str) :
  Re.match_classes (p :: ps) s = Some (m, rest) ->
  exists c t m',
    s = c :: t /\ p c = true /\ m = c :: m' /\ Re.match_classes ps t = Some (m', rest).
Proof.
  destruct s as [|c t]; cbn [Re.match_classes]; [discriminate|].
  destruct (p c) eqn:Hc; [|discriminate].
  destruct (Re.match_classes ps t) as [[m' r']|] eqn:E; [|discriminate].
  intros [= <- <-]. exists c, t, m'. repeat split; assumption.
Qed.

(** A match of the timestamp pattern contains a digit followed by a
    hyphen: the fourth digit of the year and the hyphen after it. *)
Lemma timestamp_here_digit_hyphen (prev : option ascii) (s m : str) :
  Re.timestamp_here prev s = Some m -> digit_hyphen s = true.
Proof.
  unfold Re.timestamp_here. destruct (Re.boundary_before prev); [|discriminate].
  destruct (Re.match_classes Re.timestamp_classes s) as [[m' rest]|] eqn:E; [|discriminate].
  intros _. unfold Re.timestamp_classes in E.
  apply match_classes_cons in E. destruct E as (c1 & t1 & m1 & -> & _ & _ & E).
  apply match_classes_cons in E. destruct E as (c2 & t2 & m2 & -> & _ & _ & E).
  apply match_classes_cons in E. destruct E as (c3 & t3 & m3 & -> & _ & _ & E).
  apply match_classes_cons in E. destruct E as (c4 & t4 & m4 & -> & H4 & _ & E).
  apply match_classes_cons in E. destruct E as (c5 & t5 & m5 & -> & H5 & _ & E).
  rewrite hy_is_hyphen in H5. unfold Re.d in H4.
  rewrite !digit_hyphen_cons, H4, H5. cbn. rewrite !orb_true_r. reflexivity.
Qed.

Lemma search_digit_hyphen (s : str) : forall (prev : option ascii) (m : str),
  Re.search Re.timestamp_here prev s = Some m -> digit_hyphen s = true.
Proof.
  induction s as [|c t IH]; intros prev m; cbn [Re.search].
  - destruct (Re.timestamp_here prev []) eqn:E; [|discriminate].
    intros _. eapply timestamp_here_digit_hyphen. exact E.
  - destruct (Re.timestamp_here prev (c :: t)) eqn:E.
    + intros _. eapply timestamp_here_digit_hyphen. exact E.
    + intros H. apply IH in H. rewrite digit_hyphen_cons.
      destruct t as [|b t']; [discriminate H|]. rewrite H. apply orb_true_r.
Qed.

(** No digit-hyphen pair, no timestamp. *)
Lemma no_digit_hyphen_no_timestamp (s : str) :
  digit_hyphen s = false -> TIMESTAMP_PATTERN s = None.
Proof.
  intros H. unfold TIMESTAMP_PATTERN.
  destruct (Re.search Re.timestamp_here None s) as [m|] eqn:E; [|reflexivity].
  apply search_digit_hyphen in E. congruence.
Qed.

Lemma count_signature_fields keyword level msg a :
  first_ts (count_signature keyword level msg a) = first_ts a /\
  last_ts (count_signature keyword level msg a) = last_ts a /\
  total_lines (count_signature keyword level msg a) = total_lines a /\
  level_counts (count_signature keyword level msg a) = level_counts a.
Proof.
  pose proof (count_signature_frame keyword level msg a) as F. unfold frame in F.
  injection F as -> -> -> ->. repeat split.
Qed.


Lemma record_ok_no_timestamp (host : str) (pid : Z) (r : Z * str) :
  plain host = true -> 0 <= pid -> record_ok host pid r ->
  TIMESTAMP_PATTERN (snd r) = None /\
  exists tail, snd r = format_syslog_ts (fst r) ++ lit " " ++ tail.
Proof.
  intros Hh Hp (line & Hs & Hr). rewrite Hr. split.
  - apply no_digit_hyphen_no_timestamp.
    rewrite digit_hyphen_before_plain by reflexivity.
    destruct (rstrip_prefix line) as [t E].
    apply (digit_hyphen_prefix _ t). rewrite <- E.
    eapply line_shape_no_digit_hyphen; [|exact Hs]. apply line_prefix_plain; assumption.
  - destruct Hs as (sev & rest & -> & _ & _).
    change (lit "%FW-" ++ sev ++ lit "-*." ++ rest)
      with ("%"%char :: lit "FW-" ++ sev ++ lit "-*." ++ rest).
    destruct (rstrip_keeps (line_prefix (fst r) host pid) (lit "FW-" ++ sev ++ lit "-*." ++ rest)
                "%"%char eq_refl) as [b' E].
    rewrite E. unfold line_prefix. rewrite <- !app_assoc. eexists. reflexivity.
Qed.

Section NoTimestamps.
Context `{RS : RandomSource}.


End NoTimestamps.

Definition file_of_seed42 : str :=
  match generate_logs (RS := CounterSource.source) 2 3 (Some T_2025_10_20) (Some 42) some_env with
  | Ok file => file
  | _ => []
  end.


Example generated_file_summary :
  match summarize_log "fw.log" file_of_seed42 None None None with
  | Ok s => sum_text s =
      lit "===== LOG SUMMARY =====
File: fw.log
Time span: N/A
Total lines processed: 3

Log Level Counts:
  INFO: 3

Top 5 Repeated Error Messages:"
  | _ => False
  end.
Proof. vm_compute. reflexivity. Qed.

(* ================================================================= *)
(** * Binary64 rounding: the shifts of [binary_round_aux] *)

Module Shifts.

Lemma iter_pos_nat {A} (f : A -> A) (p : positive) : forall x,
  iter_pos f p x = Nat.iter (Pos.to_nat p) f x.
Proof.
  induction p as [p IH|p IH|]; intros x; cbn [iter_pos].
  - rewrite !IH, Pos2Nat.inj_xI.
    replace (S (2 * Pos.to_nat p)) with (Pos.to_nat p + (Pos.to_nat p + 1))%nat by lia.
    rewrite !Nat.iter_add. reflexivity.
  - rewrite !IH, Pos2Nat.inj_xO.
    replace (2 * Pos.to_nat p)%nat with (Pos.to_nat p + Pos.to_nat p)%nat by lia.
    rewrite Nat.iter_add. reflexivity.
  - reflexivity.
Qed.

(** One shift halves the mantissa, moves its last bit to the round bit, and
    gathers the old round and sticky bits. *)
Lemma shr_1_spec (m : Z) (r s : bool) :
  0 <= m ->
  shr_1 {| shr_m := m; shr_r := r; shr_s := s |} =
  {| shr_m := m / 2; shr_r := Z.odd m; shr_s := r || s |}.
Proof.
  intros H. rewrite <- Z.div2_div.
  destruct m as [|[p|p|]|p]; try reflexivity. lia.
Qed.

Lemma low_bits_step (m P : Z) :
  0 <= m -> 0 < P ->
  negb (m mod (P * 2) =? 0) = Z.odd (m / P) || negb (m mod P =? 0).
Proof.
  intros Hm HP. rewrite Z.rem_mul_r by lia.
  pose proof (Z.mod_pos_bound m P HP) as B.
  rewrite Zodd_mod.
  pose proof (Z.mod_pos_bound (m / P) 2 ltac:(lia)) as B2.
  destruct (Z.eqb_spec (m / P mod 2) 1) as [E|E];
    destruct (Z.eqb_spec (m mod P) 0) as [E0|E0];
    destruct (Z.eqb_spec (m mod P + P * (m / P mod 2)) 0) as [E1|E1];
    cbn; try reflexivity; exfalso; nia.
Qed.

(** [k + 1] shifts of an exact mantissa: the quotient by [2^(k+1)], the bit
    [k] and whether a lower bit is set. *)
Lemma iter_shr_1_spec (m : Z) (k : nat) :
  0 <= m ->
  Nat.iter (S k) shr_1 {| shr_m := m; shr_r := false; shr_s := false |} =
  {| shr_m := m / 2 ^ Z.of_nat (S k);
     shr_r := Z.odd (m / 2 ^ Z.of_nat k);
     shr_s := negb (m mod 2 ^ Z.of_nat k =? 0) |}.
Proof.
  intros Hm. induction k as [|k IH].
  - cbn [Nat.iter]. rewrite shr_1_spec by exact Hm.
    change (2 ^ Z.of_nat 1) with 2. change (2 ^ Z.of_nat 0) with 1.
    rewrite Z.div_1_r, Z.mod_1_r. reflexivity.
  - change (Nat.iter (S (S k)) shr_1 ?x) with (shr_1 (Nat.iter (S k) shr_1 x)).
    rewrite IH.
    assert (P : 0 < 2 ^ Z.of_nat k) by (apply Z.pow_pos_nonneg; lia).
    assert (P1 : 0 < 2 ^ Z.of_nat (S k)) by (apply Z.pow_pos_nonneg; lia).
    rewrite shr_1_spec by (apply Z.div_pos; lia).
    f_equal.
    + rewrite Z.div_div by lia.
      rewrite (Nat2Z.inj_succ (S k)), Z.pow_succ_r by lia. f_equal. lia.
    + rewrite (Nat2Z.inj_succ k), Z.pow_succ_r by lia.
      rewrite (Z.mul_comm 2). symmetry. apply low_bits_step; lia.
Qed.

(** [shr] by [n > 0] on an exact mantissa. *)
Lemma shr_spec (m e n : Z) :
  0 <= m -> 0 < n ->
  shr {| shr_m := m; shr_r := false; shr_s := false |} e n =
  ({| shr_m := m / 2 ^ n;
      shr_r := Z.odd (m / 2 ^ (n - 1));
      shr_s := negb (m mod 2 ^ (n - 1) =? 0) |}, e + n).
Proof.
  intros Hm Hn. destruct n as [|p|p]; try lia. cbn [shr].
  rewrite iter_pos_nat.
  destruct (Pos.to_nat p) as [|k] eqn:E; [pose proof (Pos2Nat.is_pos p); lia|].
  rewrite iter_shr_1_spec by exact Hm.
  assert (Z.of_nat (S k) = Z.pos p) by (rewrite <- E; apply positive_nat_Z).
  replace (Z.of_nat k) with (Z.pos p - 1) by lia.
  rewrite H. reflexivity.
Qed.

(** The number of bits of a mantissa between two powers of two. *)
Lemma digits_between (p : positive) (k : Z) :
  2 ^ (k - 1) <= Z.pos p < 2 ^ k -> 0 < k -> Z.pos (digits2_pos p) = k.
Proof.
  intros [L U] Hk.
  pose proof (FloatFacts.digits_upper p) as DU.
  pose proof (FloatFacts.digits_lower p) as DL.
  set (d := Z.pos (digits2_pos p)) in *.
  assert (Hd : 0 < d) by (unfold d; lia).
  destruct (Z_lt_le_dec d k) as [Lt|Ge].
  - exfalso. assert (2 ^ d <= 2 ^ (k - 1)) by (apply Z.pow_le_mono_r; lia). lia.
  - destruct (Z_lt_le_dec k d) as [Lt|Le]; [|lia].
    exfalso. assert (2 ^ (k + 1) <= 2 ^ d) by (apply Z.pow_le_mono_r; lia).
    rewrite Z.pow_add_r in * by lia. lia.
Qed.

End Shifts.

(* ================================================================= *)
(** * Scaling a draw by the total weight 1 - 2^-53 *)

Module Scaling.

Import Shifts.

(** The mantissa of [0.9999999999999999 = 1 - 2^-53], the float sum
    [0.6 + 0.3 + 0.1]. *)
Definition T : positive := 9007199254740991.

Definition total_sf : spec_float := S754_finite false T (-53).

(** What [shr_fexp] leaves of an exact mantissa: at most 53 bits. *)
Lemma shr_fexp_tight (m e : Z) :
  0 <= m ->
  let (mrs, e') := shr_fexp prec emax m e loc_Exact in
  0 <= shr_m mrs < 2 ^ 53 /\
  (e' = e \/ (e < e' /\ e' = fexp prec emax (Zdigits2 m + e))) /\
  shr_m mrs = m / 2 ^ (e' - e).
Proof.
  intros Hm. unfold shr_fexp. cbn [shr_record_of_loc].
  set (d := Zdigits2 m).
  assert (Hd : 0 <= d /\ m < 2 ^ d).
  { unfold d. destruct m as [|p|p]; cbn [Zdigits2]; [split; [lia | reflexivity]| |lia].
    split; [lia | apply FloatFacts.digits_upper]. }
  destruct Hd as [Hd Hmd].
  assert (F : d + e - 53 <= fexp prec emax (d + e))
    by (unfold fexp, SpecFloat.emin, prec, emax; lia).
  destruct (Z_lt_le_dec 0 (fexp prec emax (d + e) - e)) as [Pos|NonPos].
  - rewrite shr_spec by assumption. cbn [shr_m].
    set (n := fexp prec emax (d + e) - e) in *.
    assert (P : 0 < 2 ^ n) by (apply Z.pow_pos_nonneg; lia).
    split; [|split].
    + split; [apply Z.div_pos; lia|].
      apply Z.div_lt_upper_bound; [exact P|].
      assert (2 ^ d <= 2 ^ (n + 53)) by (apply Z.pow_le_mono_r; lia).
      rewrite Z.pow_add_r in * by lia. lia.
    + right. split; lia.
    + f_equal. f_equal. lia.
  - assert (E : shr {| shr_m := m; shr_r := false; shr_s := false |} e
                 (fexp prec emax (d + e) - e) =
               ({| shr_m := m; shr_r := false; shr_s := false |}, e)).
    { unfold shr. destruct (fexp prec emax (d + e) - e); try reflexivity. lia. }
    rewrite E. cbn [shr_m]. split; [|split].
    + split; [exact Hm|].
      assert (2 ^ d <= 2 ^ 53) by (apply Z.pow_le_mono_r; lia). lia.
    + left. reflexivity.
    + rewrite Z.sub_diag. change (2 ^ 0) with 1. rewrite Z.div_1_r. reflexivity.
Qed.

(** A product below one half rounds to a float below every [C * 2^-53] of
    the upper binade: a small exponent, or the mantissa [2^52] at most. *)
Lemma round_below_half (M E : Z) :
  0 < M < 2 ^ 106 -> E <= -107 ->
  match binary_round_aux prec emax false M E loc_Exact with
  | S754_zero _ => True
  | S754_finite s m e => s = false /\ (e <= -54 \/ (e = -53 /\ Z.pos m <= 2 ^ 52))
  | _ => False
  end.
Proof.
  intros HM HE. unfold binary_round_aux.
  pose proof (shr_fexp_tight M E ltac:(lia)) as S1.
  pose proof (FloatFacts.Zdigits2_le M 106 ltac:(lia) ltac:(lia)) as D1.
  destruct (shr_fexp prec emax M E loc_Exact) as [mrs' e'].
  destruct S1 as (B1 & E1 & _).
  assert (He' : e' <= -54).
  { destruct E1 as [->|[_ ->]]; [lia|]. unfold fexp, SpecFloat.emin, prec, emax. lia. }
  pose proof (FloatFacts.round_nearest_even_bounds (shr_m mrs') (loc_of_shr_record mrs')) as R.
  set (mr := round_nearest_even (shr_m mrs') (loc_of_shr_record mrs')) in *.
  pose proof (shr_fexp_tight mr e' ltac:(lia)) as S2.
  assert (D2 : Zdigits2 mr <= 54).
  { apply FloatFacts.Zdigits2_le; [lia|]. change (2 ^ 54) with (2 * 2 ^ 53). lia. }
  destruct (shr_fexp prec emax mr e' loc_Exact) as [mrs'' e''].
  destruct S2 as (B2 & E2 & Q2).
  destruct (shr_m mrs'') as [|m|m] eqn:Em; [exact I| |lia].
  assert (He'' : e'' <= -53).
  { destruct E2 as [->|[_ ->]]; [lia|]. unfold fexp, SpecFloat.emin, prec, emax. lia. }
  unfold emax, prec. change (1024 - 53) with 971.
  destruct (Z.leb_spec e'' 971); [|lia].
  split; [reflexivity|].
  destruct (Z_le_gt_dec e'' (-54)) as [|G]; [left; assumption|right].
  assert (e'' = -53) by lia. split; [assumption|].
  assert (e' = -54).
  { destruct E2 as [->|[_ E2]]; [lia|].
    unfold fexp, SpecFloat.emin, prec, emax in E2. lia. }
  subst e'' e'. change (2 ^ (-53 - -54)) with 2 in Q2.
  change (2 ^ 52) with 4503599627370496. change (2 ^ 53) with 9007199254740992 in *.
  Z.div_mod_to_equations. lia.
Qed.

(** In the upper binade a product with the total is the float just below. *)
Lemma mul_total_upper_binade (m : positive) :
  2 ^ 52 < Z.pos m < 2 ^ 53 ->
  exists q, Z.pos q = Z.pos m - 1 /\
            SF64mul (S754_finite false m (-53)) total_sf = S754_finite false q (-53).
Proof.
  intros Hm. change (2 ^ 52) with 4503599627370496 in Hm.
  change (2 ^ 53) with 9007199254740992 in Hm.
  unfold SF64mul, SFmul, total_sf. cbn [xorb].
  unfold binary_round_aux, shr_fexp. cbn [shr_record_of_loc Zdigits2].
  assert (HM : Z.pos (m * T) = Z.pos m * 9007199254740991) by (unfold T; rewrite Pos2Z.inj_mul; reflexivity).
  assert (D : Z.pos (digits2_pos (m * T)) = 106).
  { apply digits_between; [|lia]. rewrite HM.
    change (2 ^ (106 - 1)) with 40564819207303340847894502572032.
    change (2 ^ 106) with 81129638414606681695789005144064. lia. }
  rewrite D.
  change (fexp prec emax (106 + (-53 + -53)) - (-53 + -53)) with 53.
  rewrite shr_spec by lia.
  change (53 - 1) with 52.
  assert (Q : Z.pos (m * T) / 2 ^ 53 = Z.pos m - 1).
  { rewrite HM. change (2 ^ 53) with 9007199254740992.
    symmetry. apply (Z.div_unique _ _ _ (9007199254740992 - Z.pos m)); lia. }
  assert (Q' : Z.pos (m * T) / 2 ^ 52 = 2 * (Z.pos m - 1)).
  { rewrite HM. change (2 ^ 52) with 4503599627370496.
    symmetry. apply (Z.div_unique _ _ _ (9007199254740992 - Z.pos m)); lia. }
  assert (R : Z.pos (m * T) mod 2 ^ 52 = 9007199254740992 - Z.pos m).
  { rewrite HM. change (2 ^ 52) with 4503599627370496.
    symmetry. apply (Z.mod_unique _ _ (2 * (Z.pos m - 1))); lia. }
  rewrite Q, Q', R.
  rewrite Z.odd_mul. cbn [Z.odd andb].
  destruct (Z.eqb_spec (9007199254740992 - Z.pos m) 0) as [|_]; [lia|].
  cbn [negb shr_m loc_of_shr_record round_nearest_even].
  destruct (Z.pos m - 1) as [|q|q] eqn:Eq; try lia.
  exists q. split; [reflexivity|].
  cbn [Zdigits2].
  assert (D' : Z.pos (digits2_pos q) = 53).
  { apply digits_between; [|lia].
    change (2 ^ (53 - 1)) with 4503599627370496. change (2 ^ 53) with 9007199254740992. lia. }
  rewrite D'. reflexivity.
Qed.

Lemma compare_cont_eq (a b : positive) : Pos.compare_cont Eq a b = (Z.pos a ?= Z.pos b).
Proof. reflexivity. Qed.

(** For a draw of [[0, 1)], scaling by the total turns [<=] into [<]: the
    scaled draw is below a float of the upper binade exactly when the draw
    is at most that float. *)
Lemma scaled_lt_iff_le (r : spec_float) (C : positive) :
  valid_binary r = true ->
  SFleb (S754_zero false) r = true ->
  SFltb r (S754_finite false 4503599627370496 (-52)) = true ->
  2 ^ 52 < Z.pos C < 2 ^ 53 ->
  SFltb (SF64mul r total_sf) (S754_finite false C (-53)) = SFleb r (S754_finite false C (-53)).
Proof.
  intros V H0 H1 HC.
  destruct r as [s|s| |s m e]; try discriminate.
  - destruct s; reflexivity.
  - destruct s; discriminate.
  - destruct s; [discriminate|].
    pose proof (FloatFacts.valid_mantissa _ _ _ V) as [Vm Ve].
    cbn [SpecFloat.valid_binary] in V. unfold bounded, canonical_mantissa in V.
    apply andb_prop in V. destruct V as [Vc _]. apply Z.eqb_eq in Vc.
    unfold fexp, SpecFloat.emin, prec, emax in Vc.
    pose proof (FloatFacts.digits_lower m) as DL.
    assert (He : e <= -53).
    { unfold SFltb, SFcompare in H1.
      destruct (Z.compare_spec e (-52)) as [E|E|E]; try discriminate; [|lia].
      exfalso. subst e. rewrite compare_cont_eq in H1.
      destruct (Z.compare_spec (Z.pos m) (Z.pos 4503599627370496)) as [|L|]; try discriminate.
      assert (Z.pos (digits2_pos m) = 53) by lia.
      replace (Z.pos (digits2_pos m)) with 53 in DL by lia.
      change (2 ^ 53) with 9007199254740992 in DL. lia. }
    change (2 ^ 52) with 4503599627370496 in HC.
    change (2 ^ 53) with 9007199254740992 in HC, Vm.
    destruct (Z.eq_dec e (-53)) as [->|Ne].
    + assert (Dm : Z.pos (digits2_pos m) = 53) by lia.
      rewrite Dm in DL. change (2 ^ 53) with 9007199254740992 in DL.
      destruct (Z.eq_dec (Z.pos m) 4503599627370496) as [Em|Nm].
      * injection Em as ->.
        change (SF64mul (S754_finite false 4503599627370496 (-53)) total_sf)
          with (S754_finite false T (-54)).
        unfold SFleb, SFltb, SFcompare.
        change (-54 ?= -53) with Lt. cbv iota.
        rewrite Z.compare_refl, compare_cont_eq.
        destruct (Z.compare_spec (Z.pos 4503599627370496) (Z.pos C)); try reflexivity; lia.
      * destruct (mul_total_upper_binade m) as (q & Hq & ->).
        { change (2 ^ 52) with 4503599627370496. change (2 ^ 53) with 9007199254740992. lia. }
        unfold SFleb, SFltb, SFcompare. rewrite Z.compare_refl, !compare_cont_eq.
        destruct (Z.compare_spec (Z.pos q) (Z.pos C)), (Z.compare_spec (Z.pos m) (Z.pos C));
          try reflexivity; lia.
    + assert (Le : SFleb (S754_finite false m e) (S754_finite false C (-53)) = true).
      { unfold SFleb, SFcompare. destruct (Z.compare_spec e (-53)); try reflexivity; lia. }
      rewrite Le. unfold SF64mul, SFmul, total_sf. cbn [xorb].
      assert (HM : 0 < Z.pos (m * T) < 2 ^ 106).
      { unfold T. rewrite Pos2Z.inj_mul.
        change (2 ^ 106) with 81129638414606681695789005144064. nia. }
      pose proof (round_below_half (Z.pos (m * T)) (e + -53) HM ltac:(lia)) as B.
      destruct (binary_round_aux prec emax false (Z.pos (m * T)) (e + -53) loc_Exact)
        as [s1|s1| |s1 m1 e1]; try contradiction.
      * destruct s1; reflexivity.
      * destruct B as (-> & B). unfold SFltb, SFcompare.
        destruct B as [B|[-> B]].
        -- destruct (Z.compare_spec e1 (-53)); try reflexivity; lia.
        -- rewrite Z.compare_refl, compare_cont_eq.
           change (2 ^ 52) with 4503599627370496 in B.
           destruct (Z.compare_spec (Z.pos m1) (Z.pos C)); try reflexivity; lia.
Qed.

(** [<=] against two floats of the upper binade is monotone. *)
Lemma leb_upper_binade_mono (r : spec_float) (C1 C2 : positive) :
  Z.pos C1 <= Z.pos C2 ->
  SFleb r (S754_finite false C1 (-53)) = true ->
  SFleb r (S754_finite false C2 (-53)) = true.
Proof.
  intros HC. unfold SFleb, SFcompare.
  destruct r as [s|s| |s m e].
  - intros _. reflexivity.
  - destruct s; intros H; [reflexivity | discriminate H].
  - intros H. discriminate H.
  - destruct s; [intros _; reflexivity|].
    destruct (Z.compare_spec e (-53)); try (intros X; exact X).
    rewrite !compare_cont_eq.
    destruct (Z.compare_spec (Z.pos m) (Z.pos C1)), (Z.compare_spec (Z.pos m) (Z.pos C2));
      try reflexivity; try discriminate; lia.
Qed.

End Scaling.

(* ================================================================= *)
(** * Action selection (C8) *)

(** The action table [weighted_choice] would be given: the labels of
    [ACTIONS] with the weights [0.6], [0.3] and [0.1]. *)
Definition ACTION_TABLE : list (str * float) := combine ACTIONS ACTION_WEIGHTS.

(** The total weight [random.choices] computes: [0.6 + 0.3 + 0.1 + 0.0] in
    binary64, the float below 1. *)
Definition ACTION_TOTAL : float := 0x1.fffffffffffffp-1%float.

Lemma scaled_draw (r c : float) (C : positive) :
  Prim2SF c = S754_finite false C (-53) -> 2 ^ 52 < Z.pos C < 2 ^ 53 ->
  (0 <=? r)%float = true -> (r <? 1)%float = true ->
  (r * ACTION_TOTAL <? c)%float = (r <=? c)%float.
Proof.
  intros Hc HC. rewrite !leb_spec, !ltb_spec, mul_spec, Hc.
  change (Prim2SF 0%float) with (S754_zero false).
  change (Prim2SF 1%float) with (S754_finite false 4503599627370496 (-52)).
  change (Prim2SF ACTION_TOTAL) with Scaling.total_sf.
  intros H0 H1. apply Scaling.scaled_lt_iff_le; try assumption. apply Prim2SF_valid.
Qed.

Lemma draw_le_mono (r : float) :
  (r <=? 0.6)%float = true -> (r <=? 0.6 + 0.3)%float = true.
Proof.
  rewrite !leb_spec.
  change (Prim2SF 0.6%float) with (S754_finite false 5404319552844595 (-53)).
  change (Prim2SF (0.6 + 0.3)%float) with (S754_finite false 8106479329266892 (-53)).
  apply Scaling.leb_upper_binade_mono. lia.
Qed.

Section ActionSelection.
Context `{RS : RandomSource}.

(** C8.  From every state of the random stream, the action [make_log_line]
    draws with [random.choices(ACTIONS, weights=[0.6, 0.3, 0.1])[0]] is the
    label [weighted_choice] returns on the action table from that state, and
    both leave the stream in the same state.  The code does not call
    [weighted_choice] here: [random.choices] bisects the cumulative weights
    at [random() * total] with a strict comparison, and in binary64 the
    total [1 - 2^-53] makes that the same test as [upto + w >= r]. *)
Theorem action_choice_is_weighted_choice (w : world) :
  choices1 ACTIONS ACTION_WEIGHTS w = weighted_choice ACTION_TABLE w /\
  forall (fuel : nat) (ts : Z) (host : str) (pid : Z),
    make_log_line fuel ts host pid =
    make_log_line_with (weighted_choice ACTION_TABLE) fuel ts host pid.
Proof.
  assert (E : forall w0 : world,
             choices1 ACTIONS ACTION_WEIGHTS w0 = weighted_choice ACTION_TABLE w0).
  { clear w. intros w.
    pose proof (random_unit (w_rng w)) as [U0 U1].
    unfold choices1.
    change (negb (List.length (accumulate ACTION_WEIGHTS) =? List.length ACTIONS)%nat)
      with false.
    cbv iota.
    change ((last (accumulate ACTION_WEIGHTS) nan + 0.0)%float) with ACTION_TOTAL.
    change ((ACTION_TOTAL <=? 0.0)%float) with false.
    change (negb (ACTION_TOTAL <? infinity)%float) with false.
    cbv iota.
    unfold weighted_choice.
    rewrite !(bind_of_ok _ _ _ _ _ (py_random_run w)).
    change (List.length ACTIONS - 1)%nat with 2%nat. rewrite bisect_actions.
    set (r := fst (random (w_rng w))) in *.
    rewrite (scaled_draw r (0.6 + 0.3)%float 8106479329266892 eq_refl
               ltac:(split; reflexivity) U0 U1).
    rewrite (scaled_draw r 0.6%float 5404319552844595 eq_refl
               ltac:(split; reflexivity) U0 U1).
    unfold weighted_choice_at, ACTION_TABLE.
    cbn [combine ACTIONS ACTION_WEIGHTS weighted_walk].
    change (0 + 0.6)%float with 0.6%float.
    pose proof (draw_le_mono r) as Mono.
    destruct (r <=? 0.6)%float.
    - rewrite Mono by reflexivity. reflexivity.
    - destruct (r <=? 0.6 + 0.3)%float; [reflexivity|].
      destruct (r <=? 0.6 + 0.3 + 0.1)%float; reflexivity. }
  split; [apply E|].
  intros fuel ts host pid. unfold make_log_line. f_equal.
  apply functional_extensionality. exact E.
Qed.

End ActionSelection.

Example action_choice_samples :
  map (fun r => weighted_choice_at ACTION_TABLE r)
      [0.0%float; 0.6%float; 0x1.3333333333334p-1%float; 0x1.cccccccccccccp-1%float;
       0x1.ccccccccccccdp-1%float; 0x1.fffffffffffffp-1%float]
  = [Ok (lit "ACCEPT"); Ok (lit "ACCEPT"); Ok (lit "DROP"); Ok (lit "DROP");
     Ok (lit "REJECT"); Ok (lit "REJECT")] /\
  map (fun r => nth_error ACTIONS (bisect (accumulate ACTION_WEIGHTS) (r * ACTION_TOTAL)%float 0 2))
      [0.0%float; 0.6%float; 0x1.3333333333334p-1%float; 0x1.cccccccccccccp-1%float;
       0x1.ccccccccccccdp-1%float; 0x1.fffffffffffffp-1%float]
  = [Some (lit "ACCEPT"); Some (lit "ACCEPT"); Some (lit "DROP"); Some (lit "DROP");
     Some (lit "REJECT"); Some (lit "REJECT")].
Proof. split; vm_compute; reflexivity. Qed.

(* ================================================================= *)
(** * Two runs that differ only in the entropy pool (C1, for every source) *)

(** The correlation id read from a block of the pool. *)
Definition uid_of (block : N) : str := firstn 8 (PyLib.uuid_hex (PyLib.uuid4_int block)).

Section TwoRuns.
Context `{RS : RandomSource}.

(** Two worlds of two runs: the same state of [random], the same number of
    reads of the pool, and the pools [uA] and [uB]. *)
Definition paired (uA uB : nat -> N) (n : nat) (w1 w2 : world) : Prop :=
  w_rng w1 = w_rng w2 /\ w_reads w1 = n /\ w_reads w2 = n /\
  w_urandom w1 = uA /\ w_urandom w2 = uB.

(** Two outcomes related by [R] when both are results. *)
Definition rel {A} (R : A * world -> A * world -> Prop) (o1 o2 : outcome (A * world)) : Prop :=
  match o1, o2 with
  | Ok p1, Ok p2 => R p1 p2
  | _, _ => True
  end.

(** A computation that does not look at the pool: from paired worlds, the
    same value and paired worlds. *)
Definition blind {A} (m : M A) : Prop :=
  forall uA uB n w1 w2, paired uA uB n w1 w2 ->
    rel (fun p1 p2 => fst p1 = fst p2 /\ paired uA uB n (snd p1) (snd p2)) (m w1) (m w2).

Lemma rel_bind {A B} (R : A * world -> A * world -> Prop) (S : B * world -> B * world -> Prop)
    (m1 m2 : M A) (k1 k2 : A -> M B) (w1 w2 : world) :
  rel R (m1 w1) (m2 w2) ->
  (forall p1 p2, R p1 p2 -> rel S (k1 (fst p1) (snd p1)) (k2 (fst p2) (snd p2))) ->
  rel S (bind m1 k1 w1) (bind m2 k2 w2).
Proof.
  unfold bind, rel. destruct (m1 w1) as [[a1 w1']| |], (m2 w2) as [[a2 w2']| |];
    intros H K; try exact I.
  - apply (K _ _ H).
  - destruct (k1 a1 w1'); exact I.
  - destruct (k1 a1 w1'); exact I.
Qed.

Lemma blind_ret {A} (a : A) : blind (ret a).
Proof. intros uA uB n w1 w2 P. split; [reflexivity | exact P]. Qed.

Lemma blind_raise {A} (e : exn) : blind (raise (A := A) e).
Proof. intros uA uB n w1 w2 P. exact I. Qed.

Lemma blind_stop {A} : blind (fun _ : world => OutOfFuel (A := A * world)).
Proof. intros uA uB n w1 w2 P. exact I. Qed.

Lemma blind_with_rng {A} (f : rng -> A * rng) : blind (with_rng f).
Proof.
  intros uA uB n w1 w2 (Hr & H1 & H2 & HA & HB). unfold with_rng. rewrite Hr.
  destruct (f (w_rng w2)) as [a g]. cbn. repeat split; assumption.
Qed.

Lemma blind_bind {A B} (m : M A) (k : A -> M B) :
  blind m -> (forall a, blind (k a)) -> blind (bind m k).
Proof.
  intros Hm Hk uA uB n w1 w2 P. eapply rel_bind; [apply Hm; exact P|].
  intros [a1 w1'] [a2 w2'] [E P']. cbn [fst snd] in *. subst a2. apply Hk. exact P'.
Qed.

Create HintDb blind.
#[local] Hint Resolve blind_ret blind_raise blind_stop blind_with_rng : blind.

Ltac blindly :=
  repeat first
    [ apply blind_bind; [|intros ?]
    | match goal with
      | |- blind (if ?c then _ else _) => destruct c
      | |- blind (match ?c with _ => _ end) => destruct c
      end
    | solve [auto with blind] ].

Lemma blind_py_random : blind py_random.
Proof. apply blind_with_rng. Qed.

Lemma blind_randint (a b : Z) : blind (randint a b).
Proof. unfold randint. blindly. Qed.

Lemma blind_choice {A} (seq : list A) : blind (choice seq).
Proof. unfold choice. destruct seq; blindly. Qed.

Lemma blind_py_expovariate (lambd : float) : blind (py_expovariate lambd).
Proof. apply blind_with_rng. Qed.

#[local] Hint Resolve blind_py_random blind_randint blind_choice blind_py_expovariate : blind.

Lemma blind_weighted_choice (choices : list (str * float)) : blind (weighted_choice choices).
Proof. unfold weighted_choice. blindly. Qed.

Lemma blind_choices1 {A} (population : list A) (weights : list float) :
  blind (choices1 population weights).
Proof. unfold choices1. blindly. Qed.

Lemma blind_public_ipv4 (fuel : nat) : blind (public_ipv4 fuel).
Proof. induction fuel as [|f IH]; cbn [public_ipv4]; blindly. Qed.

Lemma blind_private_ipv4 : blind private_ipv4.
Proof. unfold private_ipv4. blindly. Qed.

#[local] Hint Resolve blind_public_ipv4 blind_private_ipv4 : blind.

Lemma blind_random_ipv4 (fuel : nat) (private_bias : float) :
  blind (random_ipv4 fuel private_bias).
Proof. unfold random_ipv4. blindly. Qed.

Lemma blind_packets_of (bytes_cnt d : Z) : blind (packets_of bytes_cnt d).
Proof. unfold packets_of. blindly. Qed.

#[local] Hint Resolve blind_weighted_choice blind_choices1 blind_random_ipv4
  blind_packets_of : blind.

End TwoRuns.

(** ** The correlation id: eight characters, none of them blank or stripped *)

Lemma hex_char_not_space (n : N) : PyStr.is_space (PyStr.hex_char (N.land n 15)) = false.
Proof.
  assert (H : (N.land n 15 < 16)%N).
  { change 15%N with (N.ones 4). rewrite N.land_ones. apply N.mod_lt. discriminate. }
  destruct (N.land n 15) as [|p]; [reflexivity|].
  do 4 (destruct p as [p|p|]; try reflexivity); exfalso; destruct p; discriminate H || lia.
Qed.

Lemma hex_fixed_not_space (width : nat) :
  forall n, forallb (fun c => negb (PyStr.is_space c)) (PyStr.hex_fixed width n) = true.
Proof.
  induction width as [|k IH]; intros n; cbn [PyStr.hex_fixed]; [reflexivity|].
  rewrite forallb_app, IH. cbn [forallb]. rewrite hex_char_not_space. reflexivity.
Qed.

Lemma hex_fixed_length (width : nat) : forall n, List.length (PyStr.hex_fixed width n) = width.
Proof.
  induction width as [|k IH]; intros n; cbn [PyStr.hex_fixed]; [reflexivity|].
  rewrite length_app, IH. cbn. lia.
Qed.

Lemma uid_of_length (block : N) : List.length (uid_of block) = 8%nat.
Proof.
  unfold uid_of, PyLib.uuid_hex. rewrite length_firstn, hex_fixed_length. reflexivity.
Qed.

Lemma uid_of_control_free (block : N) : control_free (uid_of block) = true.
Proof.
  apply plain_control_free. unfold uid_of, PyLib.uuid_hex.
  apply forallb_firstn, hex_fixed_plain.
Qed.

Lemma rstrip_not_space_end (a : str) (c : ascii) :
  PyStr.is_space c = false -> PyStr.rstrip (a ++ [c]) = a ++ [c].
Proof.
  intros H. unfold PyStr.rstrip. rewrite rev_app_distr. cbn [rev app PyStr.lstrip].
  rewrite H. cbn [rev]. rewrite rev_involutive. reflexivity.
Qed.

Lemma rstrip_uid (P : str) (block : N) :
  PyStr.rstrip (P ++ uid_of block) = P ++ uid_of block.
Proof.
  pose proof (uid_of_length block) as L.
  assert (N : uid_of block <> []) by (intros E; rewrite E in L; discriminate L).
  rewrite (app_removelast_last " "%char N), app_assoc.
  apply rstrip_not_space_end.
  assert (F : forallb (fun c => negb (PyStr.is_space c)) (uid_of block) = true).
  { unfold uid_of, PyLib.uuid_hex. apply forallb_firstn, hex_fixed_not_space. }
  rewrite forallb_forall in F. apply negb_true_iff, F.
  destruct (exists_last N) as (u & c & E). rewrite E, last_last. apply in_or_app.
  right. left. reflexivity.
Qed.

Lemma message_of_uid (sev : str) (rule : Z) (reason s_ip d_ip proto : str)
    (s_pt d_pt : Z) (action : str) (bytes_cnt pkts : Z) (in_if out_if uid : str) :
  message_of sev rule reason s_ip d_ip proto s_pt d_pt action bytes_cnt pkts in_if out_if uid =
  message_of sev rule reason s_ip d_ip proto s_pt d_pt action bytes_cnt pkts in_if out_if [] ++ uid.
Proof. unfold message_of. rewrite app_nil_r. repeat rewrite <- app_assoc. reflexivity. Qed.

Lemma sanitize_uid (X : str) (block : N) :
  sanitize (X ++ uid_of block) = sanitize X ++ uid_of block.
Proof.
  unfold sanitize. rewrite filter_app. f_equal.
  apply sanitize_control_free, uid_of_control_free.
Qed.

Lemma app_nested {A} (a b c d e f g h : list A) :
  a ++ b ++ c ++ d ++ e ++ f ++ g ++ h = (a ++ b ++ c ++ d ++ e ++ f ++ g) ++ h.
Proof. repeat rewrite <- app_assoc. reflexivity. Qed.

Lemma app_same_length {A} (a b x y : list A) :
  a ++ x = b ++ y -> List.length a = List.length b -> a = b.
Proof.
  revert b. induction a as [|c a IH]; intros [|d b] E L; try discriminate L; [reflexivity|].
  cbn [app] in E. injection E as E1 E2. subst d. f_equal. apply (IH b E2).
  cbn in L. lia.
Qed.

Lemma ok_inj {A} (a b : A) : Ok a = Ok b -> a = b.
Proof. intros H. injection H. trivial. Qed.

Section TwoRunsOfTheGenerator.
Context `{RS : RandomSource}.

Lemma rel_top {A} (o1 o2 : outcome (A * world)) : rel (fun _ _ => True) o1 o2.
Proof. destruct o1, o2; exact I. Qed.

(** [uuid.uuid4()] is where the two runs part: each reads its own pool. *)
Lemma uuid4_hex8_two_runs (uA uB : nat -> N) (n : nat) (w1 w2 : world) :
  paired uA uB n w1 w2 ->
  rel (fun p1 p2 => fst p1 = uid_of (uA n) /\ fst p2 = uid_of (uB n) /\
                    paired uA uB (S n) (snd p1) (snd p2))
      (uuid4_hex8 w1) (uuid4_hex8 w2).
Proof.
  intros (Hr & H1 & H2 & HA & HB).
  unfold uuid4_hex8, bind, os_urandom, ret, rel, paired, uid_of. cbn [fst snd w_rng w_reads w_urandom].
  rewrite H1, H2, HA, HB. repeat split; assumption.
Qed.

Ltac blind_step :=
  lazymatch goal with
  | |- rel _ (bind ?m _ _) (bind ?m _ _) =>
      let H := fresh "B" in
      assert (H : blind m) by
        (repeat first
           [ solve [auto using blind_ret, blind_raise, blind_randint, blind_choice,
                      blind_weighted_choice, blind_choices1, blind_random_ipv4,
                      blind_packets_of, blind_py_expovariate]
           | match goal with
             | |- blind (if ?c then _ else _) => destruct c
             end
           | apply blind_bind; [|intros ?] ]);
      eapply rel_bind; [apply H; eassumption|]; clear H;
      intros [? ?] [? ?] [? ?]; cbn [fst snd] in *; subst
  end.

(** The line of one record in the two runs: the same text up to the id. *)
Lemma make_log_line_two_runs (fuel : nat) (ts : Z) (host : str) (pid : Z)
    (uA uB : nat -> N) (n : nat) (w1 w2 : world) :
  paired uA uB n w1 w2 ->
  rel (fun p1 p2 => exists P, fst p1 = P ++ uid_of (uA n) /\ fst p2 = P ++ uid_of (uB n))
      (make_log_line fuel ts host pid w1) (make_log_line fuel ts host pid w2).
Proof.
  intros Pr. unfold make_log_line, make_log_line_with.
  do 12 blind_step.
  eapply rel_bind; [apply uuid4_hex8_two_runs; eassumption|].
  intros [u1 v1] [u2 v2] (E1 & E2 & Pr'). cbn [fst snd] in *. subst u1 u2.
  blind_step.
  cbv zeta. unfold ret, rel. cbn [fst].
  match goal with
  | |- context [message_of ?sev ?rule ?reason ?s ?d ?proto ?sp ?dp ?act ?b ?p ?i ?o (uid_of (uA n))] =>
      exists (format_syslog_ts ts +++ " " +++ host +++ " firewall[" +++ PyStr.str_of_Z pid +++
              "]: " +++ sanitize (message_of sev rule reason s d proto sp dp act b p i o []))
  end.
  split; rewrite message_of_uid, sanitize_uid; apply app_nested.
Qed.

(** The first record of the two runs. *)
Lemma emit_records_two_runs (fuel n' : nat) (ts : Z) (host : str) (pid : Z)
    (uA uB : nat -> N) (k : nat) (w1 w2 : world) :
  paired uA uB k w1 w2 ->
  rel (fun p1 p2 => exists t P r1 r2,
         fst p1 = (t, P ++ uid_of (uA k) ++ [LF]) :: r1 /\
         fst p2 = (t, P ++ uid_of (uB k) ++ [LF]) :: r2)
      (emit_records fuel (S n') ts host pid w1) (emit_records fuel (S n') ts host pid w2).
Proof.
  intros Pr. cbn [emit_records]. blind_step.
  destruct (timedelta_seconds _) as [delta| |]; try exact I.
  cbv zeta. eapply rel_bind; [apply make_log_line_two_runs; eassumption|].
  intros [l1 v1] [l2 v2] (P & E1 & E2). cbn [fst snd] in *. subst l1 l2.
  eapply rel_bind; [apply rel_top|]. intros [r1 x1] [r2 x2] _. cbn [fst snd].
  unfold ret, rel. cbn [fst]. exists (ts + delta), P, r1, r2.
  rewrite !rstrip_uid, <- !app_assoc. split; reflexivity.
Qed.

End TwoRunsOfTheGenerator.

(** Whatever the source of [random] is: two runs with the same seed, the
    same start time and at least one record, whose pools give different
    identifiers at the first read, write different files. *)
Theorem seed_does_not_fix_the_file `{RS : RandomSource}
    (fuel : nat) (count start_time seed : Z) (envA envB : os_env) (fileA fileB : str) :
  1 <= count ->
  uid_of (env_urandom envA 0%nat) <> uid_of (env_urandom envB 0%nat) ->
  generate_logs fuel count (Some start_time) (Some seed) envA = Ok fileA ->
  generate_logs fuel count (Some start_time) (Some seed) envB = Ok fileB ->
  fileA <> fileB.
Proof.
  intros Hc Hu HA HB.
  unfold generate_logs, generate_records in HA, HB. cbv zeta in HA, HB.
  destruct (Z.to_nat count) as [|n'] eqn:En; [lia|].
  assert (Pr : paired (env_urandom envA) (env_urandom envB) 0
                 (seeded_world (Some seed) envA) (seeded_world (Some seed) envB))
    by (repeat split).
  assert (R : rel (fun p1 p2 => exists t P r1 r2,
                     fst p1 = (t, P ++ uid_of (env_urandom envA 0%nat) ++ [LF]) :: r1 /\
                     fst p2 = (t, P ++ uid_of (env_urandom envB 0%nat) ++ [LF]) :: r2)
                ((pid <- randint 1000 9999 ;; emit_records fuel (S n') start_time HOST pid)
                   (seeded_world (Some seed) envA))
                ((pid <- randint 1000 9999 ;; emit_records fuel (S n') start_time HOST pid)
                   (seeded_world (Some seed) envB))).
  { eapply rel_bind; [apply blind_randint; exact Pr|].
    intros [p1 v1] [p2 v2] [E Pr']. cbn [fst snd] in *. subst p2.
    apply emit_records_two_runs. exact Pr'. }
  destruct ((pid <- randint 1000 9999 ;; emit_records fuel (S n') start_time HOST pid)
              (seeded_world (Some seed) envA)) as [[recsA vA]| |]; try discriminate HA.
  destruct ((pid <- randint 1000 9999 ;; emit_records fuel (S n') start_time HOST pid)
              (seeded_world (Some seed) envB)) as [[recsB vB]| |]; try discriminate HB.
  destruct R as (t & P & r1 & r2 & E1 & E2). cbn [fst] in E1, E2. subst recsA recsB.
  apply ok_inj in HA. apply ok_inj in HB. rewrite <- HA, <- HB.
  cbn [map snd List.concat]. rewrite <- 2 (app_assoc P). intros E.
  apply app_inv_head in E. rewrite <- 2 app_assoc in E.
  apply Hu. apply (app_same_length _ _ _ _ E).
  rewrite !uid_of_length. reflexivity.
Qed.

(* ================================================================= *)
(** * The summarizer: the counters of a pass *)

(** [sum(c.values())]. *)
Definition counter_total (c : Counter.t) : Z := fold_right Z.add 0 (map snd c).

(** The lines counted as errors: [level_counts["ERROR"] + level_counts["CRITICAL"]]. *)
Definition error_lines (a : aggregate) : Z :=
  Counter.get "ERROR" (level_counts a) + Counter.get "CRITICAL" (level_counts a).

Lemma counter_total_incr (k : str) (c : Counter.t) :
  counter_total (Counter.incr k c) = counter_total c + 1.
Proof.
  unfold counter_total. induction c as [|[k' v] rest IH]; cbn; [reflexivity|].
  destruct (PyStr.eqb k k'); cbn; lia.
Qed.

Lemma counter_keys_incr (k : str) (c : Counter.t) :
  map fst (Counter.incr k c) = map fst c \/
  (~ In k (map fst c) /\ map fst (Counter.incr k c) = map fst c ++ [k]).
Proof.
  induction c as [|[k' v] rest IH]; cbn.
  - right. split; [tauto | reflexivity].
  - destruct (PyStr.eqb k k') eqn:E; cbn; [left; reflexivity|].
    destruct IH as [IH|[N IH]]; [left; congruence|].
    right. split; [|congruence].
    intros [H|H]; [|exact (N H)]. subst k'. rewrite PyStr.eqb_refl in E. discriminate E.
Qed.

Lemma counter_nodup_incr (k : str) (c : Counter.t) :
  NoDup (map fst c) -> NoDup (map fst (Counter.incr k c)).
Proof.
  intros H. destruct (counter_keys_incr k c) as [E|[N E]]; rewrite E; [exact H|].
  apply NoDup_app; [exact H | repeat constructor; intros [] | ].
  intros x Hx [<-|[]]. exact (N Hx).
Qed.

Lemma counter_positive_incr (k : str) (c : Counter.t) :
  Forall (fun p => 1 <= snd p) c -> Forall (fun p => 1 <= snd p) (Counter.incr k c).
Proof.
  induction 1 as [|[k' v] rest Hp Hr IH]; cbn.
  - repeat constructor. cbn. lia.
  - destruct (PyStr.eqb k k'); constructor; cbn in *; try assumption; lia.
Qed.

(** What one line does to the counters, whatever the filters. *)
Lemma summarize_line_counts (keyword : option str)
    (start_date end_date : option PyLib.datetime_fields) (a a' : aggregate) (line : str) :
  summarize_line keyword start_date end_date a line = Ok a' ->
  total_lines a' = total_lines a + 1 /\
  level_counts a' = Counter.incr (snd (fst (parse_log_line line))) (level_counts a) /\
  (error_messages a' = error_messages a \/
   is_error_level (snd (fst (parse_log_line line))) = true /\
   exists k, error_messages a' = Counter.incr k (error_messages a)).
Proof.
  unfold summarize_line. destruct (parse_log_line line) as [[ts level] msg]. cbn [fst snd].
  assert (C : forall b,
    total_lines (count_signature keyword level msg b) = total_lines b /\
    level_counts (count_signature keyword level msg b) = level_counts b /\
    (error_messages (count_signature keyword level msg b) = error_messages b \/
     is_error_level level = true /\
     exists k, error_messages (count_signature keyword level msg b) =
               Counter.incr k (error_messages b))).
  { intros b. unfold count_signature. destruct (keyword_rejects keyword msg); [tauto|].
    destruct (is_error_level level); cbn; [|tauto].
    repeat split. right. split; [reflexivity|]. eexists. reflexivity. }
  destruct ts as [ts|].
  - destruct (Datetime.fromisoformat _) as [o|]; [|discriminate].
    destruct (match start_date with Some s => Datetime.ltb o s | None => false end);
      [intros [= <-]; cbn; tauto|].
    destruct (match end_date with Some e => Datetime.ltb e o | None => false end);
      [intros [= <-]; cbn; tauto|].
    intros [= <-]. destruct (C {| level_counts := Counter.incr level (level_counts a);
         error_messages := error_messages a; total_lines := total_lines a + 1;
         first_ts := match first_ts a with Some f => Some f | None => Some o end;
         last_ts := Some o |}) as (C1 & C2 & C3).
    rewrite C1, C2. cbn [total_lines level_counts error_messages] in *. tauto.
  - intros [= <-]. destruct (C {| level_counts := Counter.incr level (level_counts a);
         error_messages := error_messages a; total_lines := total_lines a + 1;
         first_ts := first_ts a; last_ts := last_ts a |}) as (C1 & C2 & C3).
    rewrite C1, C2. cbn [total_lines level_counts error_messages] in *. tauto.
Qed.

Lemma summarize_lines_counts (keyword : option str)
    (start_date end_date : option PyLib.datetime_fields) (lines : list str) :
  forall a a', summarize_lines keyword start_date end_date a lines = Ok a' ->
  total_lines a' = total_lines a + Z.of_nat (List.length lines) /\
  counter_total (level_counts a') =
    counter_total (level_counts a) + Z.of_nat (List.length lines) /\
  (NoDup (map fst (level_counts a)) -> NoDup (map fst (level_counts a'))) /\
  (Forall (fun p => 1 <= snd p) (level_counts a) ->
   Forall (fun p => 1 <= snd p) (level_counts a')).
Proof.
  induction lines as [|line rest IH]; intros a a' H; cbn [summarize_lines] in H.
  - injection H as <-. cbn. repeat split; auto; lia.
  - destruct (summarize_line keyword start_date end_date a line) as [a1| |] eqn:E;
      try discriminate.
    destruct (summarize_line_counts _ _ _ _ _ _ E) as (Ht & Hl & _).
    destruct (IH a1 a' H) as (It & Il & In & Ip).
    rewrite It, Il, Ht, Hl, counter_total_incr. cbn [List.length].
    repeat split; try lia.
    + intros N. apply In. rewrite Hl. apply counter_nodup_incr. exact N.
    + intros P. apply Ip. rewrite Hl. apply counter_positive_incr. exact P.
Qed.

(** X1.  When [summarize_log] completes, [total_lines] is the number of
    lines the file yields, the level counts add up to it, no level is listed
    twice and every listed level was seen at least once. *)
Theorem level_counts_add_up
    (file_path content : str) (keyword : option str)
    (start_date end_date : option PyLib.datetime_fields) (s : summary) :
  summarize_log file_path content keyword start_date end_date = Ok s ->
  total_lines (sum_aggregate s) = Z.of_nat (List.length (readlines content)) /\
  counter_total (level_counts (sum_aggregate s)) = total_lines (sum_aggregate s) /\
  NoDup (map fst (level_counts (sum_aggregate s))) /\
  Forall (fun p => 1 <= snd p) (level_counts (sum_aggregate s)).
Proof.
  unfold summarize_log. intros H.
  destruct (summarize_lines keyword start_date end_date empty_aggregate (readlines content))
    as [a| |] eqn:E; try discriminate.
  injection H as <-. cbn [sum_aggregate].
  destruct (summarize_lines_counts _ _ _ _ _ _ E) as (Ht & Hl & Hn & Hp).
  cbn in Ht, Hl. repeat split.
  - exact Ht.
  - lia.
  - apply Hn. constructor.
  - apply Hp. constructor.
Qed.

Lemma level_counts_add_up_witness :
  exists s,
    summarize_log "app.log" fixture (Some (lit "db")) None None = Ok s /\
    total_lines (sum_aggregate s) = 5 /\
    counter_total (level_counts (sum_aggregate s)) = 5.
Proof.
  destruct (summarize_log "app.log" fixture (Some (lit "db")) None None) as [s| |] eqn:E;
    try (vm_compute in E; discriminate E).
  exists s. split; [reflexivity|].
  destruct (level_counts_add_up _ _ _ _ _ _ E) as (Ht & Hl & _).
  rewrite Hl, Ht. split; vm_compute; reflexivity.
Defined.

Lemma error_lines_incr (level : str) (a a' : aggregate) :
  level_counts a' = Counter.incr level (level_counts a) ->
  error_lines a' = error_lines a + (if is_error_level level then 1 else 0).
Proof.
  intros E. unfold error_lines, is_error_level. rewrite E.
  destruct (PyStr.eqb level "ERROR") eqn:E1.
  - apply PyStr.eqb_eq in E1. subst level. cbn [orb].
    rewrite counter_get_incr_same, counter_get_incr_other by discriminate. lia.
  - destruct (PyStr.eqb level "CRITICAL") eqn:E2; cbn [orb].
    + apply PyStr.eqb_eq in E2. subst level.
      rewrite counter_get_incr_same, counter_get_incr_other by discriminate. lia.
    + rewrite !counter_get_incr_other; [lia| |];
        intros <-; rewrite PyStr.eqb_refl in *; discriminate.
Qed.

Lemma summarize_lines_error_total (keyword : option str)
    (start_date end_date : option PyLib.datetime_fields) (lines : list str) :
  forall a a', summarize_lines keyword start_date end_date a lines = Ok a' ->
  counter_total (error_messages a') - counter_total (error_messages a) <=
  error_lines a' - error_lines a.
Proof.
  induction lines as [|line rest IH]; intros a a' H; cbn [summarize_lines] in H.
  - injection H as <-. lia.
  - destruct (summarize_line keyword start_date end_date a line) as [a1| |] eqn:E;
      try discriminate.
    destruct (summarize_line_counts _ _ _ _ _ _ E) as (_ & Hl & He).
    specialize (IH a1 a' H). rewrite (error_lines_incr _ _ _ Hl) in IH.
    destruct He as [He|(Hv & k & He)]; rewrite He in IH.
    + destruct (is_error_level _); lia.
    + rewrite Hv, counter_total_incr in IH. lia.
Qed.

Lemma summarize_lines_unfiltered_error_total (lines : list str) :
  forall a a', summarize_lines None None None a lines = Ok a' ->
  counter_total (error_messages a') - counter_total (error_messages a) =
  error_lines a' - error_lines a.
Proof.
  induction lines as [|line rest IH]; intros a a' H; cbn [summarize_lines] in H.
  - injection H as <-. lia.
  - destruct (summarize_line None None None a line) as [a1| |] eqn:E; try discriminate.
    destruct (summarize_line_counts _ _ _ _ _ _ E) as (_ & Hl & _).
    specialize (IH a1 a' H). rewrite (error_lines_incr _ _ _ Hl) in IH.
    assert (He : error_messages a1 =
                 if is_error_level (snd (fst (parse_log_line line)))
                 then Counter.incr (short_msg (snd (parse_log_line line))) (error_messages a)
                 else error_messages a).
    { clear - E. unfold summarize_line in E.
      destruct (parse_log_line line) as [[ts level] msg]. cbn [fst snd].
      unfold count_signature, keyword_rejects in E.
      destruct ts as [ts|]; [destruct (Datetime.fromisoformat _); [|discriminate]|];
        injection E as <-; destruct (is_error_level level); reflexivity. }
    rewrite He in IH. destruct (is_error_level _); [rewrite counter_total_incr in IH|]; lia.
Qed.

(** X2.  When [summarize_log] completes, the counts of the error signatures
    add up to at most the number of lines counted under ERROR and CRITICAL:
    a filter can only keep an error line out of the signatures.  Without
    filters the two numbers are equal. *)
Theorem error_signatures_add_up
    (file_path content : str) (keyword : option str)
    (start_date end_date : option PyLib.datetime_fields) :
  (forall s, summarize_log file_path content keyword start_date end_date = Ok s ->
     counter_total (error_messages (sum_aggregate s)) <= error_lines (sum_aggregate s)) /\
  (forall s, summarize_log file_path content None None None = Ok s ->
     counter_total (error_messages (sum_aggregate s)) = error_lines (sum_aggregate s)).
Proof.
  unfold summarize_log. split; intros s H.
  - destruct (summarize_lines keyword start_date end_date empty_aggregate (readlines content))
      as [a| |] eqn:E; try discriminate.
    injection H as <-. cbn [sum_aggregate].
    pose proof (summarize_lines_error_total _ _ _ _ _ _ E) as T.
    change (counter_total (error_messages empty_aggregate)) with 0 in T.
    change (error_lines empty_aggregate) with 0 in T. lia.
  - destruct (summarize_lines None None None empty_aggregate (readlines content))
      as [a| |] eqn:E; try discriminate.
    injection H as <-. cbn [sum_aggregate].
    pose proof (summarize_lines_unfiltered_error_total _ _ _ E) as T.
    change (counter_total (error_messages empty_aggregate)) with 0 in T.
    change (error_lines empty_aggregate) with 0 in T. lia.
Qed.

Lemma error_signatures_add_up_witness :
  (exists s, summarize_log "app.log" fixture (Some (lit "again")) None None = Ok s /\
     counter_total (error_messages (sum_aggregate s)) <= error_lines (sum_aggregate s)) /\
  (exists s, summarize_log "app.log" fixture None None None = Ok s /\
     counter_total (error_messages (sum_aggregate s)) = error_lines (sum_aggregate s)).
Proof.
  destruct (error_signatures_add_up "app.log" fixture (Some (lit "again")) None None)
    as [L U].
  split.
  - destruct (summarize_log "app.log" fixture (Some (lit "again")) None None)
      as [s| |] eqn:E; try (vm_compute in E; discriminate E).
    exists s. split; [reflexivity | exact (L s eq_refl)].
  - destruct (summarize_log "app.log" fixture None None None)
      as [s| |] eqn:E; try (vm_compute in E; discriminate E).
    exists s. split; [reflexivity | exact (U s eq_refl)].
Defined.

(* ================================================================= *)
(** * The summarizer: what the patterns find *)

(** The character before a position: the last one of the text before it. *)
Definition last_char (a : str) : option ascii :=
  match rev a with
  | [] => None
  | c :: _ => Some c
  end.

Lemma last_char_cons (c : ascii) (a : str) :
  last_char (c :: a) = match last_char a with Some x => Some x | None => Some c end.
Proof.
  unfold last_char. cbn [rev]. destruct (rev a) as [|x r]; reflexivity.
Qed.

(** A match of [search] is a match of the pattern at some position. *)
Lemma search_found (here : option ascii -> str -> option str) (s : str) :
  forall prev m, Re.search here prev s = Some m ->
  exists a b, s = a ++ b /\
    here (match last_char a with Some c => Some c | None => prev end) b = Some m.
Proof.
  induction s as [|c t IH]; intros prev m H; cbn [Re.search] in H.
  - exists [], []. split; [reflexivity|]. cbn. destruct (here prev []); [exact H | discriminate].
  - destruct (here prev (c :: t)) as [m'|] eqn:E.
    + exists [], (c :: t). split; [reflexivity|]. cbn. congruence.
    + destruct (IH _ _ H) as (a & b & -> & Hb).
      exists (c :: a), b. split; [reflexivity|]. rewrite last_char_cons.
      destruct (last_char a); exact Hb.
Qed.

(** A position where the pattern matches makes [search] find something. *)
Lemma search_finds (here : option ascii -> str -> option str) (a b : str) :
  forall prev,
  here (match last_char a with Some c => Some c | None => prev end) b <> None ->
  Re.search here prev (a ++ b) <> None.
Proof.
  induction a as [|c a IH]; intros prev H.
  - cbn [app]. destruct b as [|x b]; cbn [Re.search]; cbn in H;
      destruct (here prev _); congruence.
  - cbn [app Re.search]. destruct (here prev (c :: a ++ b)); [discriminate|].
    apply IH. rewrite last_char_cons in H. destruct (last_char a); exact H.
Qed.

Lemma starts_with_app (p s : str) :
  PyStr.starts_with p s = true -> s = p ++ skipn (List.length p) s.
Proof.
  revert s. induction p as [|x p IH]; intros [|y s] H; cbn in *; try reflexivity;
    try discriminate.
  apply andb_prop in H. destruct H as [E H]. apply Ascii.eqb_eq in E. subst y.
  f_equal. apply IH. exact H.
Qed.

Lemma starts_with_prefix (p s : str) : PyStr.starts_with p (p ++ s) = true.
Proof.
  induction p as [|x p IH]; cbn; [reflexivity|]. rewrite Ascii.eqb_refl. exact IH.
Qed.

Lemma first_alternative_found (alts : list str) (s m : str) :
  Re.first_alternative alts s = Some m ->
  In m alts /\ s = m ++ skipn (List.length m) s /\
  Re.boundary_after (skipn (List.length m) s) = true.
Proof.
  induction alts as [|a rest IH]; cbn [Re.first_alternative]; [discriminate|].
  destruct (PyStr.starts_with a s && Re.boundary_after (skipn (List.length a) s)) eqn:E.
  - intros [= <-]. apply andb_prop in E. destruct E as [E1 E2].
    split; [left; reflexivity|]. split; [apply starts_with_app; exact E1 | exact E2].
  - intros H. destruct (IH H) as (I & R). split; [right; exact I | exact R].
Qed.

Lemma first_alternative_finds (alts : list str) (l b : str) :
  In l alts -> Re.boundary_after b = true ->
  exists m, Re.first_alternative alts (l ++ b) = Some m /\ In m alts.
Proof.
  intros I B. induction alts as [|a rest IH]; [contradiction|].
  cbn [Re.first_alternative].
  destruct (PyStr.starts_with a (l ++ b) && Re.boundary_after (skipn (List.length a) (l ++ b)))
    eqn:E.
  - exists a. split; [reflexivity | left; reflexivity].
  - destruct I as [->|I].
    + rewrite starts_with_prefix, skipn_app, skipn_all, Nat.sub_diag in E.
      cbn [app skipn] in E. rewrite B in E. discriminate E.
    + destruct (IH I) as (m & Em & Im). exists m. split; [exact Em | right; exact Im].
Qed.

(** X3.  The level [parse_log_line] returns is UNKNOWN exactly when the
    level pattern matches nowhere in the line; otherwise it is one of the six
    level words, it stands in the line, and the characters next to it on both
    sides, if any, are no word characters.  Conversely a line in which one of
    the six words stands so delimited never gets UNKNOWN. *)
Theorem level_is_a_delimited_word (line : str) :
  ((LEVEL_PATTERN line = None /\ snd (fst (parse_log_line line)) = lit "UNKNOWN") \/
   (In (snd (fst (parse_log_line line))) Re.LEVELS /\
    exists a b, line = a ++ snd (fst (parse_log_line line)) ++ b /\
      Re.boundary_before (last_char a) = true /\ Re.boundary_after b = true)) /\
  (forall a l b, line = a ++ l ++ b -> In l Re.LEVELS ->
     Re.boundary_before (last_char a) = true -> Re.boundary_after b = true ->
     In (snd (fst (parse_log_line line))) Re.LEVELS).
Proof.
  unfold parse_log_line, LEVEL_PATTERN. cbn [fst snd]. split.
  - destruct (Re.search Re.level_here None line) as [m|] eqn:E; [right | left; tauto].
    destruct (search_found _ _ _ _ E) as (a & b & -> & H).
    unfold Re.level_here in H.
    destruct (Re.boundary_before _) eqn:B; [|discriminate].
    destruct (first_alternative_found _ _ _ H) as (I & S & A).
    split; [exact I|]. exists a, (skipn (List.length m) b). rewrite <- S.
    split; [reflexivity|]. split; [|exact A].
    destruct (last_char a); exact B.
  - intros a l b -> I B A.
    destruct (first_alternative_finds Re.LEVELS l b I A) as (m & Em & Im).
    assert (F : Re.search Re.level_here None (a ++ l ++ b) <> None).
    { apply search_finds. unfold Re.level_here.
      assert (B' : Re.boundary_before
                     (match last_char a with Some c => Some c | None => None end) = true)
        by (destruct (last_char a); exact B).
      rewrite B', Em. discriminate. }
    destruct (Re.search Re.level_here None (a ++ l ++ b)) as [m'|] eqn:E; [|congruence].
    destruct (search_found _ _ _ _ E) as (a' & b' & _ & H).
    unfold Re.level_here in H.
    destruct (Re.boundary_before (match last_char a' with Some c => Some c | None => None end));
      [|discriminate H].
    apply (first_alternative_found _ _ _ H).
Qed.

Lemma level_is_a_delimited_word_witness :
  In (snd (fst (parse_log_line "Oct 20 fw01 firewall[1042]: %FW-WARNING-*.161: Unexpected packet")))
     Re.LEVELS.
Proof.
  apply (proj2 (level_is_a_delimited_word _)
           (lit "Oct 20 fw01 firewall[1042]: %FW-") (lit "WARNING")
           (lit "-*.161: Unexpected packet")).
  - reflexivity.
  - vm_compute. tauto.
  - reflexivity.
  - reflexivity.
Defined.

(** ** A timestamp read from a line and printed in the report *)

Definition DIGIT_CHARS : str := "0123456789".

Lemma is_digit_in (c : ascii) : PyStr.is_digit c = true -> In c DIGIT_CHARS.
Proof.
  destruct c as [[] [] [] [] [] [] [] []]; intros H; try discriminate H; cbn; tauto.
Qed.

Lemma year_text_check :
  forallb (fun a => forallb (fun b => forallb (fun c => forallb (fun d =>
    PyStr.eqb (Datetime.zfill 4 (PyStr.str_of_Z (Datetime.num [a; b; c; d]))) [a; b; c; d])
    DIGIT_CHARS) DIGIT_CHARS) DIGIT_CHARS) DIGIT_CHARS = true.
Proof. vm_compute. reflexivity. Qed.

Lemma pair_text_check :
  forallb (fun a => forallb (fun b =>
    PyStr.eqb (PyStr.pad2 (Datetime.num [a; b])) [a; b]) DIGIT_CHARS) DIGIT_CHARS = true.
Proof. vm_compute. reflexivity. Qed.

(** Four digits read as a number and printed on four places are the four
    digits. *)
Lemma year_text (a b c d : ascii) :
  PyStr.is_digit a = true -> PyStr.is_digit b = true ->
  PyStr.is_digit c = true -> PyStr.is_digit d = true ->
  Datetime.zfill 4 (PyStr.str_of_Z (Datetime.num [a; b; c; d])) = [a; b; c; d].
Proof.
  intros Ha Hb Hc Hd. pose proof year_text_check as F.
  rewrite forallb_forall in F. specialize (F a (is_digit_in a Ha)).
  rewrite forallb_forall in F. specialize (F b (is_digit_in b Hb)).
  rewrite forallb_forall in F. specialize (F c (is_digit_in c Hc)).
  rewrite forallb_forall in F. specialize (F d (is_digit_in d Hd)).
  apply PyStr.eqb_eq. exact F.
Qed.

Lemma pair_text (a b : ascii) :
  PyStr.is_digit a = true -> PyStr.is_digit b = true ->
  PyStr.pad2 (Datetime.num [a; b]) = [a; b].
Proof.
  intros Ha Hb. pose proof pair_text_check as F.
  rewrite forallb_forall in F. specialize (F a (is_digit_in a Ha)).
  rewrite forallb_forall in F. specialize (F b (is_digit_in b Hb)).
  apply PyStr.eqb_eq. exact F.
Qed.

Lemma digit_is_not_T (c : ascii) :
  PyStr.is_digit c = true -> (if Ascii.eqb c "T" then " "%char else c) = c.
Proof. intros H. destruct (Ascii.eqb_spec c "T"); [subst c; discriminate H | reflexivity]. Qed.

(** The text the timestamp pattern matches: nineteen characters, digits
    around the separators. *)
Lemma timestamp_text (s m rest : str) :
  Re.match_classes Re.timestamp_classes s = Some (m, rest) ->
  exists y1 y2 y3 y4 m1 m2 d1 d2 sep h1 h2 i1 i2 s1 s2,
    m = [y1; y2; y3; y4; "-"%char; m1; m2; "-"%char; d1; d2; sep; h1; h2; ":"%char;
         i1; i2; ":"%char; s1; s2] /\
    s = m ++ rest /\
    Forall (fun c => PyStr.is_digit c = true)
           [y1; y2; y3; y4; m1; m2; d1; d2; h1; h2; i1; i2; s1; s2] /\
    (sep = " "%char \/ sep = "T"%char).
Proof.
  unfold Re.timestamp_classes. intros E.
  apply match_classes_cons in E. destruct E as (y1 & t1 & r1 & -> & Y1 & -> & E).
  apply match_classes_cons in E. destruct E as (y2 & t2 & r2 & -> & Y2 & -> & E).
  apply match_classes_cons in E. destruct E as (y3 & t3 & r3 & -> & Y3 & -> & E).
  apply match_classes_cons in E. destruct E as (y4 & t4 & r4 & -> & Y4 & -> & E).
  apply match_classes_cons in E. destruct E as (q1 & t5 & r5 & -> & Q1 & -> & E).
  apply match_classes_cons in E. destruct E as (m1 & t6 & r6 & -> & M1 & -> & E).
  apply match_classes_cons in E. destruct E as (m2 & t7 & r7 & -> & M2 & -> & E).
  apply match_classes_cons in E. destruct E as (q2 & t8 & r8 & -> & Q2 & -> & E).
  apply match_classes_cons in E. destruct E as (d1 & t9 & r9 & -> & D1 & -> & E).
  apply match_classes_cons in E. destruct E as (d2 & t10 & r10 & -> & D2 & -> & E).
  apply match_classes_cons in E. destruct E as (sep & t11 & r11 & -> & SP & -> & E).
  apply match_classes_cons in E. destruct E as (h1 & t12 & r12 & -> & H1 & -> & E).
  apply match_classes_cons in E. destruct E as (h2 & t13 & r13 & -> & H2 & -> & E).
  apply match_classes_cons in E. destruct E as (q3 & t14 & r14 & -> & Q3 & -> & E).
  apply match_classes_cons in E. destruct E as (i1 & t15 & r15 & -> & I1 & -> & E).
  apply match_classes_cons in E. destruct E as (i2 & t16 & r16 & -> & I2 & -> & E).
  apply match_classes_cons in E. destruct E as (q4 & t17 & r17 & -> & Q4 & -> & E).
  apply match_classes_cons in E. destruct E as (s1 & t18 & r18 & -> & S1 & -> & E).
  apply match_classes_cons in E. destruct E as (s2 & t19 & r19 & -> & S2 & -> & E).
  cbn [Re.match_classes] in E. injection E as <- <-.
  unfold Re.hy, Re.co, Re.is_char in Q1, Q2, Q3, Q4.
  apply Ascii.eqb_eq in Q1, Q2, Q3, Q4. subst q1 q2 q3 q4.
  exists y1, y2, y3, y4, m1, m2, d1, d2, sep, h1, h2, i1, i2, s1, s2.
  split; [reflexivity|]. split; [reflexivity|]. split.
  - repeat constructor; assumption.
  - unfold Re.sp_or_T, Re.is_char in SP. apply orb_prop in SP.
    destruct SP as [SP|SP]; apply Ascii.eqb_eq in SP; tauto.
Qed.

(** X4.  A timestamp found in a line by the pattern is nineteen characters
    of the line.  When [fromisoformat] accepts it, the date-time it returns
    prints, in the time span of the report, as the very text found, the [T]
    between date and time turned into a space. *)
Theorem timestamp_prints_as_read (line t : str) (o : PyLib.datetime_fields) :
  TIMESTAMP_PATTERN line = Some t ->
  Datetime.fromisoformat (Datetime.replace_char "T" " " t) = Some o ->
  Datetime.to_str o = Datetime.replace_char "T" " " t /\
  List.length t = 19%nat /\
  exists a b, line = a ++ t ++ b.
Proof.
  unfold TIMESTAMP_PATTERN. intros HT HF.
  destruct (search_found _ _ _ _ HT) as (a & b & -> & H).
  unfold Re.timestamp_here in H.
  destruct (Re.boundary_before _); [|discriminate H].
  destruct (Re.match_classes Re.timestamp_classes b) as [[m rest]|] eqn:E; [|discriminate H].
  destruct (Re.boundary_after rest); [|discriminate H]. injection H as ->.
  destruct (timestamp_text _ _ _ E)
    as (y1 & y2 & y3 & y4 & m1 & m2 & d1 & d2 & sep & h1 & h2 & i1 & i2 & s1 & s2 &
        -> & -> & D & SP).
  split; [|split; [reflexivity | exists a, rest; reflexivity]].
  repeat match goal with
         | H : Forall _ (_ :: _) |- _ => inversion H; subst; clear H
         end.
  assert (R : Datetime.replace_char "T" " "
                [y1; y2; y3; y4; "-"%char; m1; m2; "-"%char; d1; d2; sep; h1; h2; ":"%char;
                 i1; i2; ":"%char; s1; s2] =
              [y1; y2; y3; y4; "-"%char; m1; m2; "-"%char; d1; d2; " "%char; h1; h2;
               ":"%char; i1; i2; ":"%char; s1; s2]).
  { unfold Datetime.replace_char. cbn [map].
    rewrite (digit_is_not_T y1), (digit_is_not_T y2), (digit_is_not_T y3),
      (digit_is_not_T y4), (digit_is_not_T m1), (digit_is_not_T m2), (digit_is_not_T d1),
      (digit_is_not_T d2), (digit_is_not_T h1), (digit_is_not_T h2), (digit_is_not_T i1),
      (digit_is_not_T i2), (digit_is_not_T s1), (digit_is_not_T s2) by assumption.
    destruct SP as [-> | ->]; reflexivity. }
  rewrite R in *. clear R SP.
  unfold Datetime.fromisoformat in HF.
  destruct (Re.match_classes _ _) as [[? [|? ?]]|]; try discriminate HF.
  cbv zeta in HF.
  match type of HF with (if ?c then _ else _) = _ => destruct c; [|discriminate HF] end.
  injection HF as <-. unfold Datetime.to_str.
  cbn [PyLib.dt_year PyLib.dt_month PyLib.dt_day PyLib.dt_hour PyLib.dt_minute
       PyLib.dt_second].
  change (PyStr.slice 0 4 ?l) with (firstn 4 l).
  unfold PyStr.slice. cbn [Nat.sub skipn firstn].
  rewrite year_text, !pair_text by assumption. reflexivity.
Qed.

Lemma timestamp_prints_as_read_witness :
  exists o,
    Datetime.fromisoformat "2025-10-20 10:00:07" = Some o /\
    Datetime.to_str o = lit "2025-10-20 10:00:07".
Proof.
  destruct (Datetime.fromisoformat "2025-10-20 10:00:07") as [o|] eqn:E;
    [|vm_compute in E; discriminate E].
  exists o. split; [reflexivity|].
  apply (timestamp_prints_as_read "x 2025-10-20T10:00:07 WARNING slow query"
           "2025-10-20T10:00:07" o).
  - vm_compute. reflexivity.
  - exact E.
Defined.

(** ** The time span of the report *)

(** The date-times of the lines that carry a timestamp, in file order. *)
Definition parsed_timestamps (lines : list str) : list PyLib.datetime_fields :=
  flat_map (fun line =>
              match TIMESTAMP_PATTERN line with
              | Some t =>
                  match Datetime.fromisoformat (Datetime.replace_char "T" " " t) with
                  | Some o => [o]
                  | None => []
                  end
              | None => []
              end) lines.

(** The last element of a list, if any. *)
Definition last_error {A} (l : list A) : option A := hd_error (rev l).

Lemma last_error_cons {A} (x : A) (l : list A) :
  last_error (x :: l) = match last_error l with Some y => Some y | None => Some x end.
Proof. unfold last_error. cbn [rev]. destruct (rev l); reflexivity. Qed.

Lemma count_signature_span keyword level msg a :
  first_ts (count_signature keyword level msg a) = first_ts a /\
  last_ts (count_signature keyword level msg a) = last_ts a.
Proof.
  unfold count_signature. destruct (keyword_rejects keyword msg); [tauto|].
  destruct (is_error_level level); cbn; tauto.
Qed.

Lemma summarize_lines_span (keyword : option str)
    (start_date end_date : option PyLib.datetime_fields) (lines : list str) :
  forall a a', summarize_lines keyword start_date end_date a lines = Ok a' ->
  first_ts a' = match first_ts a with
                | Some f => Some f
                | None => hd_error (parsed_timestamps lines)
                end /\
  last_ts a' = match last_error (parsed_timestamps lines) with
               | Some l => Some l
               | None => last_ts a
               end.
Proof.
  induction lines as [|line rest IH]; intros a a' H; cbn [summarize_lines] in H.
  - injection H as <-. cbn. destruct (first_ts a); tauto.
  - destruct (summarize_line keyword start_date end_date a line) as [a1| |] eqn:E;
      try discriminate.
    destruct (IH a1 a' H) as [If Il]. rewrite If, Il. clear IH If Il H.
    unfold summarize_line, parse_log_line in E. cbv zeta in E.
    change (parsed_timestamps (line :: rest))
      with (match TIMESTAMP_PATTERN line with
            | Some t =>
                match Datetime.fromisoformat (Datetime.replace_char "T" " " t) with
                | Some o => [o]
                | None => []
                end
            | None => []
            end ++ parsed_timestamps rest).
    destruct (TIMESTAMP_PATTERN line) as [t|].
    + destruct (Datetime.fromisoformat _) as [o|]; [|discriminate E].
      cbn [app hd_error]. rewrite last_error_cons.
      assert (F : first_ts a1 = match first_ts a with Some f => Some f | None => Some o end /\
                  last_ts a1 = Some o).
      { destruct (match start_date with Some s => Datetime.ltb o s | None => false end);
          [injection E as <-; cbn; tauto|].
        destruct (match end_date with Some e => Datetime.ltb e o | None => false end);
          [injection E as <-; cbn; tauto|].
        injection E as <-.
        match goal with
        | |- context [count_signature ?k ?l ?m ?b] =>
            destruct (count_signature_span k l m b) as [-> ->]
        end.
        cbn. tauto. }
      destruct F as [-> ->].
      destruct (first_ts a), (last_error (parsed_timestamps rest)); split; reflexivity.
    + injection E as <-. cbn [app].
      match goal with
      | |- context [count_signature ?k ?l ?m ?b] =>
          destruct (count_signature_span k l m b) as [-> ->]
      end.
      cbn. tauto.
Qed.

(** X5.  When [summarize_log] completes, the time span of the report runs
    from the timestamp of the first line of the file that carries one to the
    timestamp of the last line that carries one: file order, not the earliest
    and the latest.  Both ends are set or both are unset. *)
Theorem time_span_is_file_order
    (file_path content : str) (keyword : option str)
    (start_date end_date : option PyLib.datetime_fields) (s : summary) :
  summarize_log file_path content keyword start_date end_date = Ok s ->
  first_ts (sum_aggregate s) = hd_error (parsed_timestamps (readlines content)) /\
  last_ts (sum_aggregate s) = last_error (parsed_timestamps (readlines content)) /\
  (first_ts (sum_aggregate s) = None <-> last_ts (sum_aggregate s) = None).
Proof.
  unfold summarize_log. intros H.
  destruct (summarize_lines keyword start_date end_date empty_aggregate (readlines content))
    as [a| |] eqn:E; try discriminate.
  injection H as <-. cbn [sum_aggregate].
  destruct (summarize_lines_span _ _ _ _ _ _ E) as [Hf Hl]. cbn in Hf, Hl.
  rewrite Hf, Hl. split; [reflexivity|]. split.
  - destruct (last_error _); reflexivity.
  - unfold last_error. destruct (parsed_timestamps (readlines content)) as [|x l];
      [cbn; tauto|].
    cbn [hd_error rev]. destruct (rev l); cbn; split; discriminate.
Qed.

(** A file whose lines are not in time order: the span starts at the later
    date. *)
Definition unordered_log : str :=
  "2025-10-22 08:00:00 INFO later
2025-10-20 09:30:00 ERROR earlier
".

Lemma time_span_is_file_order_witness :
  exists s,
    summarize_log "app.log" unordered_log None None None = Ok s /\
    first_ts (sum_aggregate s) = Datetime.fromisoformat "2025-10-22 08:00:00" /\
    last_ts (sum_aggregate s) = Datetime.fromisoformat "2025-10-20 09:30:00".
Proof.
  destruct (summarize_log "app.log" unordered_log None None None) as [s| |] eqn:E;
    try (vm_compute in E; discriminate E).
  exists s. split; [reflexivity|].
  destruct (time_span_is_file_order _ _ _ _ _ _ E) as (Hf & Hl & _).
  rewrite Hf, Hl. split; vm_compute; reflexivity.
Defined.

(** ** Lines without a timestamp and the date window *)

Lemma summarize_lines_no_timestamp (keyword : option str)
    (start_date end_date : option PyLib.datetime_fields) (lines : list str) :
  Forall (fun line => TIMESTAMP_PATTERN line = None) lines ->
  forall a, summarize_lines keyword start_date end_date a lines =
            summarize_lines keyword None None a lines.
Proof.
  induction 1 as [|line rest Hl _ IH]; intros a; cbn [summarize_lines]; [reflexivity|].
  assert (E : summarize_line keyword start_date end_date a line =
              summarize_line keyword None None a line).
  { unfold summarize_line, parse_log_line. rewrite Hl. reflexivity. }
  rewrite E. destruct (summarize_line keyword None None a line); [apply IH | reflexivity ..].
Qed.

(** X6.  The date window only ever excludes lines that carry a timestamp:
    on a file none of whose lines matches the timestamp pattern,
    [summarize_log] with any [start_date] and [end_date] gives what it gives
    without a window, error signatures included. *)
Theorem window_needs_timestamps
    (file_path content : str) (keyword : option str)
    (start_date end_date : option PyLib.datetime_fields) :
  Forall (fun line => TIMESTAMP_PATTERN line = None) (readlines content) ->
  summarize_log file_path content keyword start_date end_date =
  summarize_log file_path content keyword None None.
Proof.
  intros H. unfold summarize_log. rewrite (summarize_lines_no_timestamp _ _ _ _ H).
  reflexivity.
Qed.

Lemma window_needs_timestamps_witness :
  summarize_log "app.log" scenario3 None
    (Datetime.fromisoformat "2030-01-01 00:00:00") (Datetime.fromisoformat "2030-12-31 00:00:00") =
  summarize_log "app.log" scenario3 None None None.
Proof.
  apply (window_needs_timestamps "app.log" scenario3 None).
  let v := eval vm_compute in (readlines scenario3) in
  replace (readlines scenario3) with v by (vm_compute; reflexivity).
  repeat (apply Forall_cons; [vm_compute; reflexivity|]). apply Forall_nil.
Defined.

From Stdlib Require Import Permutation.

(* ================================================================= *)
(** * The summarizer: the most common error signatures *)

(** By decreasing count. *)
Definition by_count_desc (x y : str * Z) : Prop := snd y <= snd x.

Definition sorted_by_count (c : Counter.t) : Counter.t :=
  fold_left (fun acc x => Counter.insert_desc x acc) c [].

Lemma insert_desc_perm (x : str * Z) (l : Counter.t) :
  Permutation (Counter.insert_desc x l) (x :: l).
Proof.
  induction l as [|y rest IH]; cbn [Counter.insert_desc]; [reflexivity|].
  destruct (snd y <? snd x); [reflexivity|].
  rewrite IH. apply perm_swap.
Qed.

Lemma insert_desc_sorted (x : str * Z) (l : Counter.t) :
  StronglySorted by_count_desc l -> StronglySorted by_count_desc (Counter.insert_desc x l).
Proof.
  induction 1 as [|y rest Hs IH Hy]; cbn [Counter.insert_desc].
  - repeat constructor.
  - destruct (Z.ltb_spec (snd y) (snd x)).
    + constructor; [constructor; assumption|].
      constructor; [unfold by_count_desc; lia|].
      eapply Forall_impl; [|exact Hy]. unfold by_count_desc. intros z. lia.
    + constructor; [exact IH|].
      eapply Permutation_Forall; [symmetry; apply insert_desc_perm|].
      constructor; [unfold by_count_desc; lia | exact Hy].
Qed.

Lemma filter_none {A} (f : A -> bool) (l : list A) :
  (forall z, In z l -> f z = false) -> filter f l = [].
Proof.
  induction l as [|x l IH]; intros H; cbn [filter]; [reflexivity|].
  rewrite (H x (or_introl eq_refl)). apply IH. intros z I. apply H. right. exact I.
Qed.

(** Among the entries of one count, [insert_desc] puts the new one last. *)
Lemma insert_desc_filter (v : Z) (x : str * Z) (l : Counter.t) :
  StronglySorted by_count_desc l ->
  filter (fun p => snd p =? v) (Counter.insert_desc x l) =
  filter (fun p => snd p =? v) l ++ filter (fun p => snd p =? v) [x].
Proof.
  induction 1 as [|y rest Hs IH Hy]; cbn [Counter.insert_desc]; [reflexivity|].
  destruct (Z.ltb_spec (snd y) (snd x)).
  - cbn [filter]. destruct (Z.eqb_spec (snd x) v) as [E|E]; [|rewrite app_nil_r; reflexivity].
    assert (N : filter (fun p => snd p =? v) (y :: rest) = []).
    { apply filter_none. intros z [<-|I].
      - apply Z.eqb_neq. lia.
      - rewrite Forall_forall in Hy. specialize (Hy z I). unfold by_count_desc in Hy.
        apply Z.eqb_neq. lia. }
    cbn [filter] in N. rewrite N. reflexivity.
  - cbn [filter]. rewrite IH. destruct (snd y =? v); reflexivity.
Qed.

Lemma fold_insert_desc (c : Counter.t) : forall acc,
  StronglySorted by_count_desc acc ->
  StronglySorted by_count_desc (fold_left (fun a x => Counter.insert_desc x a) c acc) /\
  Permutation (fold_left (fun a x => Counter.insert_desc x a) c acc) (acc ++ c) /\
  forall v, filter (fun p => snd p =? v) (fold_left (fun a x => Counter.insert_desc x a) c acc) =
            filter (fun p => snd p =? v) acc ++ filter (fun p => snd p =? v) c.
Proof.
  induction c as [|x c IH]; intros acc H; cbn [fold_left].
  - rewrite app_nil_r. repeat split; [exact H | reflexivity |].
    intros v. cbn. rewrite app_nil_r. reflexivity.
  - destruct (IH _ (insert_desc_sorted x acc H)) as (S & P & F). repeat split.
    + exact S.
    + rewrite P, insert_desc_perm. apply Permutation_middle.
    + intros v. rewrite F, (insert_desc_filter v x acc H), <- app_assoc.
      change (x :: c) with ([x] ++ c). rewrite (filter_app _ [x] c). reflexivity.
Qed.

Lemma sorted_app_inv {A} (R : A -> A -> Prop) (a b : list A) :
  StronglySorted R (a ++ b) ->
  StronglySorted R a /\ forall x y, In x a -> In y b -> R x y.
Proof.
  induction a as [|z a IH]; cbn [app]; intros H.
  - split; [constructor | intros x y []].
  - inversion H as [|? ? Hs Hz]; subst. destruct (IH Hs) as [Sa Rab].
    rewrite Forall_app in Hz. destruct Hz as [Hza Hzb]. split.
    + constructor; assumption.
    + intros x y [<-|Ix] Iy; [|apply Rab; assumption].
      rewrite Forall_forall in Hzb. apply Hzb. exact Iy.
Qed.

Lemma filter_firstn {A} (f : A -> bool) (n : nat) (l : list A) :
  exists k, filter f (firstn n l) = firstn k (filter f l).
Proof.
  revert l. induction n as [|n IH]; intros l.
  - exists 0%nat. reflexivity.
  - destruct l as [|x l]; [exists 0%nat; reflexivity|].
    destruct (IH l) as [k E]. cbn [firstn filter]. destruct (f x).
    + exists (S k). cbn [firstn]. rewrite E. reflexivity.
    + exists k. exact E.
Qed.

(** X7.  [most_common(n)], which gives the report its five signatures:
    [min(n, len(c))] entries of the counter, by decreasing count; what it
    leaves out has no larger count than anything it lists; and the listed
    entries of one count stand in the order in which they entered the
    counter. *)
Theorem most_common_top (n : nat) (c : Counter.t) :
  List.length (Counter.most_common n c) = Nat.min n (List.length c) /\
  StronglySorted by_count_desc (Counter.most_common n c) /\
  (exists rest,
     Permutation c (Counter.most_common n c ++ rest) /\
     forall x y, In x (Counter.most_common n c) -> In y rest -> snd y <= snd x) /\
  forall v, exists k,
    filter (fun p => snd p =? v) (Counter.most_common n c) =
    firstn k (filter (fun p => snd p =? v) c).
Proof.
  unfold Counter.most_common.
  destruct (fold_insert_desc c [] (SSorted_nil _)) as (S & P & F).
  change (fold_left (fun acc x => Counter.insert_desc x acc) c []) with (sorted_by_count c) in *.
  cbn [app] in P. rewrite <- (firstn_skipn n (sorted_by_count c)) in S.
  destruct (sorted_app_inv _ _ _ S) as [S1 S2].
  split; [|split; [exact S1|split]].
  - rewrite length_firstn, (Permutation_length P). reflexivity.
  - exists (skipn n (sorted_by_count c)). split.
    + rewrite firstn_skipn. symmetry. exact P.
    + exact S2.
  - intros v. destruct (filter_firstn (fun p => snd p =? v) n (sorted_by_count c)) as [k E].
    exists k. rewrite E, F. reflexivity.
Qed.

(* ================================================================= *)
(** * The summarizer: the signature of an error line *)

(** A token of [split()]: not empty, no whitespace in it. *)
Definition token (w : str) : Prop :=
  w <> [] /\ forallb (fun c => negb (PyStr.is_space c)) w = true.

Lemma rev_not_nil {A} (l : list A) : l <> [] -> rev l <> [].
Proof.
  intros N E. apply N. rewrite <- (rev_involutive l), E. reflexivity.
Qed.

Lemma forallb_rev_true {A} (f : A -> bool) (l : list A) :
  forallb f l = true -> forallb f (rev l) = true.
Proof.
  rewrite !forallb_forall. intros H x I. apply H. apply in_rev. exact I.
Qed.

Lemma split_aux_tokens (s : str) : forall cur,
  forallb (fun c => negb (PyStr.is_space c)) cur = true ->
  Forall token (PyStr.split_aux cur s).
Proof.
  induction s as [|c t IH]; intros cur H; cbn [PyStr.split_aux].
  - destruct cur as [|x cur]; [constructor|].
    constructor; [|constructor]. split.
    + apply rev_not_nil. discriminate.
    + apply forallb_rev_true. exact H.
  - destruct (PyStr.is_space c) eqn:E.
    + destruct cur as [|x cur]; [apply IH; reflexivity|].
      constructor; [|apply IH; reflexivity]. split.
      * apply rev_not_nil. discriminate.
      * apply forallb_rev_true. exact H.
    + apply IH. cbn [forallb]. rewrite E, H. reflexivity.
Qed.

Lemma split_aux_token (w : str) : forall cur s,
  forallb (fun c => negb (PyStr.is_space c)) w = true ->
  PyStr.split_aux cur (w ++ s) = PyStr.split_aux (rev w ++ cur) s.
Proof.
  induction w as [|c w IH]; intros cur s H; [reflexivity|].
  cbn [forallb] in H. apply andb_prop in H. destruct H as [Hc Hw].
  cbn [app PyStr.split_aux]. apply negb_true_iff in Hc. rewrite Hc.
  rewrite (IH _ _ Hw). cbn [rev]. rewrite <- app_assoc. reflexivity.
Qed.

(** Tokens joined by single spaces split into the tokens. *)
Lemma split_join (ws : list str) :
  Forall token ws -> PyStr.split (PyStr.join " " ws) = ws.
Proof.
  unfold PyStr.split. induction 1 as [|x ws [Nx Hx] Hws IH]; [reflexivity|].
  destruct ws as [|y t].
  - cbn [PyStr.join]. rewrite <- (app_nil_r x) at 1.
    rewrite (split_aux_token x [] [] Hx), app_nil_r. cbn [PyStr.split_aux].
    destruct (rev x) eqn:E; [apply rev_not_nil in Nx; contradiction|].
    rewrite <- E, rev_involutive. reflexivity.
  - change (PyStr.join " " (x :: y :: t)) with (x ++ " "%char :: PyStr.join " " (y :: t)).
    rewrite (split_aux_token x [] _ Hx), app_nil_r. cbn [PyStr.split_aux].
    change (PyStr.is_space " ") with true. cbv iota.
    destruct (rev x) eqn:E; [apply rev_not_nil in Nx; contradiction|].
    rewrite <- E, rev_involutive, IH. reflexivity.
Qed.

Lemma Forall_firstn_of {A} (P : A -> Prop) (n : nat) : forall l,
  Forall P l -> Forall P (firstn n l).
Proof.
  induction n as [|n IH]; intros l H; [constructor|].
  destruct H as [|x l Hx Hl]; cbn [firstn]; constructor; [exact Hx | apply IH; exact Hl].
Qed.

Lemma Forall_skipn_of {A} (P : A -> Prop) (n : nat) : forall l,
  Forall P l -> Forall P (skipn n l).
Proof.
  induction n as [|n IH]; intros l H; [exact H|].
  destruct H as [|x l Hx Hl]; cbn [skipn]; [constructor | apply IH; exact Hl].
Qed.

Lemma Forall_slice {A} (P : A -> Prop) (a b : nat) (l : list A) :
  Forall P l -> Forall P (PyStr.slice a b l).
Proof.
  intros H. unfold PyStr.slice. apply Forall_firstn_of, Forall_skipn_of. exact H.
Qed.

(** X8.  The signature of an error line is normalised text: split on
    whitespace it gives back the tokens 2 to 8 of the message, at most
    seven of them; a message of at most one token has the empty signature. *)
Theorem signature_splits_back (msg : str) :
  PyStr.split (short_msg msg) = PyStr.slice 1 8 (PyStr.split msg) /\
  (List.length (PyStr.split (short_msg msg)) <= 7)%nat /\
  ((List.length (PyStr.split msg) <= 1)%nat -> short_msg msg = []).
Proof.
  assert (E : PyStr.split (short_msg msg) = PyStr.slice 1 8 (PyStr.split msg)).
  { unfold short_msg. apply split_join. apply Forall_slice.
    apply split_aux_tokens. reflexivity. }
  split; [exact E|]. split.
  - rewrite E. unfold PyStr.slice. rewrite length_firstn. apply Nat.le_min_l.
  - intros H. unfold short_msg, PyStr.slice.
    destruct (PyStr.split msg) as [|x [|y t]]; [reflexivity | reflexivity | cbn in H; lia].
Qed.

Lemma signature_splits_back_witness :
  short_msg "ERROR" = [] /\
  PyStr.split (short_msg "  ERROR   db   down ") = [lit "db"; lit "down"].
Proof.
  split.
  - apply (proj2 (proj2 (signature_splits_back "ERROR"))). vm_compute. lia.
  - rewrite (proj1 (signature_splits_back _)). reflexivity.
Defined.

(* ================================================================= *)
(** * The summarizer: when a pass completes *)





(* ================================================================= *)
(** * Binary64 order and truncation: the packet count *)

Module Ordering.

(** A finite float that is not negative, as an integer: its value times
    [2^1074]. *)
Definition scaled (x : spec_float) : Z :=
  match x with
  | S754_finite false m e => Z.pos m * 2 ^ (e + 1074)
  | _ => 0
  end.

(** Zero or a positive finite float in canonical form. *)
Definition nonneg_finite (x : spec_float) : bool :=
  match x with
  | S754_zero _ => true
  | S754_finite false m e => bounded prec emax m e
  | _ => false
  end.

Lemma bounded_shape (m : positive) (e : Z) :
  bounded prec emax m e = true ->
  -1074 <= e /\ Z.pos m < 2 ^ 53 /\ (-1074 < e -> 2 ^ 52 <= Z.pos m).
Proof.
  unfold bounded, canonical_mantissa, fexp, SpecFloat.emin, prec, emax.
  intros H. apply andb_prop in H. destruct H as [H _].
  apply Z.eqb_eq in H.
  pose proof (FloatFacts.digits_upper m) as U.
  pose proof (FloatFacts.digits_lower m) as L.
  assert (D : 0 < Z.pos (digits2_pos m)) by lia.
  split; [lia|]. split.
  - assert (Z.pos (digits2_pos m) <= 53) by lia.
    assert (2 ^ Z.pos (digits2_pos m) <= 2 ^ 53) by (apply Z.pow_le_mono_r; lia). lia.
  - intros G. assert (E : Z.pos (digits2_pos m) = 53) by lia. rewrite E in L.
    change (2 ^ 53) with (2 * 2 ^ 52) in L. lia.
Qed.

Lemma scaled_lt (m1 m2 : positive) (e1 e2 : Z) :
  bounded prec emax m1 e1 = true -> bounded prec emax m2 e2 = true -> e1 < e2 ->
  Z.pos m1 * 2 ^ (e1 + 1074) < Z.pos m2 * 2 ^ (e2 + 1074).
Proof.
  intros B1 B2 H.
  destruct (bounded_shape _ _ B1) as (L1 & U1 & _).
  destruct (bounded_shape _ _ B2) as (L2 & _ & N2).
  specialize (N2 ltac:(lia)).
  replace (e2 + 1074) with ((e1 + 1074) + (e2 - e1)) by lia.
  rewrite (Z.pow_add_r 2 (e1 + 1074) (e2 - e1)) by lia.
  assert (P : 0 < 2 ^ (e1 + 1074)) by (apply Z.pow_pos_nonneg; lia).
  assert (Q : 2 ^ 1 <= 2 ^ (e2 - e1)) by (apply Z.pow_le_mono_r; lia).
  change (2 ^ 1) with 2 in Q. change (2 ^ 53) with (2 * 2 ^ 52) in U1.
  set (A := 2 ^ (e1 + 1074)) in *. set (C := 2 ^ (e2 - e1)) in *.
  replace (Z.pos m2 * (A * C)) with ((Z.pos m2 * C) * A) by ring.
  apply Z.lt_le_trans with ((2 * Z.pos m2) * A).
  - apply Z.mul_lt_mono_pos_r; lia.
  - apply Z.mul_le_mono_nonneg_r; [lia|].
    rewrite (Z.mul_comm 2). apply Z.mul_le_mono_nonneg_l; lia.
Qed.

(** On canonical positive floats the order of binary64 is the order of the
    values. *)
Lemma compare_scaled (m1 m2 : positive) (e1 e2 : Z) :
  bounded prec emax m1 e1 = true -> bounded prec emax m2 e2 = true ->
  SFcompare (S754_finite false m1 e1) (S754_finite false m2 e2) =
  Some (scaled (S754_finite false m1 e1) ?= scaled (S754_finite false m2 e2)).
Proof.
  intros B1 B2. cbn [SFcompare scaled]. f_equal.
  destruct (Z.compare_spec e1 e2) as [E|L|G].
  - subst e2. rewrite Pos.compare_cont_spec. cbn [Pos.switch_Eq].
    assert (P : 0 < 2 ^ (e1 + 1074))
      by (apply Z.pow_pos_nonneg; [lia | destruct (bounded_shape _ _ B1); lia]).
    destruct (Pos.compare_spec m1 m2) as [E|L|G]; symmetry.
    + apply Z.compare_eq_iff. subst m2. reflexivity.
    + apply Z.compare_lt_iff. apply Z.mul_lt_mono_pos_r; lia.
    + apply Z.compare_gt_iff. apply Z.mul_lt_mono_pos_r; lia.
  - symmetry. apply Z.compare_lt_iff. apply scaled_lt; assumption.
  - symmetry. apply Z.compare_gt_iff. apply scaled_lt; assumption.
Qed.

(** [int(x)] of a canonical positive float is the integer part of its
    value. *)
Lemma trunc_scaled (m : positive) (e : Z) :
  bounded prec emax m e = true ->
  PyFloat.trunc (S754_finite false m e) = Ok (scaled (S754_finite false m e) / 2 ^ 1074).
Proof.
  intros B. destruct (bounded_shape _ _ B) as (L & _ & _).
  cbn [PyFloat.trunc scaled]. f_equal.
  destruct (Z.leb_spec 0 e).
  - rewrite (Z.pow_add_r 2 e 1074), Z.mul_assoc, Z.div_mul by lia. reflexivity.
  - assert (E : 2 ^ 1074 = 2 ^ (- e) * 2 ^ (e + 1074)).
    { rewrite <- Z.pow_add_r by lia. f_equal. lia. }
    rewrite E. rewrite Z.div_mul_cancel_r; [reflexivity | |];
      apply Z.pow_nonzero; lia.
Qed.

(** A float between two neighbouring integers truncates to the lower
    one. *)
Lemma int_of_float_between (x lo hi : float) (q : Z) :
  nonneg_finite (Prim2SF lo) = true -> scaled (Prim2SF lo) = q * 2 ^ 1074 ->
  nonneg_finite (Prim2SF hi) = true -> scaled (Prim2SF hi) = (q + 1) * 2 ^ 1074 ->
  0 <= q ->
  (lo <=? x)%float = true -> (x <? hi)%float = true ->
  PyFloat.int_of_float x = Ok q.
Proof.
  intros Nlo Slo Nhi Shi Hq Hle Hlt.
  rewrite leb_spec in Hle. rewrite ltb_spec in Hlt.
  unfold PyFloat.int_of_float. pose proof (Prim2SF_valid x) as V.
  assert (P : 0 < 2 ^ 1074) by (apply Z.pow_pos_nonneg; lia).
  unfold SFleb in Hle. unfold SFltb in Hlt.
  destruct (Prim2SF lo) as [sl|sl| |[] ml el]; cbn in Nlo; try discriminate Nlo;
    destruct (Prim2SF hi) as [sh|sh| |[] mh eh]; cbn in Nhi; try discriminate Nhi;
    destruct (Prim2SF x) as [sx|[]| |[] mx ex];
    try (cbn [SFcompare] in Hle; discriminate Hle);
    try (cbn [SFcompare] in Hlt; discriminate Hlt); cbn [valid_binary] in V.
  - (* lo = 0, x = 0 *)
    cbn [scaled] in Slo. cbn [PyFloat.trunc]. f_equal.
    generalize dependent (2 ^ 1074). intros T. nia.
  - (* lo = 0, x positive *)
    rewrite (compare_scaled _ _ _ _ V Nhi) in Hlt.
    rewrite (trunc_scaled _ _ V). f_equal. symmetry.
    assert (L : 0 <= scaled (S754_finite false mx ex)).
    { cbn [scaled]. apply Z.mul_nonneg_nonneg; [lia | apply Z.pow_nonneg; lia]. }
    cbn [scaled] in Slo.
    destruct (Z.compare_spec (scaled (S754_finite false mx ex))
                (scaled (S754_finite false mh eh))) as [|U|]; try discriminate Hlt.
    rewrite Shi in U. generalize dependent (2 ^ 1074). intros T P Slo Shi U.
    apply Z.div_unique with (r := scaled (S754_finite false mx ex) - q * T); nia.
  - (* lo positive, x positive *)
    rewrite (compare_scaled _ _ _ _ Nlo V) in Hle.
    rewrite (compare_scaled _ _ _ _ V Nhi) in Hlt.
    rewrite (trunc_scaled _ _ V). f_equal. symmetry.
    destruct (Z.compare_spec (scaled (S754_finite false mx ex))
                (scaled (S754_finite false mh eh))) as [|U|]; try discriminate Hlt.
    assert (L : scaled (S754_finite false ml el) <= scaled (S754_finite false mx ex)).
    { destruct (Z.compare_spec (scaled (S754_finite false ml el))
                  (scaled (S754_finite false mx ex))); try discriminate Hle; lia. }
    rewrite Shi in U. rewrite Slo in L.
    generalize dependent (2 ^ 1074). intros T P Slo Shi U L.
    apply Z.div_unique with (r := scaled (S754_finite false mx ex) - q * T); lia.
Qed.

End Ordering.

(** The floats of the integers the quotient can lie between: canonical, and
    of the value of the integer. *)
Definition integer_float_ok (q : Z) : bool :=
  Ordering.nonneg_finite (Prim2SF (PyFloat.of_int q)) &&
  (Ordering.scaled (Prim2SF (PyFloat.of_int q)) =? q * 2 ^ 1074).

Definition QUOTIENTS : list Z := ints_from 252 0.

Lemma integer_floats : forallb integer_float_ok QUOTIENTS = true.
Proof. vm_compute. reflexivity. Qed.

(** The float quotient lies between the integer quotient and its
    successor. *)
Definition quotient_between (d b : Z) : bool :=
  let x := (PyFloat.of_int b / PyFloat.of_int d)%float in
  (PyFloat.of_int (b / d) <=? x)%float && (x <? PyFloat.of_int (b / d + 1))%float.

Lemma all_quotients_between :
  forallb (fun d => forallb (quotient_between d) BYTE_COUNTS) DIVISORS = true.
Proof. vm_compute. reflexivity. Qed.

(** [int(bytes_cnt / d)] is the integer quotient, for every byte count and
    divisor the generator draws. *)
Lemma packets_quotient_floor (bytes_cnt d : Z) :
  0 < bytes_cnt <= 15000 -> 60 <= d <= 120 ->
  PyFloat.int_of_float (PyFloat.of_int bytes_cnt / PyFloat.of_int d)%float =
  Ok (bytes_cnt / d).
Proof.
  intros Hb Hd.
  assert (Q0 : 0 <= bytes_cnt / d) by (apply Z.div_pos; lia).
  assert (Q1 : bytes_cnt / d <= 250).
  { apply Z.lt_succ_r. apply Z.div_lt_upper_bound; nia. }
  pose proof integer_floats as F. rewrite forallb_forall in F.
  assert (Flo := F (bytes_cnt / d) ltac:(apply in_ints_from; lia)).
  assert (Fhi := F (bytes_cnt / d + 1) ltac:(apply in_ints_from; lia)).
  unfold integer_float_ok in Flo, Fhi.
  apply andb_prop in Flo, Fhi. destruct Flo as [Nlo Slo], Fhi as [Nhi Shi].
  apply Z.eqb_eq in Slo, Shi.
  pose proof all_quotients_between as B. rewrite forallb_forall in B.
  specialize (B d ltac:(apply in_ints_from; lia)). rewrite forallb_forall in B.
  specialize (B bytes_cnt ltac:(apply in_ints_from; lia)).
  unfold quotient_between in B. cbv zeta in B. apply andb_prop in B. destruct B as [Ble Blt].
  exact (Ordering.int_of_float_between _ _ _ _ Nlo Slo Nhi Shi Q0 Ble Blt).
Qed.

Section PacketCount.
Context `{RS : RandomSource}.

(** X10.  The packet count of a record with bytes: [int(bytes_cnt / d)], a
    float division truncated, is the integer quotient [bytes_cnt // d] for
    every byte count from 1 to 15000 and every divisor from 60 to 120, so
    [max(1, int(bytes_cnt / d))] is [max(1, bytes_cnt // d)], between 1 and
    250, and the conversion never raises. *)
Theorem packets_of_is_floor_division (bytes_cnt d : Z) (w : world) :
  0 < bytes_cnt <= 15000 -> 60 <= d <= 120 ->
  packets_of bytes_cnt d w = Ok (Z.max 1 (bytes_cnt / d), w) /\
  1 <= Z.max 1 (bytes_cnt / d) <= 250.
Proof.
  intros Hb Hd. unfold packets_of. rewrite (packets_quotient_floor _ _ Hb Hd).
  split; [reflexivity|].
  assert (bytes_cnt / d <= 250) by (apply Z.lt_succ_r; apply Z.div_lt_upper_bound; nia).
  lia.
Qed.

End PacketCount.

Lemma packets_of_is_floor_division_witness :
  packets_of (RS := CounterSource.source) 14999 61 (CounterSource.world_at 0 (fun _ => 0%N) 0)
    = Ok (245, CounterSource.world_at 0 (fun _ => 0%N) 0).
Proof.
  apply (proj1 (packets_of_is_floor_division (RS := CounterSource.source) 14999 61
                  (CounterSource.world_at 0 (fun _ => 0%N) 0) ltac:(lia) ltac:(lia))).
Defined.

(* ================================================================= *)
(** * The generator: the fields of a line *)

(** What [make_log_line] draws for one line. *)
Record log_fields := {
  f_sev : str;
  f_proto : str;
  f_s_ip : str;
  f_d_ip : str;
  f_s_pt : Z;
  f_d_pt : Z;
  f_in_if : str;
  f_out_if : str;
  f_action : str;
  f_bytes : Z;
  f_pkts : Z;
  f_rule : Z;
  f_uid : str;
  f_reason : str
}.

(** The message of a line, before it is sanitized. *)
Definition message_of_fields (f : log_fields) : str :=
  message_of (f_sev f) (f_rule f) (f_reason f) (f_s_ip f) (f_d_ip f) (f_proto f)
    (f_s_pt f) (f_d_pt f) (f_action f) (f_bytes f) (f_pkts f) (f_in_if f) (f_out_if f)
    (f_uid f).

(** The table the reason is chosen from. *)
Definition reasons_of (sev : str) : list str :=
  if PyStr.eqb sev "INFO" || PyStr.eqb sev "NOTICE" then REASONS_INFO
  else if PyStr.eqb sev "WARNING" then REASONS_WARN
  else REASONS_ERROR.

(** Digits and dots. *)
Definition address_text (s : str) : bool :=
  forallb (fun c => PyStr.is_digit c || Ascii.eqb c ".") s.

(** Digits and the letters [a] to [f]. *)
Definition hex_text (s : str) : bool :=
  forallb (fun c => PyStr.is_digit c || PyStr.in_range 97 102 c) s.

(** The ranges of the fields, and how they depend on each other. *)
Definition fields_ok (f : log_fields) : Prop :=
  In (f_sev f) SEVERITY_LABELS /\
  In (f_proto f) PROTOCOLS /\
  address_text (f_s_ip f) = true /\
  address_text (f_d_ip f) = true /\
  (if is_tcp_udp (f_proto f)
   then 1 <= f_s_pt f <= 65535 /\ In (f_d_pt f) DEST_PORTS
   else f_s_pt f = 0 /\ f_d_pt f = 0) /\
  In (f_in_if f) INTERFACES /\
  In (f_out_if f) INTERFACES /\
  In (f_action f) ACTIONS /\
  0 <= f_bytes f <= 15000 /\
  (if 0 <? f_bytes f
   then exists d, 60 <= d <= 120 /\ f_pkts f = Z.max 1 (f_bytes f / d)
   else 0 <= f_pkts f <= 4) /\
  100 <= f_rule f <= 3999 /\
  List.length (f_uid f) = 8%nat /\
  hex_text (f_uid f) = true /\
  In (f_reason f) (reasons_of (f_sev f)).

Lemma address_char_plain (c : ascii) :
  PyStr.is_digit c || Ascii.eqb c "." = true -> plain_char c = true.
Proof.
  destruct c as [[] [] [] [] [] [] [] []]; intros H; try discriminate H; reflexivity.
Qed.

Lemma hex_text_char_plain (c : ascii) :
  PyStr.is_digit c || PyStr.in_range 97 102 c = true -> plain_char c = true.
Proof.
  destruct c as [[] [] [] [] [] [] [] []]; intros H; try discriminate H; reflexivity.
Qed.

Lemma address_text_plain (s : str) : address_text s = true -> plain s = true.
Proof. apply forallb_impl. exact address_char_plain. Qed.

Lemma hex_text_plain (s : str) : hex_text s = true -> plain s = true.
Proof. apply forallb_impl. exact hex_text_char_plain. Qed.

Lemma address_text_app (a b : str) :
  address_text (a ++ b) = address_text a && address_text b.
Proof. apply forallb_app. Qed.

Lemma str_of_Z_address_text (n : Z) : 0 <= n -> address_text (PyStr.str_of_Z n) = true.
Proof.
  intros H. unfold PyStr.str_of_Z. destruct (Z.ltb_spec n 0); [lia|].
  eapply forallb_impl; [|apply str_of_nonneg_digits].
  intros c Hc. rewrite Hc. reflexivity.
Qed.

Lemma dotted_address_text (a b c d : Z) :
  0 <= a -> 0 <= b -> 0 <= c -> 0 <= d -> address_text (dotted a b c d) = true.
Proof.
  intros. unfold dotted. rewrite !address_text_app, !str_of_Z_address_text by assumption.
  reflexivity.
Qed.

Lemma str_of_ip_address_text (n : Z) : address_text (PyLib.str_of_ip n) = true.
Proof.
  unfold PyLib.str_of_ip. rewrite !address_text_app.
  rewrite !str_of_Z_address_text; try reflexivity; apply Z.mod_pos_bound; lia.
Qed.

Lemma hex_char_hex (n : N) :
  PyStr.is_digit (PyStr.hex_char (N.land n 15)) ||
  PyStr.in_range 97 102 (PyStr.hex_char (N.land n 15)) = true.
Proof.
  assert (H : (N.land n 15 < 16)%N).
  { change 15%N with (N.ones 4). rewrite N.land_ones. apply N.mod_lt. discriminate. }
  destruct (N.land n 15) as [|p]; [reflexivity|].
  do 4 (destruct p as [p|p|]; try reflexivity); exfalso; destruct p; discriminate H || lia.
Qed.

Lemma hex_fixed_hex (width : nat) : forall n, hex_text (PyStr.hex_fixed width n) = true.
Proof.
  induction width as [|k IH]; intros n; cbn [PyStr.hex_fixed]; [reflexivity|].
  unfold hex_text in *. rewrite forallb_app, IH. cbn [forallb].
  rewrite hex_char_hex. reflexivity.
Qed.

(** The message of fields in range has none of the characters the
    sanitizing step removes. *)
Lemma fields_ok_control_free (f : log_fields) :
  fields_ok f -> control_free (message_of_fields f) = true.
Proof.
  intros (Hsev & Hproto & Hs & Hd & Hpt & Hin & Hout & Hact & Hb & Hpk & Hrule & _ & Hu & Hr).
  assert (Hspt : 0 <= f_s_pt f /\ 0 <= f_d_pt f).
  { destruct (is_tcp_udp (f_proto f)); [|lia].
    destruct Hpt as [H1 H2]. split; [lia|]. cbn in H2. intuition lia. }
  assert (Hpk' : 0 <= f_pkts f).
  { destruct (0 <? f_bytes f); [destruct Hpk as (d & _ & ->)|]; lia. }
  assert (Hreason : plain (f_reason f) = true).
  { unfold reasons_of in Hr.
    destruct (_ || _); [|destruct (PyStr.eqb (f_sev f) "WARNING")];
      (eapply In_plain; [|exact Hr]); reflexivity. }
  destruct (message_shape (f_sev f) (f_rule f) (f_reason f) (f_s_ip f) (f_d_ip f) (f_proto f)
              (f_s_pt f) (f_d_pt f) (f_action f) (f_bytes f) (f_pkts f) (f_in_if f)
              (f_out_if f) (f_uid f)) as (rest & Em & Pr);
    try lia; try assumption;
    try (apply address_text_plain; assumption);
    try (apply hex_text_plain; assumption);
    try (eapply In_plain; [|eassumption]; reflexivity).
  unfold message_of_fields. rewrite Em.
  rewrite !control_free_app, (severity_label_control_free _ Hsev),
    (plain_control_free rest Pr). reflexivity.
Qed.

Section Fields.
Context `{RS : RandomSource}.

Lemma public_ipv4_address_text (fuel : nat) : forall w : world,
  post True (fun s => address_text s = true) (public_ipv4 fuel w).
Proof.
  induction fuel as [|f IH]; intros w; cbn [public_ipv4]; [exact I|].
  eapply post_bind; [apply post_randint; lia|]. intros a w1 Ha.
  eapply post_bind; [apply post_randint; lia|]. intros b w2 Hb.
  eapply post_bind; [apply post_randint; lia|]. intros c w3 Hc.
  eapply post_bind; [apply post_randint; lia|]. intros d w4 Hd.
  cbv beta in *.
  destruct (negb (reserved a b)); [|apply IH].
  apply post_ret. apply dotted_address_text; lia.
Qed.

Lemma private_ipv4_address_text (D : Prop) (w : world) :
  post D (fun s => address_text s = true) (private_ipv4 w).
Proof.
  unfold private_ipv4.
  eapply post_bind; [apply post_choice; discriminate|]. intros s w1 I. cbv beta in I.
  assert (exists net, PyLib.ip_network s = Some net /\ 3 <= PyLib.num_addresses net)
    as (net & En & Hn).
  { destruct I as [<-|[<-|[<-|[]]]]; eexists; (split; [reflexivity|]); vm_compute;
      discriminate. }
  rewrite En.
  eapply post_bind; [apply post_randint; lia|]. intros k w2 _.
  apply post_ret. apply str_of_ip_address_text.
Qed.

Lemma random_ipv4_address_text (D : Prop) (fuel : nat) (private_bias : float) (w : world) :
  D \/ bounded_rejection fuel ->
  post D (fun s => address_text s = true) (random_ipv4 fuel private_bias w).
Proof.
  intros H. unfold random_ipv4.
  rewrite (bind_of_ok _ _ _ _ _ (py_random_run w)). cbv beta.
  destruct (_ <? private_bias)%float; [apply private_ipv4_address_text|].
  apply post_cases; [apply public_ipv4_address_text|].
  destruct H as [d|B]; [left; exact d | right; apply B].
Qed.

Lemma uuid4_hex8_text (D : Prop) (w : world) :
  post D (fun uid => List.length uid = 8%nat /\ hex_text uid = true) (uuid4_hex8 w).
Proof.
  unfold uuid4_hex8, bind, os_urandom, ret, post, PyLib.uuid_hex. split.
  - rewrite length_firstn, hex_fixed_length. reflexivity.
  - apply forallb_firstn. apply hex_fixed_hex.
Qed.

(** Every line [make_log_line] returns is its prefix followed by the
    message of fields in range; it returns one whenever the fuel is enough
    for the source. *)
Lemma make_log_line_fields_post (D : Prop) (fuel : nat) (ts : Z) (host : str) (pid : Z)
    (w : world) :
  D \/ bounded_rejection fuel ->
  post D (fun line => exists f, fields_ok f /\
                        line = line_prefix ts host pid ++ message_of_fields f)
       (make_log_line fuel ts host pid w).
Proof.
  intros HF. unfold make_log_line, make_log_line_with.
  eapply post_bind; [apply post_weighted_choice; discriminate|]. intros sev w1 Hsev.
  eapply post_bind; [apply post_choice; discriminate|]. intros proto w2 Hproto.
  eapply post_bind; [apply random_ipv4_address_text; exact HF|]. intros s_ip w3 Hs.
  eapply post_bind; [apply random_ipv4_address_text; exact HF|]. intros d_ip w4 Hd.
  eapply post_bind
    with (P := fun s_pt => if is_tcp_udp proto then 1 <= s_pt <= 65535 else s_pt = 0).
  { destruct (is_tcp_udp proto).
    - apply post_randint; lia.
    - apply post_ret. reflexivity. }
  intros s_pt w5 Hspt.
  eapply post_bind
    with (P := fun d_pt => if is_tcp_udp proto then In d_pt DEST_PORTS else d_pt = 0).
  { destruct (is_tcp_udp proto).
    - apply post_choice; discriminate.
    - apply post_ret. reflexivity. }
  intros d_pt w6 Hdpt.
  eapply post_bind; [apply post_choice; discriminate|]. intros in_if w7 Hin.
  eapply post_bind; [apply post_choice; discriminate|]. intros out_if w8 Hout.
  eapply post_bind; [apply post_choices1_actions|]. intros action w9 Hact.
  eapply post_bind; [apply post_randint; lia|]. intros bytes_cnt w10 Hb.
  eapply post_bind
    with (P := fun pkts => if 0 <? bytes_cnt
                           then exists d, 60 <= d <= 120 /\ pkts = Z.max 1 (bytes_cnt / d)
                           else 0 <= pkts <= 4).
  { destruct (Z.ltb_spec 0 bytes_cnt).
    - eapply post_bind; [apply post_randint; lia|]. intros dv w' Hdv. cbv beta in *.
      unfold packets_of. rewrite packets_quotient_floor by lia.
      apply post_ret. exists dv. split; [lia | reflexivity].
    - apply post_randint; lia. }
  intros pkts w11 Hpk.
  eapply post_bind; [apply post_randint; lia|]. intros rule w12 Hrule.
  eapply post_bind; [apply uuid4_hex8_text|]. intros uid w13 Huid.
  eapply post_bind with (P := fun reason => In reason (reasons_of sev)).
  { unfold reasons_of.
    destruct (_ || _); [|destruct (PyStr.eqb sev "WARNING")];
      apply post_choice; discriminate. }
  intros reason w14 Hreason.
  apply post_ret. cbv beta in *.
  exists {| f_sev := sev; f_proto := proto; f_s_ip := s_ip; f_d_ip := d_ip;
            f_s_pt := s_pt; f_d_pt := d_pt; f_in_if := in_if; f_out_if := out_if;
            f_action := action; f_bytes := bytes_cnt; f_pkts := pkts; f_rule := rule;
            f_uid := uid; f_reason := reason |}.
  assert (OK : fields_ok
            {| f_sev := sev; f_proto := proto; f_s_ip := s_ip; f_d_ip := d_ip;
               f_s_pt := s_pt; f_d_pt := d_pt; f_in_if := in_if; f_out_if := out_if;
               f_action := action; f_bytes := bytes_cnt; f_pkts := pkts; f_rule := rule;
               f_uid := uid; f_reason := reason |}).
  { unfold fields_ok. cbn [f_sev f_proto f_s_ip f_d_ip f_s_pt f_d_pt f_in_if f_out_if
                           f_action f_bytes f_pkts f_rule f_uid f_reason].
    destruct Huid as [Hu1 Hu2].
    split; [exact Hsev|]. split; [exact Hproto|]. split; [exact Hs|]. split; [exact Hd|].
    split; [destruct (is_tcp_udp proto); split; assumption|].
    split; [exact Hin|]. split; [exact Hout|]. split; [exact Hact|]. split; [exact Hb|].
    split; [exact Hpk|]. split; [exact Hrule|]. split; [exact Hu1|].
    split; [exact Hu2 | exact Hreason]. }
  split; [exact OK|].
  pose proof (fields_ok_control_free _ OK) as CF.
  unfold message_of_fields in *.
  cbn [f_sev f_proto f_s_ip f_d_ip f_s_pt f_d_pt f_in_if f_out_if
       f_action f_bytes f_pkts f_rule f_uid f_reason] in *.
  rewrite (sanitize_control_free _ CF).
  unfold line_prefix. rewrite <- !app_assoc. reflexivity.
Qed.

(** X11.  A line [make_log_line] returns is the prefix (syslog timestamp,
    host, [firewall[pid]: ]) followed by the message of its fields, unchanged
    by the sanitizing step, and the fields are in range: the severity, the
    protocol, the interfaces and the action are from their tables; the
    addresses are digits and dots; the ports are 0 unless the protocol is TCP
    or UDP, then the source port is from 1 to 65535 and the destination port
    from the table; the packet count is [max(1, bytes // d)] for a [d] from 60
    to 120 when there are bytes, from 0 to 4 otherwise; the rule is from 100
    to 3999; the id is eight hexadecimal digits; the reason is from the table
    of the severity.  From a source whose rejection loop ends within the
    fuel, a line is returned. *)
Theorem make_log_line_fields (fuel : nat) (ts : Z) (host : str) (pid : Z) (w : world) :
  (forall line w', make_log_line fuel ts host pid w = Ok (line, w') ->
     exists f, fields_ok f /\ line = line_prefix ts host pid ++ message_of_fields f) /\
  (bounded_rejection fuel -> returns (make_log_line fuel ts host pid w) = true).
Proof.
  split.
  - intros line w' E.
    pose proof (make_log_line_fields_post True fuel ts host pid w (or_introl I)) as P.
    rewrite E in P. exact P.
  - intros B.
    pose proof (make_log_line_fields_post False fuel ts host pid w (or_intror B)) as P.
    destruct (make_log_line fuel ts host pid w) as [[line w']| |]; [reflexivity | destruct P ..].
Qed.

End Fields.

Lemma make_log_line_fields_witness :
  exists line w' f,
    make_log_line (RS := CounterSource.source) 2 T_2025_10_20 HOST 1042
      (CounterSource.world_at 7 (CounterSource.pool 5 3) 0) = Ok (line, w') /\
    fields_ok f /\ line = line_prefix T_2025_10_20 HOST 1042 ++ message_of_fields f.
Proof.
  destruct (make_log_line (RS := CounterSource.source) 2 T_2025_10_20 HOST 1042
              (CounterSource.world_at 7 (CounterSource.pool 5 3) 0))
    as [[line w']| |] eqn:E; try (vm_compute in E; discriminate E).
  destruct (proj1 (make_log_line_fields (RS := CounterSource.source) 2 T_2025_10_20 HOST 1042
                     (CounterSource.world_at 7 (CounterSource.pool 5 3) 0)) line w' E)
    as (f & OK & L).
  exists line, w', f. split; [reflexivity | split; assumption].
Defined.

(* ================================================================= *)
(** * A generated line read by the summarizer *)

(** The first two letters of a level word. *)
Definition is_level_pair (x y : ascii) : bool :=
  (Ascii.eqb x "I" && Ascii.eqb y "N") || (Ascii.eqb x "W" && Ascii.eqb y "A") ||
  (Ascii.eqb x "E" && Ascii.eqb y "R") || (Ascii.eqb x "D" && Ascii.eqb y "E") ||
  (Ascii.eqb x "C" && Ascii.eqb y "R").

(** No two neighbouring characters start a level word. *)
Fixpoint pair_free (s : str) : bool :=
  match s with
  | x :: t =>
      match t with
      | y :: _ => negb (is_level_pair x y) && pair_free t
      | [] => true
      end
  | [] => true
  end.

(** No capital letter. *)
Definition quiet (s : str) : bool := forallb (fun c => negb (PyStr.is_upper c)) s.

Definition head_quiet (s : str) : bool :=
  match s with
  | c :: _ => negb (PyStr.is_upper c)
  | [] => true
  end.

Definition tail_quiet (s : str) : bool := head_quiet (rev s).

Lemma level_pair_upper (x y : ascii) :
  is_level_pair x y = true -> PyStr.is_upper x = true /\ PyStr.is_upper y = true.
Proof.
  unfold is_level_pair. intros H.
  repeat (apply orb_prop in H; destruct H as [H|H]);
    apply andb_prop in H; destruct H as [Hx Hy];
    apply Ascii.eqb_eq in Hx, Hy; subst x y; split; reflexivity.
Qed.

Lemma not_level_pair (x y : ascii) :
  PyStr.is_upper x = false \/ PyStr.is_upper y = false -> is_level_pair x y = false.
Proof.
  intros H. destruct (is_level_pair x y) eqn:E; [|reflexivity].
  destruct (level_pair_upper x y E) as [Hx Hy]. destruct H; congruence.
Qed.

Lemma pair_free_cons (x : ascii) (s : str) :
  pair_free (x :: s) =
  match s with y :: _ => negb (is_level_pair x y) && pair_free s | [] => true end.
Proof. reflexivity. Qed.

Lemma pair_free_tail (x : ascii) (s : str) : pair_free (x :: s) = true -> pair_free s = true.
Proof.
  rewrite pair_free_cons. destruct s as [|y t]; [reflexivity|].
  intros H. apply andb_prop in H. tauto.
Qed.

(** Two texts without a pair, the first ending or the second starting with
    no capital: no pair in the two together. *)
Lemma pair_free_app (a b : str) :
  pair_free a = true -> pair_free b = true ->
  tail_quiet a = true \/ head_quiet b = true ->
  pair_free (a ++ b) = true.
Proof.
  intros Ha Hb H. induction a as [|x a IH]; [exact Hb|].
  destruct a as [|y a].
  - cbn [app]. rewrite pair_free_cons. destruct b as [|z b]; [reflexivity|].
    rewrite Hb, andb_true_r. apply negb_true_iff. apply not_level_pair.
    destruct H as [H|H]; cbn in H; apply negb_true_iff in H; tauto.
  - change ((x :: y :: a) ++ b) with (x :: (y :: a) ++ b).
    rewrite pair_free_cons. cbn [app].
    rewrite pair_free_cons in Ha. apply andb_prop in Ha. destruct Ha as [Hxy Ha].
    rewrite Hxy. cbn [andb]. apply IH; [exact Ha|].
    destruct H as [H|H]; [left | right; exact H].
    unfold tail_quiet in *. cbn [rev] in *.
    destruct (rev a ++ [y]) eqn:E; [destruct (rev a); discriminate E|].
    cbn [app head_quiet] in *. exact H.
Qed.

Lemma quiet_pair_free (s : str) : quiet s = true -> pair_free s = true.
Proof.
  induction s as [|x s IH]; [reflexivity|].
  intros H. cbn [quiet forallb] in H. apply andb_prop in H. destruct H as [Hx Hs].
  rewrite pair_free_cons. destruct s as [|y t]; [reflexivity|].
  rewrite (IH Hs), andb_true_r. apply negb_true_iff, not_level_pair.
  left. apply negb_true_iff. exact Hx.
Qed.

Lemma quiet_head (s : str) : quiet s = true -> head_quiet s = true.
Proof.
  destruct s as [|x s]; [reflexivity|]. cbn. intros H. apply andb_prop in H. tauto.
Qed.

Lemma quiet_app (a b : str) : quiet (a ++ b) = quiet a && quiet b.
Proof. apply forallb_app. Qed.

Lemma quiet_tail (s : str) : quiet s = true -> tail_quiet s = true.
Proof.
  intros H. apply quiet_head. unfold quiet in *. apply forallb_rev_true. exact H.
Qed.

Lemma head_quiet_app (a b : str) :
  a <> [] -> head_quiet a = true -> head_quiet (a ++ b) = true.
Proof. destruct a; [contradiction | intros _ H; exact H]. Qed.

(** A text without a pair that ends with no capital is skipped by the
    search for a level. *)
Lemma search_level_skip (a : str) : forall prev rest,
  a <> [] -> pair_free a = true -> tail_quiet a = true ->
  Re.search Re.level_here prev (a ++ rest) = Re.search Re.level_here (last_char a) rest.
Proof.
  induction a as [|x a IH]; intros prev rest N P T; [contradiction|].
  assert (H : Re.level_here prev ((x :: a) ++ rest) = None).
  { destruct (Re.level_here prev ((x :: a) ++ rest)) as [m|] eqn:E; [exfalso | reflexivity].
    unfold Re.level_here in E. destruct (Re.boundary_before prev); [|discriminate E].
    destruct (first_alternative_found _ _ _ E) as (I & S & _).
    assert (L : exists y t, (x :: a) ++ rest = x :: y :: t /\ is_level_pair x y = true).
    { rewrite S. cbn in I.
      destruct I as [<-|[<-|[<-|[<-|[<-|[<-|[]]]]]]]; cbn [lit list_ascii_of_string app] in *;
        injection S as -> _; eexists; eexists; (split; [reflexivity|]); reflexivity. }
    destruct L as (y & t & L1 & L2). cbn [app] in L1. injection L1 as L1.
    destruct a as [|z a].
    - unfold tail_quiet in T. cbn in T. apply negb_true_iff in T.
      destruct (level_pair_upper _ _ L2). congruence.
    - cbn [app] in L1. injection L1 as -> _.
      rewrite pair_free_cons in P. rewrite L2 in P. discriminate P. }
  cbn [app] in *. cbn [Re.search]. rewrite H.
  destruct a as [|z a]; [reflexivity|].
  rewrite (IH (Some x) rest); [| discriminate | eapply pair_free_tail; exact P |].
  - rewrite (last_char_cons x (z :: a)).
    destruct (last_char (z :: a)) eqn:E; [reflexivity|].
    unfold last_char in E. cbn [rev] in E. destruct (rev a ++ [z]) eqn:E';
      [destruct (rev a); discriminate E' | discriminate E].
  - unfold tail_quiet in *. cbn [rev] in *.
    destruct (rev a ++ [z]) eqn:E; [destruct (rev a); discriminate E|].
    cbn [app head_quiet] in *. exact T.
Qed.

(** A text without a pair has no level. *)
Lemma search_level_none (s : str) : forall prev,
  pair_free s = true -> Re.search Re.level_here prev s = None.
Proof.
  induction s as [|x s IH]; intros prev P.
  { cbn. unfold Re.level_here. destruct (Re.boundary_before prev); reflexivity. }
  destruct (Re.search Re.level_here prev (x :: s)) as [m|] eqn:E; [exfalso | reflexivity].
  destruct (search_found _ _ _ _ E) as (a & b & S & H).
  unfold Re.level_here in H. destruct (Re.boundary_before _); [|discriminate H].
  destruct (first_alternative_found _ _ _ H) as (I & Sb & _).
  assert (L : exists y z t, b = y :: z :: t /\ is_level_pair y z = true).
  { rewrite Sb. cbn in I.
    destruct I as [<-|[<-|[<-|[<-|[<-|[<-|[]]]]]]]; cbn [lit list_ascii_of_string app];
      eexists; eexists; eexists; (split; [reflexivity|]); reflexivity. }
  destruct L as (y & z & t & -> & L2).
  clear - S P L2. revert x s S P.
  induction a as [|c a IHa]; intros x s S P.
  - cbn [app] in S. injection S as -> ->.
    rewrite pair_free_cons, L2 in P. discriminate P.
  - cbn [app] in S. injection S as -> ->.
    destruct a as [|c' a].
    + cbn [app] in P. apply pair_free_tail in P.
      rewrite pair_free_cons, L2 in P. discriminate P.
    + apply (IHa c' (a ++ y :: z :: t)); [reflexivity|].
      eapply pair_free_tail. exact P.
Qed.
Lemma tail_quiet_app (a b : str) : b <> [] -> tail_quiet (a ++ b) = tail_quiet b.
Proof.
  intros N. unfold tail_quiet. rewrite rev_app_distr.
  destruct (rev b) eqn:E; [|reflexivity].
  apply rev_not_nil in N. contradiction.
Qed.

Lemma last_char_app (a b : str) : b <> [] -> last_char (a ++ b) = last_char b.
Proof.
  intros N. unfold last_char. rewrite rev_app_distr.
  destruct (rev b) eqn:E; [|reflexivity].
  apply rev_not_nil in N. contradiction.
Qed.

(** A literal with no capital at its ends, before a text without a pair. *)
Lemma calm_literal (l rest : str) :
  pair_free l = true -> head_quiet l = true -> tail_quiet l = true -> l <> [] ->
  pair_free rest = true ->
  pair_free (l ++ rest) = true /\ head_quiet (l ++ rest) = true.
Proof.
  intros P H T N R. split.
  - apply pair_free_app; [exact P | exact R | left; exact T].
  - apply head_quiet_app; assumption.
Qed.

(** A field without a pair, before a text that starts with no capital. *)
Lemma pair_free_field (f rest : str) :
  pair_free f = true -> pair_free rest = true /\ head_quiet rest = true ->
  pair_free (f ++ rest) = true.
Proof. intros P [R H]. apply pair_free_app; [exact P | exact R | right; exact H]. Qed.

Lemma digit_not_upper (c : ascii) : PyStr.is_digit c = true -> negb (PyStr.is_upper c) = true.
Proof. destruct c as [[] [] [] [] [] [] [] []]; intros H; try discriminate H; reflexivity. Qed.

Lemma str_of_Z_quiet (n : Z) : quiet (PyStr.str_of_Z n) = true.
Proof.
  assert (D : forall m, quiet (PyStr.str_of_nonneg m) = true).
  { intros m. eapply forallb_impl; [exact digit_not_upper | apply str_of_nonneg_digits]. }
  unfold PyStr.str_of_Z. destruct (n <? 0); [cbn; apply D | apply D].
Qed.

Lemma pad2_quiet (n : Z) : quiet (PyStr.pad2 n) = true.
Proof.
  unfold PyStr.pad2. destruct (_ && _); [cbn; apply str_of_Z_quiet | apply str_of_Z_quiet].
Qed.

Lemma address_text_quiet (s : str) : address_text s = true -> quiet s = true.
Proof.
  apply forallb_impl. intros c.
  destruct c as [[] [] [] [] [] [] [] []]; intros H; try discriminate H; reflexivity.
Qed.

Lemma hex_text_quiet (s : str) : hex_text s = true -> quiet s = true.
Proof.
  apply forallb_impl. intros c.
  destruct c as [[] [] [] [] [] [] [] []]; intros H; try discriminate H; reflexivity.
Qed.

Lemma In_forallb {A} (P : A -> bool) (table : list A) (x : A) :
  forallb P table = true -> In x table -> P x = true.
Proof. intros F I. rewrite forallb_forall in F. apply F. exact I. Qed.

Lemma month_abbr_pair_free (m : Z) : pair_free (PyLib.month_abbr m) = true.
Proof.
  unfold PyLib.month_abbr.
  destruct (nth_in_or_default (Z.to_nat (m - 1)) PyLib.MONTH_ABBR (lit "Jan")) as [I|E].
  - eapply In_forallb; [|exact I]. reflexivity.
  - rewrite E. reflexivity.
Qed.

(** The prefix of a line and the opening of the tag: no pair, and a hyphen
    at the end. *)
Lemma line_opening (ts pid : Z) (host : str) :
  quiet host = true ->
  pair_free (line_prefix ts host pid ++ lit "%FW-") = true /\
  tail_quiet (line_prefix ts host pid ++ lit "%FW-") = true /\
  last_char (line_prefix ts host pid ++ lit "%FW-") = Some "-"%char /\
  line_prefix ts host pid ++ lit "%FW-" <> [].
Proof.
  intros Hh. split; [|split; [|split]].
  - unfold line_prefix, format_syslog_ts. rewrite <- !app_assoc.
    apply pair_free_field; [apply month_abbr_pair_free|].
    assert (Q : quiet (lit " " ++ PyStr.pad2 (PyLib.dt_day (PyLib.fields_of_us ts)) ++
                       lit " " ++ PyStr.pad2 (PyLib.dt_hour (PyLib.fields_of_us ts)) ++
                       lit ":" ++ PyStr.pad2 (PyLib.dt_minute (PyLib.fields_of_us ts)) ++
                       lit ":" ++ PyStr.pad2 (PyLib.dt_second (PyLib.fields_of_us ts)) ++
                       lit " " ++ host ++ lit " firewall[" ++ PyStr.str_of_Z pid ++
                       lit "]: ") = true).
    { rewrite !quiet_app, !pad2_quiet, Hh, str_of_Z_quiet. reflexivity. }
    match goal with
    | |- pair_free ?t = true /\ _ =>
        replace t with
          ((lit " " ++ PyStr.pad2 (PyLib.dt_day (PyLib.fields_of_us ts)) ++
            lit " " ++ PyStr.pad2 (PyLib.dt_hour (PyLib.fields_of_us ts)) ++
            lit ":" ++ PyStr.pad2 (PyLib.dt_minute (PyLib.fields_of_us ts)) ++
            lit ":" ++ PyStr.pad2 (PyLib.dt_second (PyLib.fields_of_us ts)) ++
            lit " " ++ host ++ lit " firewall[" ++ PyStr.str_of_Z pid ++ lit "]: ") ++
           lit "%FW-")
          by (rewrite <- !app_assoc; reflexivity)
    end.
    split; [|reflexivity].
    apply pair_free_app; [apply quiet_pair_free; exact Q | reflexivity | right; reflexivity].
  - apply tail_quiet_app. discriminate.
  - apply last_char_app. discriminate.
  - intros E. apply app_eq_nil in E. destruct E as [_ E]. discriminate E.
Qed.

(** What follows the severity in a line: no pair, and no capital at its
    start. *)
Lemma message_rest_calm (f : log_fields) (tail : str) :
  fields_ok f -> quiet tail = true ->
  exists rest,
    message_of_fields f ++ tail = lit "%FW-" ++ f_sev f ++ lit "-*." ++ rest /\
    pair_free (lit "-*." ++ rest) = true /\ head_quiet (lit "-*." ++ rest) = true.
Proof.
  intros (Hsev & Hproto & Hs & Hd & _ & Hin & Hout & Hact & _ & _ & _ & _ & Hu & Hr) Ht.
  unfold message_of_fields, message_of. eexists. split.
  { rewrite <- !app_assoc. reflexivity. }
  assert (Pr : pair_free (f_reason f) = true).
  { unfold reasons_of in Hr.
    destruct (_ || _); [|destruct (PyStr.eqb (f_sev f) "WARNING")];
      (eapply In_forallb; [|exact Hr]); reflexivity. }
  assert (Pp : pair_free (f_proto f) = true) by (eapply In_forallb; [|exact Hproto]; reflexivity).
  assert (Pa : pair_free (f_action f) = true) by (eapply In_forallb; [|exact Hact]; reflexivity).
  assert (Pi : pair_free (f_in_if f) = true) by (eapply In_forallb; [|exact Hin]; reflexivity).
  assert (Po : pair_free (f_out_if f) = true) by (eapply In_forallb; [|exact Hout]; reflexivity).
  assert (Ps : pair_free (f_s_ip f) = true) by (apply quiet_pair_free, address_text_quiet, Hs).
  assert (Pd : pair_free (f_d_ip f) = true) by (apply quiet_pair_free, address_text_quiet, Hd).
  assert (Pu : pair_free (f_uid f ++ tail) = true).
  { apply quiet_pair_free. rewrite quiet_app, (hex_text_quiet _ Hu), Ht. reflexivity. }
  assert (Pz : forall n, pair_free (PyStr.str_of_Z n) = true)
    by (intros n; apply quiet_pair_free, str_of_Z_quiet).
  repeat first
    [ exact Pu
    | apply calm_literal; [reflexivity | reflexivity | reflexivity | discriminate |]
    | apply pair_free_field;
        [first [exact Pr | exact Pp | exact Pa | exact Pi | exact Po | exact Ps | exact Pd
               | apply Pz]|] ].
Qed.

(** The level of a line of fields in range. *)
Lemma line_of_fields_level (ts pid : Z) (host tail : str) (f : log_fields) :
  quiet host = true -> quiet tail = true -> fields_ok f ->
  snd (fst (parse_log_line (line_prefix ts host pid ++ message_of_fields f ++ tail))) =
  if PyStr.eqb (f_sev f) "NOTICE" then lit "UNKNOWN" else f_sev f.
Proof.
  intros Hh Ht OK.
  destruct (message_rest_calm f tail OK Ht) as (rest & E & P & H).
  destruct (line_opening ts pid host Hh) as (OP & OT & OL & ON).
  unfold parse_log_line, LEVEL_PATTERN. cbn [fst snd].
  rewrite E. rewrite (app_assoc (line_prefix ts host pid) (lit "%FW-")).
  destruct OK as (Hsev & _).
  cbn in Hsev. destruct Hsev as [S|[S|[S|[S|[S|[]]]]]]; rewrite <- S in *;
    cbn [PyStr.eqb]; try change (PyStr.eqb (lit ?a) (lit ?b)) with false.
  - rewrite search_level_skip, OL by assumption. reflexivity.
  - rewrite search_level_none; [reflexivity|].
    apply pair_free_app; [exact OP | | left; exact OT].
    apply pair_free_field; [reflexivity | split; assumption].
  - rewrite search_level_skip, OL by assumption. reflexivity.
  - rewrite search_level_skip, OL by assumption. reflexivity.
  - rewrite search_level_skip, OL by assumption. reflexivity.
Qed.

(** The message of fields in range opens with the tag of its severity, and
    the rest of it is plain. *)
Lemma fields_ok_message_shape (f : log_fields) :
  fields_ok f ->
  exists rest,
    message_of_fields f = lit "%FW-" ++ f_sev f ++ lit "-*." ++ rest /\ plain rest = true.
Proof.
  intros (Hsev & Hproto & Hs & Hd & Hpt & Hin & Hout & Hact & Hb & Hpk & Hrule & _ & Hu & Hr).
  assert (Hspt : 0 <= f_s_pt f /\ 0 <= f_d_pt f).
  { destruct (is_tcp_udp (f_proto f)); [|lia].
    destruct Hpt as [H1 H2]. split; [lia|]. cbn in H2. intuition lia. }
  assert (Hpk' : 0 <= f_pkts f).
  { destruct (0 <? f_bytes f); [destruct Hpk as (d & _ & ->)|]; lia. }
  assert (Hreason : plain (f_reason f) = true).
  { unfold reasons_of in Hr.
    destruct (_ || _); [|destruct (PyStr.eqb (f_sev f) "WARNING")];
      (eapply In_plain; [|exact Hr]); reflexivity. }
  unfold message_of_fields.
  apply message_shape; try lia; try assumption;
    try (apply address_text_plain; assumption);
    try (apply hex_text_plain; assumption);
    try (eapply In_plain; [|eassumption]; reflexivity).
Qed.

(** The timestamp pattern matches nowhere in a line of fields in range. *)
Lemma line_of_fields_no_timestamp (ts pid : Z) (host tail : str) (f : log_fields) :
  plain host = true -> 0 <= pid -> hyphen_free tail = true -> fields_ok f ->
  TIMESTAMP_PATTERN (line_prefix ts host pid ++ message_of_fields f ++ tail) = None.
Proof.
  intros Hh Hp Ht OK. apply no_digit_hyphen_no_timestamp.
  rewrite app_assoc, digit_hyphen_before_plain by exact Ht.
  destruct (fields_ok_message_shape f OK) as (rest & E & Pr).
  destruct OK as (Hsev & _).
  apply (line_shape_no_digit_hyphen (line_prefix ts host pid)).
  - apply line_prefix_plain; assumption.
  - exists (f_sev f), rest. rewrite E. repeat split; assumption.
Qed.

(** X12.  What the summarizer reads in a line the generator wrote, with or
    without the newline after it: no timestamp, and as level the severity of
    the line when that is INFO, WARNING, ERROR or CRITICAL, but UNKNOWN when
    it is NOTICE, which is none of the level words.  No other text of the
    line is taken for a level. *)
Theorem generated_line_level (ts pid : Z) (tail : str) (f : log_fields) :
  0 <= pid -> tail = [] \/ tail = [LF] -> fields_ok f ->
  fst (fst (parse_log_line (line_prefix ts HOST pid ++ message_of_fields f ++ tail))) = None /\
  snd (fst (parse_log_line (line_prefix ts HOST pid ++ message_of_fields f ++ tail))) =
  (if PyStr.eqb (f_sev f) "NOTICE" then lit "UNKNOWN" else f_sev f).
Proof.
  intros Hp Ht OK. split.
  - apply line_of_fields_no_timestamp;
      [reflexivity | exact Hp | destruct Ht as [-> | ->]; reflexivity | exact OK].
  - apply line_of_fields_level;
      [reflexivity | destruct Ht as [-> | ->]; reflexivity | exact OK].
Qed.

Lemma generated_line_level_witness :
  parse_log_line
    "Oct 20 00:00:03 fw01.corp.example.com firewall[1042]: %FW-NOTICE-*.161: NAT translation success; src=172.16.0.49 dst=51.51.52.54 proto=TCP spt=55 dpt=3389 action=ACCEPT bytes=59 pkts=1 rule=161 in=eth1 out=wan0 uid=00000010
" = (None, lit "UNKNOWN",
     lit "Oct 20 00:00:03 fw01.corp.example.com firewall[1042]: %FW-NOTICE-*.161: NAT translation success; src=172.16.0.49 dst=51.51.52.54 proto=TCP spt=55 dpt=3389 action=ACCEPT bytes=59 pkts=1 rule=161 in=eth1 out=wan0 uid=00000010").
Proof.
  destruct (generated_line_level (T_2025_10_20 + 3000000) 1042 [LF]
              {| f_sev := "NOTICE"; f_proto := "TCP"; f_s_ip := "172.16.0.49";
                 f_d_ip := "51.51.52.54"; f_s_pt := 55; f_d_pt := 3389; f_in_if := "eth1";
                 f_out_if := "wan0"; f_action := "ACCEPT"; f_bytes := 59; f_pkts := 1;
                 f_rule := 161; f_uid := "00000010"; f_reason := "NAT translation success" |})
    as [T L].
  - lia.
  - right. reflexivity.
  - unfold fields_ok. cbn. repeat split; try lia; try tauto.
    exists 60. split; [lia | reflexivity].
  - unfold parse_log_line in *. cbn [fst snd] in T, L.
    change (line_prefix (T_2025_10_20 + 3000000) HOST 1042 ++ _ ++ [LF])
      with (lit "Oct 20 00:00:03 fw01.corp.example.com firewall[1042]: %FW-NOTICE-*.161: NAT translation success; src=172.16.0.49 dst=51.51.52.54 proto=TCP spt=55 dpt=3389 action=ACCEPT bytes=59 pkts=1 rule=161 in=eth1 out=wan0 uid=00000010
") in T, L.
    rewrite T, L. reflexivity.
Defined.

(* ================================================================= *)
(** * The generator: the records of a run *)

(** A record written for fields [f] at its timestamp: the prefix, the
    message and a newline, nothing stripped. *)
Definition record_of_fields (pid : Z) (r : Z * str) (f : log_fields) : Prop :=
  fields_ok f /\ snd r = line_prefix (fst r) HOST pid ++ message_of_fields f ++ [LF].

Lemma hex_text_not_space (c : ascii) :
  PyStr.is_digit c || PyStr.in_range 97 102 c = true -> PyStr.is_space c = false.
Proof.
  destruct c as [[] [] [] [] [] [] [] []]; intros H; try discriminate H; reflexivity.
Qed.

(** [rstrip] takes nothing from a line: it ends with the last digit of the
    id. *)
Lemma rstrip_fields (pre : str) (f : log_fields) :
  fields_ok f ->
  PyStr.rstrip (pre ++ message_of_fields f) = pre ++ message_of_fields f.
Proof.
  intros (_ & _ & _ & _ & _ & _ & _ & _ & _ & _ & _ & Hl & Hu & _).
  unfold message_of_fields. rewrite message_of_uid.
  assert (N : f_uid f <> []) by (intros E; rewrite E in Hl; discriminate Hl).
  destruct (exists_last N) as (u & c & E). rewrite E in *.
  rewrite !app_assoc. apply rstrip_not_space_end.
  unfold hex_text in Hu. rewrite forallb_app in Hu. apply andb_prop in Hu.
  destruct Hu as [_ Hc]. cbn [forallb] in Hc. rewrite andb_true_r in Hc.
  apply hex_text_not_space. exact Hc.
Qed.

Section RecordsOfARun.
Context `{RS : RandomSource}.

Lemma emit_records_fields (D : Prop) (fuel : nat) (pid : Z) (n : nat) :
  D \/ bounded_rejection fuel ->
  forall (ts : Z) (w : world),
  post D (fun records => List.length records = n /\
                         Forall (fun r => exists f, record_of_fields pid r f) records)
       (emit_records fuel n ts HOST pid w).
Proof.
  intros HF. induction n as [|n IH]; intros ts w; cbn [emit_records].
  - apply post_ret. split; [reflexivity | constructor].
  - eapply post_bind; [apply post_py_expovariate; reflexivity|].
    intros x w1 [X0 X1].
    destruct (timedelta_seconds_returns x X0 X1) as [delta E]. rewrite E.
    eapply post_bind; [apply make_log_line_fields_post; exact HF|].
    intros line w2 (f & OK & ->).
    eapply post_bind; [apply IH|]. intros rest w3 [Hn Hr].
    apply post_ret. split; [cbn; rewrite Hn; reflexivity|].
    constructor; [|exact Hr]. exists f. split; [exact OK|]. cbn [fst snd].
    rewrite (rstrip_fields _ f OK), <- app_assoc. reflexivity.
Qed.

Lemma generate_records_fields (D : Prop) (fuel : nat) (count : Z) (start_time : option Z)
    (seed : option Z) (env : os_env) :
  D \/ bounded_rejection fuel ->
  match generate_records fuel count start_time seed env with
  | Ok records =>
      List.length records = Z.to_nat count /\
      exists pid, 1000 <= pid <= 9999 /\
        Forall (fun r => exists f, record_of_fields pid r f) records
  | _ => D
  end.
Proof.
  intros HF. unfold generate_records.
  set (w := seeded_world seed env).
  set (ts := match start_time with Some t => t | None => env_now env end).
  assert (P : post D (fun records => List.length records = Z.to_nat count /\
                        exists pid, 1000 <= pid <= 9999 /\
                          Forall (fun r => exists f, record_of_fields pid r f) records)
                   ((pid <- randint 1000 9999;; emit_records fuel (Z.to_nat count) ts HOST pid) w)).
  { eapply post_bind; [apply post_randint; lia|]. intros pid w1 Hp. cbv beta in Hp.
    eapply post_weaken; [|apply emit_records_fields; exact HF].
    cbv beta. intros records [Hn Hr]. split; [exact Hn|]. exists pid. split; [lia | exact Hr]. }
  unfold post in P.
  destruct ((pid <- randint 1000 9999;; emit_records fuel (Z.to_nat count) ts HOST pid) w)
    as [[records w']| |]; exact P.
Qed.

(** X13.  The records of a run of [generate_logs]: [count] of them (none
    for a count that is zero or negative, and then the run needs no fuel and
    writes the empty file); one process id from 1000 to 9999 for all of them;
    and each written as the prefix at its timestamp, the message of fields in
    range and a newline, [rstrip] having taken nothing away. *)
Theorem generated_records_fields
    (fuel : nat) (count : Z) (start_time seed : option Z) (env : os_env) :
  (forall records, generate_records fuel count start_time seed env = Ok records ->
     List.length records = Z.to_nat count /\
     exists pid, 1000 <= pid <= 9999 /\
       Forall (fun r => exists f, record_of_fields pid r f) records) /\
  (count <= 0 -> generate_logs fuel count start_time seed env = Ok []).
Proof.
  split.
  - intros records E.
    pose proof (generate_records_fields True fuel count start_time seed env (or_introl I)) as P.
    rewrite E in P. exact P.
  - intros Hc. unfold generate_logs, generate_records.
    destruct (randint_run 1000 9999 (seeded_world seed env)) as (pid & g & E & _); [lia|].
    rewrite (bind_of_ok _ _ _ _ _ E).
    replace (Z.to_nat count) with 0%nat by lia. reflexivity.
Qed.

End RecordsOfARun.

Lemma generated_records_fields_witness :
  generate_logs (RS := CounterSource.source) 0 (-5) None (Some 1) some_env = Ok [] /\
  exists records pid,
    generate_records (RS := CounterSource.source) 2 3 (Some T_2025_10_20) (Some 42) some_env =
      Ok records /\
    List.length records = 3%nat /\ 1000 <= pid <= 9999 /\
    Forall (fun r => exists f, record_of_fields pid r f) records.
Proof.
  split.
  - apply (proj2 (generated_records_fields (RS := CounterSource.source) 0 (-5) None (Some 1)
                    some_env)). lia.
  - destruct (generate_records (RS := CounterSource.source) 2 3 (Some T_2025_10_20) (Some 42)
                some_env) as [records| |] eqn:E; try (vm_compute in E; discriminate E).
    destruct (proj1 (generated_records_fields (RS := CounterSource.source) 2 3
                       (Some T_2025_10_20) (Some 42) some_env) records E)
      as (Hn & pid & Hp & Hr).
    exists records, pid. repeat split; try assumption; lia.
Defined.

(* ================================================================= *)
(** * The summary of a generated file *)

(** The level the summarizer gives a severity of the generator. *)
Definition level_of_severity (sev : str) : str :=
  if PyStr.eqb sev "NOTICE" then lit "UNKNOWN" else sev.

(** The level counts of records with the fields [fs], counted in order. *)
Definition count_levels (fs : list log_fields) (c : Counter.t) : Counter.t :=
  fold_left (fun c f => Counter.incr (level_of_severity (f_sev f)) c) fs c.

Lemma Forall_exists_Forall2 {A B} (R : A -> B -> Prop) (l : list A) :
  Forall (fun a => exists b, R a b) l -> exists l', Forall2 R l l'.
Proof.
  induction 1 as [|a l [b Hb] _ [l' IH]].
  - exists []. constructor.
  - exists (b :: l'). constructor; assumption.
Qed.

(** The pass of the summarizer over the lines of records. *)
Lemma summarize_generated_lines (keyword : option str)
    (start_date end_date : option PyLib.datetime_fields) (pid : Z)
    (records : list (Z * str)) (fs : list log_fields) :
  Forall2 (record_of_fields pid) records fs ->
  Forall (fun line => TIMESTAMP_PATTERN line = None) (map snd records) ->
  forall a, exists a',
    summarize_lines keyword start_date end_date a (map snd records) = Ok a' /\
    level_counts a' = count_levels fs (level_counts a) /\
    total_lines a' = total_lines a + Z.of_nat (List.length fs).
Proof.
  induction 1 as [|r f records fs [OK Hr] _ IH]; intros T a.
  - exists a. cbn. repeat split. lia.
  - cbn [map] in T. inversion T as [|? ? Tr Tl]; subst.
    cbn [map summarize_lines]. unfold summarize_line.
    assert (L : snd (fst (parse_log_line (snd r))) = level_of_severity (f_sev f)).
    { rewrite Hr. apply line_of_fields_level; [reflexivity | reflexivity | exact OK]. }
    assert (Ts : fst (fst (parse_log_line (snd r))) = None) by exact Tr.
    destruct (parse_log_line (snd r)) as [[ts level] msg]. cbn [fst snd] in L, Ts. subst ts level.
    match goal with
    | |- context [summarize_lines _ _ _ ?b (map snd records)] =>
        destruct (IH Tl b) as (a' & E & Hl & Ht)
    end.
    exists a'. rewrite E. split; [reflexivity|]. rewrite Hl, Ht.
    match goal with
    | |- context [count_signature ?k ?lv ?m ?b] =>
        destruct (count_signature_fields k lv m b) as (_ & _ & -> & ->)
    end.
    cbn [level_counts total_lines count_levels fold_left List.length]. split; [reflexivity | lia].
Qed.

Section SummaryOfAGeneratedFile.
Context `{RS : RandomSource}.

(** X14.  The summarizer on a file of the generator, under any filters: it
    completes; [total_lines] is the number of records; and the level counts
    are the counts of the severities of the records in their order, the
    NOTICE records counted under UNKNOWN. *)
Theorem generated_file_level_counts
    (fuel : nat) (count : Z) (start_time seed : option Z) (env : os_env) (file : str) :
  generate_logs fuel count start_time seed env = Ok file ->
  exists records fs pid,
    generate_records fuel count start_time seed env = Ok records /\
    file = List.concat (map snd records) /\
    Forall2 (record_of_fields pid) records fs /\
    forall (file_path : str) (keyword : option str)
           (start_date end_date : option PyLib.datetime_fields),
    exists s,
      summarize_log file_path file keyword start_date end_date = Ok s /\
      total_lines (sum_aggregate s) = Z.of_nat (List.length records) /\
      level_counts (sum_aggregate s) = count_levels fs [].
Proof.
  intros H. unfold generate_logs in H.
  pose proof (generate_records_shape True fuel count start_time seed env (or_introl I)) as S.
  pose proof (generate_records_fields True fuel count start_time seed env (or_introl I)) as F.
  destruct (generate_records fuel count start_time seed env) as [records| |]; try discriminate.
  injection H as <-. destruct S as (Hn & pid0 & Hp0 & Hr0). destruct F as (_ & pid & Hp & Hr).
  destruct (Forall_exists_Forall2 _ _ Hr) as [fs F2].
  destruct (records_lines HOST pid0 records Hp0 HOST_plain Hr0) as (lines & Ln & Lm & Lc).
  assert (R : readlines (List.concat (map snd records)) = map snd records).
  { rewrite Lm. apply readlines_concat. exact Lc. }
  assert (N : Forall (fun line => TIMESTAMP_PATTERN line = None) (map snd records)).
  { apply Forall_map. eapply Forall_impl; [|exact Hr0]. intros r Hrec.
    apply (record_ok_no_timestamp HOST pid0 r HOST_plain Hp0 Hrec). }
  exists records, fs, pid. split; [reflexivity|]. split; [reflexivity|]. split; [exact F2|].
  intros file_path keyword start_date end_date. unfold summarize_log. rewrite R.
  destruct (summarize_generated_lines keyword start_date end_date pid records fs F2 N
              empty_aggregate) as (a' & E & Hl & Ht).
  rewrite E. eexists. split; [reflexivity|]. cbn [sum_aggregate]. split.
  - rewrite Ht. cbn [total_lines empty_aggregate].
    rewrite (Forall2_length F2). reflexivity.
  - exact Hl.
Qed.

End SummaryOfAGeneratedFile.

Lemma generated_file_level_counts_witness :
  exists records fs pid s,
    generate_records (RS := CounterSource.source) 2 3 (Some T_2025_10_20) (Some 42) some_env =
      Ok records /\
    Forall2 (record_of_fields pid) records fs /\
    summarize_log "fw.log" file_of_seed42 (Some (lit "policy")) None None = Ok s /\
    total_lines (sum_aggregate s) = Z.of_nat (List.length records) /\
    level_counts (sum_aggregate s) = count_levels fs [].
Proof.
  destruct (generated_file_level_counts (RS := CounterSource.source) 2 3
              (Some T_2025_10_20) (Some 42) some_env file_of_seed42)
    as (records & fs & pid & E & _ & F2 & S).
  - vm_compute. reflexivity.
  - destruct (S (lit "fw.log") (Some (lit "policy")) None None) as (s & Es & Ht & Hl).
    exists records, fs, pid, s. repeat split; assumption.
Defined.

(* ================================================================= *)
(** * The severity of a line *)

(** The severity [weighted_choice(SEVERITY)] returns for the draw [r]: the
    thresholds are the running float sums of the weights. *)
Definition severity_of_draw (r : float) : str :=
  if (r <=? 0.70)%float then lit "INFO"
  else if (r <=? 0.70 + 0.10)%float then lit "NOTICE"
  else if (r <=? 0.70 + 0.10 + 0.12)%float then lit "WARNING"
  else if (r <=? 0.70 + 0.10 + 0.12 + 0.06)%float then lit "ERROR"
  else lit "CRITICAL".

Lemma ltb_leb (x y : float) : (x <? y)%float = true -> (x <=? y)%float = true.
Proof.
  rewrite ltb_spec, leb_spec. unfold SFltb, SFleb.
  destruct (SFcompare (Prim2SF x) (Prim2SF y)) as [[| |]|]; congruence.
Qed.

(** In binary64 the five weights add up to exactly [1.0]. *)
Lemma severity_mass : last (cumulative_masses SEVERITY) 0%float = 1%float.
Proof. reflexivity. Qed.

Lemma severity_walk (r : float) :
  (r <? 1)%float = true ->
  weighted_walk SEVERITY 0%float r = Some (severity_of_draw r).
Proof.
  intros H. apply ltb_leb in H. unfold SEVERITY, severity_of_draw. cbn [weighted_walk].
  change (0 + 0.70)%float with 0.70%float.
  destruct (r <=? 0.70)%float; [reflexivity|].
  destruct (r <=? 0.70 + 0.10)%float; [reflexivity|].
  destruct (r <=? 0.70 + 0.10 + 0.12)%float; [reflexivity|].
  destruct (r <=? 0.70 + 0.10 + 0.12 + 0.06)%float; [reflexivity|].
  change (0.70 + 0.10 + 0.12 + 0.06 + 0.02)%float with 1%float. rewrite H. reflexivity.
Qed.

Section Severity.
Context `{RS : RandomSource}.

(** X15.  For the table SEVERITY the loop of [weighted_choice] always
    returns: the running sum of the five weights is exactly [1.0] in
    binary64, every draw of [random()] is below it, and the statement after
    the loop is never reached.  The severity is INFO for a draw up to
    [0.70], NOTICE up to [0.70 + 0.10], WARNING up to [0.70 + 0.10 + 0.12],
    ERROR up to [0.70 + 0.10 + 0.12 + 0.06] (the float sums), CRITICAL
    above; one draw is consumed. *)
Theorem severity_never_falls_through (w : world) :
  weighted_walk SEVERITY 0%float (fst (random (w_rng w))) <> None /\
  weighted_choice SEVERITY w =
    Ok (severity_of_draw (fst (random (w_rng w))), with_source w (snd (random (w_rng w)))).
Proof.
  pose proof (random_unit (w_rng w)) as [_ U].
  pose proof (severity_walk _ U) as S. split.
  - rewrite S. discriminate.
  - unfold weighted_choice. rewrite (bind_of_ok _ _ _ _ _ (py_random_run w)).
    unfold weighted_choice_at. rewrite S. reflexivity.
Qed.

End Severity.

Example severity_of_draw_samples :
  severity_of_draw 0.7%float = lit "INFO" /\
  severity_of_draw 0.8%float = lit "WARNING" /\
  severity_of_draw 0x1.999999999999ap-1%float = lit "WARNING" /\
  severity_of_draw 0x1.9999999999999p-1%float = lit "NOTICE" /\
  severity_of_draw 0.98%float = lit "ERROR" /\
  severity_of_draw 0x1.fffffffffffffp-1%float = lit "CRITICAL".
Proof. repeat split; reflexivity. Qed.

(* ================================================================= *)
(** * The syslog timestamp of a line *)

(** What [%b %d %H:%M:%S] shows of a datetime. *)
Definition syslog_fields (ts : Z) : Z * Z * Z * Z * Z :=
  let f := PyLib.fields_of_us ts in
  (PyLib.dt_month f, PyLib.dt_day f, PyLib.dt_hour f, PyLib.dt_minute f, PyLib.dt_second f).

Definition TWO_DIGIT : list Z := ints_from 100 0.
Definition MONTHS : list Z := ints_from 12 1.

Lemma pad2_check :
  forallb (fun n => (List.length (PyStr.pad2 n) =? 2)%nat && (Datetime.num (PyStr.pad2 n) =? n))
          TWO_DIGIT = true.
Proof. vm_compute. reflexivity. Qed.

Lemma month_abbr_check :
  forallb (fun a => (List.length (PyLib.month_abbr a) =? 3)%nat &&
                    forallb (fun b => negb (PyStr.eqb (PyLib.month_abbr a) (PyLib.month_abbr b))
                                      || (a =? b)) MONTHS)
          MONTHS = true.
Proof. vm_compute. reflexivity. Qed.

Lemma pad2_two (n : Z) :
  0 <= n < 100 -> List.length (PyStr.pad2 n) = 2%nat /\ Datetime.num (PyStr.pad2 n) = n.
Proof.
  intros H. pose proof pad2_check as F. rewrite forallb_forall in F.
  specialize (F n ltac:(apply in_ints_from; lia)). apply andb_prop in F.
  destruct F as [F1 F2]. apply Nat.eqb_eq in F1. apply Z.eqb_eq in F2. tauto.
Qed.

Lemma pad2_injective (a b : Z) :
  0 <= a < 100 -> 0 <= b < 100 -> PyStr.pad2 a = PyStr.pad2 b -> a = b.
Proof.
  intros Ha Hb E. rewrite <- (proj2 (pad2_two a Ha)), <- (proj2 (pad2_two b Hb)), E.
  reflexivity.
Qed.

Lemma month_abbr_three (m : Z) : 1 <= m <= 12 -> List.length (PyLib.month_abbr m) = 3%nat.
Proof.
  intros H. pose proof month_abbr_check as F. rewrite forallb_forall in F.
  specialize (F m ltac:(apply in_ints_from; lia)). apply andb_prop in F.
  destruct F as [F _]. apply Nat.eqb_eq in F. exact F.
Qed.

Lemma month_abbr_injective (a b : Z) :
  1 <= a <= 12 -> 1 <= b <= 12 -> PyLib.month_abbr a = PyLib.month_abbr b -> a = b.
Proof.
  intros Ha Hb E. pose proof month_abbr_check as F. rewrite forallb_forall in F.
  specialize (F a ltac:(apply in_ints_from; lia)). apply andb_prop in F.
  destruct F as [_ F]. rewrite forallb_forall in F.
  specialize (F b ltac:(apply in_ints_from; lia)).
  rewrite E, PyStr.eqb_refl in F. cbn in F. apply Z.eqb_eq in F. exact F.
Qed.

(** The ranges of the five fields. *)
Lemma syslog_fields_range (ts : Z) :
  let '(m, d, h, mi, s) := syslog_fields ts in
  1 <= m <= 12 /\ 1 <= d <= 31 /\ 0 <= h < 24 /\ 0 <= mi < 60 /\ 0 <= s < 60.
Proof.
  unfold syslog_fields, PyLib.fields_of_us. cbv zeta.
  pose proof (ord2ymd_range (ts / PyLib.US_PER_DAY + 1)) as R.
  destruct (PyLib.ord2ymd (ts / PyLib.US_PER_DAY + 1)) as [[y m] d].
  cbn [PyLib.dt_month PyLib.dt_day PyLib.dt_hour PyLib.dt_minute PyLib.dt_second].
  assert (B : 0 <= ts mod PyLib.US_PER_DAY < PyLib.US_PER_DAY)
    by (apply Z.mod_pos_bound; reflexivity).
  unfold PyLib.US_PER_DAY in *.
  repeat split; try lia; try (apply Z.mod_pos_bound; lia);
    first [apply Z.div_pos; lia | apply Z.div_lt_upper_bound; lia].
Qed.

Lemma app_split_length {A} (a b x y : list A) :
  a ++ x = b ++ y -> List.length a = List.length b -> a = b /\ x = y.
Proof.
  intros E L. assert (Eab : a = b) by (apply (app_same_length _ _ _ _ E L)).
  subst b. split; [reflexivity|]. apply app_inv_head in E. exact E.
Qed.

(** X16.  The timestamp of a line, [%b %d %H:%M:%S], is fifteen characters
    for every datetime, and it shows the month, the day, the hour, the
    minute and the second and nothing else: two datetimes are rendered
    alike exactly when they agree on these five, whatever their years and
    microseconds. *)
Theorem syslog_timestamp_text (ts ts' : Z) :
  List.length (format_syslog_ts ts) = 15%nat /\
  (format_syslog_ts ts = format_syslog_ts ts' <-> syslog_fields ts = syslog_fields ts').
Proof.
  pose proof (syslog_fields_range ts) as R. pose proof (syslog_fields_range ts') as R'.
  unfold format_syslog_ts, syslog_fields in *. cbv zeta in *.
  set (f := PyLib.fields_of_us ts) in *. set (f' := PyLib.fields_of_us ts') in *.
  destruct R as (Rm & Rd & Rh & Ri & Rs). destruct R' as (Rm' & Rd' & Rh' & Ri' & Rs').
  split; [|split].
  - rewrite !length_app, (month_abbr_three _ Rm).
    rewrite (proj1 (pad2_two (PyLib.dt_day f) ltac:(lia))),
      (proj1 (pad2_two (PyLib.dt_hour f) ltac:(lia))),
      (proj1 (pad2_two (PyLib.dt_minute f) ltac:(lia))),
      (proj1 (pad2_two (PyLib.dt_second f) ltac:(lia))). reflexivity.
  - intros E.
    apply app_split_length in E;
      [|rewrite !month_abbr_three by assumption; reflexivity].
    destruct E as [Em E]. apply app_inv_head in E.
    apply app_split_length in E;
      [|rewrite (proj1 (pad2_two (PyLib.dt_day f) ltac:(lia))),
          (proj1 (pad2_two (PyLib.dt_day f') ltac:(lia))); reflexivity].
    destruct E as [Ed E]. apply app_inv_head in E.
    apply app_split_length in E;
      [|rewrite (proj1 (pad2_two (PyLib.dt_hour f) ltac:(lia))),
          (proj1 (pad2_two (PyLib.dt_hour f') ltac:(lia))); reflexivity].
    destruct E as [Eh E]. apply app_inv_head in E.
    apply app_split_length in E;
      [|rewrite (proj1 (pad2_two (PyLib.dt_minute f) ltac:(lia))),
          (proj1 (pad2_two (PyLib.dt_minute f') ltac:(lia))); reflexivity].
    destruct E as [Ei E]. apply app_inv_head in E.
    apply month_abbr_injective in Em; [|assumption ..].
    apply pad2_injective in Ed, Eh, Ei, E; try lia.
    congruence.
  - intros E. injection E as -> -> -> -> ->. reflexivity.
Qed.

Lemma syslog_timestamp_text_witness :
  format_syslog_ts T_2025_10_20 = format_syslog_ts (T_2025_10_20 + 365 * 86400000000 + 999999).
Proof.
  apply (proj2 (proj2 (syslog_timestamp_text T_2025_10_20
                         (T_2025_10_20 + 365 * 86400000000 + 999999)))).
  vm_compute. reflexivity.
Defined.

(* ================================================================= *)
(** * The correlation id of a line *)

Lemma firstn_hex_fixed (k j : nat) : forall i : N,
  firstn k (PyStr.hex_fixed (k + j) i) = PyStr.hex_fixed k (N.shiftr i (4 * N.of_nat j)).
Proof.
  induction j as [|j IH]; intros i.
  - rewrite Nat.add_0_r. cbn [N.of_nat]. rewrite N.mul_0_r, N.shiftr_0_r.
    rewrite <- (hex_fixed_length k i) at 1. apply firstn_all.
  - rewrite Nat.add_succ_r. cbn [PyStr.hex_fixed].
    rewrite firstn_app, hex_fixed_length.
    replace (k - (k + j))%nat with 0%nat by lia. cbn [firstn]. rewrite app_nil_r.
    rewrite IH, N.shiftr_shiftr. f_equal. f_equal. lia.
Qed.

(** The version and variant bits of [uuid4] lie below the first four
    bytes. *)
Lemma uuid4_int_top (bytes16 : N) :
  N.shiftr (PyLib.uuid4_int bytes16) 96 = N.shiftr (bytes16 mod 2 ^ 128) 96.
Proof.
  unfold PyLib.uuid4_int. cbv zeta.
  rewrite N.shiftr_lor, N.shiftr_ldiff, N.shiftr_lor, N.shiftr_ldiff.
  change (N.shiftr (N.shiftl 49152 48) 96) with 0%N.
  change (N.shiftr (N.shiftl 32768 48) 96) with 0%N.
  change (N.shiftr (N.shiftl 61440 64) 96) with 0%N.
  change (N.shiftr (N.shiftl 4 76) 96) with 0%N.
  rewrite !N.ldiff_0_r, !N.lor_0_r. reflexivity.
Qed.

Section CorrelationId.
Context `{RS : RandomSource}.

(** X17.  The id of a line, [uuid.uuid4().hex[:8]], is the first four of
    the sixteen bytes read from [os.urandom], in hexadecimal: the version
    and variant bits that [uuid4] sets lie in later bytes and never show in
    it.  One block of the pool is read for it and the state of [random] is
    left alone.  Every id of eight hexadecimal digits occurs for some
    block. *)
Theorem uid_is_first_four_bytes (w : world) :
  uuid4_hex8 w =
    Ok (PyStr.hex_fixed 8 (N.shiftr (w_urandom w (w_reads w) mod 2 ^ 128) 96),
        {| w_rng := w_rng w; w_urandom := w_urandom w; w_reads := S (w_reads w) |}) /\
  (forall v : N, uid_of (N.shiftl v 96) = PyStr.hex_fixed 8 (v mod 2 ^ 32)).
Proof.
  assert (U : forall block,
             uid_of block = PyStr.hex_fixed 8 (N.shiftr (block mod 2 ^ 128) 96)).
  { intros block. unfold uid_of, PyLib.uuid_hex.
    rewrite (firstn_hex_fixed 8 24). change (4 * N.of_nat 24)%N with 96%N.
    rewrite uuid4_int_top. reflexivity. }
  split.
  - unfold uuid4_hex8, bind, os_urandom, ret. rewrite <- U. reflexivity.
  - intros v. rewrite U. f_equal.
    change (2 ^ 128)%N with (2 ^ 32 * 2 ^ 96)%N.
    rewrite N.shiftl_mul_pow2, N.shiftr_div_pow2.
    rewrite N.Div0.mul_mod_distr_r. apply N.div_mul. discriminate.
Qed.

End CorrelationId.

Example uid_samples :
  uid_of (N.shiftl 3735928559 96 + 2 ^ 96 - 1) = lit "deadbeef" /\
  PyLib.uuid_hex (PyLib.uuid4_int 0) = lit "00000000000040008000000000000000".
Proof. split; vm_compute; reflexivity. Qed.

(* ================================================================= *)
(** * The summarizer: the bounds of the date window *)

Lemma lex_ltb_irrefl (a : list Z) : Datetime.lex_ltb a a = false.
Proof.
  induction a as [|x a IH]; [reflexivity|].
  cbn [Datetime.lex_ltb]. rewrite Z.ltb_irrefl, Z.eqb_refl, IH. reflexivity.
Qed.

(** With [c < b] and not [a < b], [c < a]: the order is total on keys of
    one length. *)
Lemma lex_ltb_below (a : list Z) : forall b c,
  List.length a = List.length b -> List.length c = List.length b ->
  Datetime.lex_ltb c b = true -> Datetime.lex_ltb a b = false ->
  Datetime.lex_ltb c a = true.
Proof.
  induction a as [|x a IH]; intros [|y b] [|z c] La Lc H1 H2;
    try discriminate La; try discriminate Lc; try discriminate H1.
  cbn [Datetime.lex_ltb] in *. cbn [List.length] in La, Lc.
  apply orb_prop in H1. apply orb_false_elim in H2. destruct H2 as [H2 H3].
  apply Z.ltb_ge in H2.
  destruct H1 as [H1|H1].
  - apply Z.ltb_lt in H1. apply orb_true_intro. left. apply Z.ltb_lt. lia.
  - apply andb_prop in H1. destruct H1 as [H1 H4]. apply Z.eqb_eq in H1. subst z.
    destruct (Z.ltb_spec y x) as [L|G]; [reflexivity|].
    assert (x = y) by lia. subst y. rewrite Z.eqb_refl in *. cbn [orb andb] in *.
    apply (IH b c); [lia | lia | exact H4 | exact H3].
Qed.

(** X18.  The bounds of the date window.  Both are inclusive: a line whose
    timestamp is [start_date] or [end_date] itself passes the window.  And a
    window whose [start_date] is later than its [end_date] lets no line with
    a timestamp through: such a line leaves the error signatures as they
    were, whatever its level. *)
Theorem date_window_bounds
    (keyword : option str) (a : aggregate) (line t : str) (o : PyLib.datetime_fields) :
  TIMESTAMP_PATTERN line = Some t ->
  Datetime.fromisoformat (Datetime.replace_char "T" " " t) = Some o ->
  summarize_line keyword (Some o) (Some o) a line = summarize_line keyword None None a line /\
  forall start_date end_date a',
    Datetime.ltb end_date start_date = true ->
    summarize_line keyword (Some start_date) (Some end_date) a line = Ok a' ->
    error_messages a' = error_messages a.
Proof.
  intros HT HF. split.
  - unfold summarize_line, parse_log_line. rewrite HT, HF.
    unfold Datetime.ltb. rewrite lex_ltb_irrefl. reflexivity.
  - intros s e a' Hes. unfold summarize_line, parse_log_line. rewrite HT, HF.
    destruct (Datetime.ltb o s) eqn:Hos; [intros [= <-]; reflexivity|].
    assert (Heo : Datetime.ltb e o = true).
    { unfold Datetime.ltb in *. apply (lex_ltb_below _ (Datetime.key s)); try reflexivity;
        assumption. }
    rewrite Heo. intros [= <-]. reflexivity.
Qed.

Lemma date_window_bounds_witness :
  summarize_line None (Datetime.fromisoformat "2025-10-20 10:00:05")
    (Datetime.fromisoformat "2025-10-20 10:00:05") empty_aggregate error_line_1 =
  summarize_line None None None empty_aggregate error_line_1.
Proof.
  destruct (Datetime.fromisoformat "2025-10-20 10:00:05") as [o|] eqn:E;
    [|vm_compute in E; discriminate E].
  apply (proj1 (date_window_bounds None empty_aggregate error_line_1
                  "2025-10-20 10:00:05" o ltac:(vm_compute; reflexivity) E)).
Defined.

(* ================================================================= *)
(** * The summarizer: what the level counts count *)

(** The levels of the lines, in file order. *)
Definition levels_of (lines : list str) : list str :=
  map (fun line => snd (fst (parse_log_line line))) lines.

(** The distinct elements of a list, each at its first occurrence. *)
Definition first_seen_from (l acc : list str) : list str :=
  fold_left (fun acc x => if existsb (PyStr.eqb x) acc then acc else acc ++ [x]) l acc.

Definition first_seen (l : list str) : list str := first_seen_from l [].

(** Counting the elements of a list one by one. *)
Definition count_all (l : list str) (c : Counter.t) : Counter.t :=
  fold_left (fun c k => Counter.incr k c) l c.

Lemma counter_keys_incr_first_seen (k : str) (c : Counter.t) :
  map fst (Counter.incr k c) =
  if existsb (PyStr.eqb k) (map fst c) then map fst c else map fst c ++ [k].
Proof.
  induction c as [|[k' v] rest IH]; [reflexivity|].
  cbn [Counter.incr map fst existsb]. destruct (PyStr.eqb k k') eqn:E; cbn [orb].
  - reflexivity.
  - cbn [map fst]. rewrite IH. destruct (existsb (PyStr.eqb k) (map fst rest)); reflexivity.
Qed.

Lemma count_all_keys (l : list str) : forall c,
  map fst (count_all l c) = first_seen_from l (map fst c).
Proof.
  induction l as [|k l IH]; intros c; [reflexivity|].
  cbn [count_all first_seen_from fold_left]. fold (count_all l (Counter.incr k c)).
  rewrite IH, counter_keys_incr_first_seen. reflexivity.
Qed.

Lemma count_all_get (k : str) (l : list str) : forall c,
  Counter.get k (count_all l c) =
  Counter.get k c + Z.of_nat (List.length (filter (PyStr.eqb k) l)).
Proof.
  induction l as [|x l IH]; intros c; [cbn; lia|].
  cbn [count_all fold_left filter]. fold (count_all l (Counter.incr x c)).
  rewrite IH. destruct (PyStr.eqb k x) eqn:E.
  - apply PyStr.eqb_eq in E. subst x. rewrite counter_get_incr_same.
    cbn [List.length]. lia.
  - rewrite counter_get_incr_other; [reflexivity|].
    intros ->. rewrite PyStr.eqb_refl in E. discriminate E.
Qed.

Lemma summarize_lines_level_counts (keyword : option str)
    (start_date end_date : option PyLib.datetime_fields) (lines : list str) :
  forall a a', summarize_lines keyword start_date end_date a lines = Ok a' ->
  level_counts a' = count_all (levels_of lines) (level_counts a).
Proof.
  induction lines as [|line rest IH]; intros a a' H; cbn [summarize_lines] in H.
  - injection H as <-. reflexivity.
  - destruct (summarize_line keyword start_date end_date a line) as [a1| |] eqn:E;
      try discriminate.
    destruct (summarize_line_counts _ _ _ _ _ _ E) as (_ & Hl & _).
    rewrite (IH a1 a' H), Hl. reflexivity.
Qed.

(** X19.  When [summarize_log] completes, under any filters, the count it
    reports for a level is the number of lines of the file that
    [parse_log_line] gives that level (0 for a level it does not list), and
    the levels are listed in the order in which they first occur in the
    file. *)
Theorem level_counts_count_lines
    (file_path content : str) (keyword : option str)
    (start_date end_date : option PyLib.datetime_fields) (s : summary) :
  summarize_log file_path content keyword start_date end_date = Ok s ->
  (forall level,
     Counter.get level (level_counts (sum_aggregate s)) =
     Z.of_nat (List.length (filter (PyStr.eqb level) (levels_of (readlines content))))) /\
  map fst (level_counts (sum_aggregate s)) = first_seen (levels_of (readlines content)).
Proof.
  unfold summarize_log. intros H.
  destruct (summarize_lines keyword start_date end_date empty_aggregate (readlines content))
    as [a| |] eqn:E; try discriminate.
  injection H as <-. cbn [sum_aggregate].
  rewrite (summarize_lines_level_counts _ _ _ _ _ _ E). split.
  - intros level. rewrite count_all_get. reflexivity.
  - apply count_all_keys.
Qed.

Lemma level_counts_count_lines_witness :
  exists s,
    summarize_log "app.log" fixture None None None = Ok s /\
    Counter.get "ERROR" (level_counts (sum_aggregate s)) = 2 /\
    Counter.get "DEBUG" (level_counts (sum_aggregate s)) = 0 /\
    map fst (level_counts (sum_aggregate s)) =
      [lit "INFO"; lit "ERROR"; lit "WARNING"; lit "UNKNOWN"].
Proof.
  destruct (summarize_log "app.log" fixture None None None) as [s| |] eqn:E;
    try (vm_compute in E; discriminate E).
  exists s. split; [reflexivity|].
  destruct (level_counts_count_lines _ _ _ _ _ _ E) as [G K].
  rewrite !G, K. repeat split; vm_compute; reflexivity.
Defined.

(* ================================================================= *)
(** * The summarizer: what the signature counts count *)

(** The line is counted among the error signatures: its level is ERROR or
    CRITICAL, the keyword does not reject it, and its timestamp, if it has
    one, lies in the window. *)
Definition counted (keyword : option str)
    (start_date end_date : option PyLib.datetime_fields) (line : str) : bool :=
  let '(ts, level, msg) := parse_log_line line in
  is_error_level level && negb (keyword_rejects keyword msg) &&
  match ts with
  | None => true
  | Some t =>
      match Datetime.fromisoformat (Datetime.replace_char "T" " " t) with
      | Some o =>
          negb (match start_date with Some s => Datetime.ltb o s | None => false end) &&
          negb (match end_date with Some e => Datetime.ltb e o | None => false end)
      | None => false
      end
  end.

(** The signatures of the counted lines, in file order. *)
Definition signatures_of (keyword : option str)
    (start_date end_date : option PyLib.datetime_fields) (lines : list str) : list str :=
  map (fun line => short_msg (PyStr.strip line))
      (filter (counted keyword start_date end_date) lines).

Lemma summarize_line_signature (keyword : option str)
    (start_date end_date : option PyLib.datetime_fields) (a a' : aggregate) (line : str) :
  summarize_line keyword start_date end_date a line = Ok a' ->
  error_messages a' =
  count_all (signatures_of keyword start_date end_date [line]) (error_messages a).
Proof.
  unfold signatures_of, counted, summarize_line, parse_log_line. cbv zeta. cbn [filter].
  assert (C : forall b,
    error_messages (count_signature keyword
                      match LEVEL_PATTERN line with Some l => l | None => lit "UNKNOWN" end
                      (PyStr.strip line) b) =
    if is_error_level match LEVEL_PATTERN line with Some l => l | None => lit "UNKNOWN" end
       && negb (keyword_rejects keyword (PyStr.strip line))
    then Counter.incr (short_msg (PyStr.strip line)) (error_messages b)
    else error_messages b).
  { intros b. unfold count_signature.
    destruct (keyword_rejects keyword (PyStr.strip line)); cbn [negb andb];
      [rewrite andb_false_r; reflexivity|].
    rewrite andb_true_r. destruct (is_error_level _); reflexivity. }
  destruct (TIMESTAMP_PATTERN line) as [t|].
  - destruct (Datetime.fromisoformat _) as [o|]; [|discriminate].
    destruct (match start_date with Some s => Datetime.ltb o s | None => false end);
      [intros [= <-]; cbn [negb andb]; rewrite !andb_false_r; reflexivity|].
    destruct (match end_date with Some e => Datetime.ltb e o | None => false end);
      [intros [= <-]; cbn [negb andb]; rewrite !andb_false_r; reflexivity|].
    intros [= <-]. rewrite C. cbn [negb andb error_messages]. rewrite andb_true_r.
    destruct (_ && _); reflexivity.
  - intros [= <-]. rewrite C. cbn [error_messages]. rewrite andb_true_r.
    destruct (_ && _); reflexivity.
Qed.

Lemma summarize_lines_signatures (keyword : option str)
    (start_date end_date : option PyLib.datetime_fields) (lines : list str) :
  forall a a', summarize_lines keyword start_date end_date a lines = Ok a' ->
  error_messages a' =
  count_all (signatures_of keyword start_date end_date lines) (error_messages a).
Proof.
  induction lines as [|line rest IH]; intros a a' H; cbn [summarize_lines] in H.
  - injection H as <-. reflexivity.
  - destruct (summarize_line keyword start_date end_date a line) as [a1| |] eqn:E;
      try discriminate.
    rewrite (IH a1 a' H), (summarize_line_signature _ _ _ _ _ _ E).
    unfold signatures_of, count_all. cbn [filter].
    destruct (counted keyword start_date end_date line); reflexivity.
Qed.

(** X20.  When [summarize_log] completes, the count of a signature is the
    number of lines of the file that are counted (level ERROR or CRITICAL,
    not rejected by the keyword, timestamp in the window or absent) and have
    that signature; the signatures enter the counter in the order of their
    first such line. *)
Theorem signature_counts_count_lines
    (file_path content : str) (keyword : option str)
    (start_date end_date : option PyLib.datetime_fields) (s : summary) :
  summarize_log file_path content keyword start_date end_date = Ok s ->
  (forall k,
     Counter.get k (error_messages (sum_aggregate s)) =
     Z.of_nat (List.length
       (filter (PyStr.eqb k)
          (signatures_of keyword start_date end_date (readlines content))))) /\
  map fst (error_messages (sum_aggregate s)) =
    first_seen (signatures_of keyword start_date end_date (readlines content)).
Proof.
  unfold summarize_log. intros H.
  destruct (summarize_lines keyword start_date end_date empty_aggregate (readlines content))
    as [a| |] eqn:E; try discriminate.
  injection H as <-. cbn [sum_aggregate].
  rewrite (summarize_lines_signatures _ _ _ _ _ _ E). split.
  - intros k. rewrite count_all_get. reflexivity.
  - apply count_all_keys.
Qed.

Lemma signature_counts_count_lines_witness :
  exists s,
    summarize_log "app.log" scenario3 None None None = Ok s /\
    Counter.get "ERROR db connection to primary failed after"
      (error_messages (sum_aggregate s)) = 2.
Proof.
  destruct (summarize_log "app.log" scenario3 None None None) as [s| |] eqn:E;
    try (vm_compute in E; discriminate E).
  exists s. split; [reflexivity|].
  rewrite (proj1 (signature_counts_count_lines _ _ _ _ _ _ E)). vm_compute. reflexivity.
Defined.
